(** * bson-transpilers: the generic tree walker, the Java emitter and the
    Python emitter, embedded as state-passing functions.

    Sources embedded here:
    - [src/codegeneration/JavaGenerator.js], lines 1-369: the Java emitter
      (module [JavaGenerator]);
    - [src/codegeneration/JavaGenerator.js], lines 370-776: the shared
      visitor superclass [CodeGenerator.js] (module [CodeGenerator]);
    - [src/unnamed/part_000]: the Python emitter (module [PythonGenerator]).

    JavaScript strings are modelled as [string]: sequences of code units
    below 256.  The mutable [type] slot of a parse-tree node is a store
    keyed by node identity; the evaluation contexts of [context-eval] are a
    counter and a set of live context ids. *)

From Stdlib Require Import Ascii String ZArith Lia Sorted Permutation.
From stdpp Require Import gmap strings list pretty.

Set Warnings "-register-all".

Local Open Scope Z_scope.
Local Open Scope nat_scope.

(** ** JavaScript values and exceptions *)

Module Js.

(** The classes of exception thrown by the code under [src/], and the
    engine's own [TypeError]. *)
Inductive ErrorClass : Type :=
  | SemanticArgumentCountMismatchError
  | SemanticTypeError
  | SemanticReferenceError
  | SemanticAttributeError
  | SemanticGenericError
  | CodeGenerationError
  | TypeError.

Record Error : Type := mkError { err_class : ErrorClass; err_message : string }.

(** Completion of a call: a value, or a thrown exception. *)
Inductive result (A : Type) : Type :=
  | Ok (a : A)
  | Throw (e : Error).
Arguments Ok {A} a.
Arguments Throw {A} e.

Definition is_Ok {A} (r : result A) : bool :=
  match r with Ok _ => true | Throw _ => false end.

(** [s.charAt(i)]: the one-character string at index [i], or the empty
    string out of range. *)
Definition charAt (s : string) (i : nat) : string :=
  match String.get i s with
  | Some c => String c EmptyString
  | None => EmptyString
  end.

(** [s.substr(start, length)] for non-negative [start]; a negative
    [length] yields the empty string. *)
Definition substr (s : string) (start : nat) (len : Z) : string :=
  String.substring start (Z.to_nat len) s.

(** [s.split('')]: the one-character strings of [s]. *)
Fixpoint split_chars (s : string) : list string :=
  match s with
  | EmptyString => []
  | String c s' => String c EmptyString :: split_chars s'
  end.

(** [a.join(sep)]: an [undefined] element contributes the empty string. *)
Fixpoint join (sep : string) (a : list (option string)) : string :=
  match a with
  | [] => ""
  | [x] => default "" x
  | x :: a' => default "" x +:+ sep +:+ join sep a'
  end.

(** Default ordering of [Array.prototype.sort]: [undefined] entries go
    last, strings are ordered by code units. *)
Definition sort_le (x y : option string) : bool :=
  match x, y with
  | _, None => true
  | None, Some _ => false
  | Some a, Some b => String.leb a b
  end.

Fixpoint sort_insert (x : option string) (l : list (option string))
  : list (option string) :=
  match l with
  | [] => [x]
  | y :: l' => if sort_le x y then x :: y :: l' else y :: sort_insert x l'
  end.

(** [a.sort()] with no comparator. *)
Fixpoint sort (a : list (option string)) : list (option string) :=
  match a with
  | [] => []
  | x :: a' => sort_insert x (sort a')
  end.

(** White space of [String.prototype.trim] among the code units below
    256: TAB, LF, VT, FF, CR, SP and NBSP. *)
Definition is_white_space (c : ascii) : bool :=
  let n := nat_of_ascii c in
  ((9 <=? n) && (n <=? 13)) || (n =? 32) || (n =? 160).

Fixpoint trim_start (s : string) : string :=
  match s with
  | EmptyString => EmptyString
  | String c s' => if is_white_space c then trim_start s' else s
  end.

Fixpoint trim_end (s : string) : string :=
  match s with
  | EmptyString => EmptyString
  | String c s' =>
      match trim_end s' with
      | EmptyString => if is_white_space c then EmptyString else String c EmptyString
      | t => String c t
      end
  end.

(** [s.trim()]. *)
Definition trim (s : string) : string := trim_end (trim_start s).

(** [s.replace(/\\(?!\/)/, '\\\\')]: the regular expression has no [g]
    flag, so only the leftmost backslash that is not followed by a slash
    is replaced, by two backslashes. *)
Fixpoint replace_backslash_not_before_slash (s : string) : string :=
  match s with
  | EmptyString => EmptyString
  | String c s' =>
      if Ascii.eqb c "\"%char then
        match s' with
        | String "/"%char _ => String c (replace_backslash_not_before_slash s')
        | _ => String "\"%char (String "\"%char s')
        end
      else String c (replace_backslash_not_before_slash s')
  end.

End Js.
Export Js.

(** ** Symbol table *)

Module SymbolTable.

(** A Type of the symbol table.  Two Types are the same object exactly
    when their [id]s agree: the table holds one object per id. *)
Record JType : Type := mkType { type_id : string }.

Global Instance JType_eq_dec : EqDecision JType.
Proof. solve_decision. Defined.

(** Modelled from the spec: [SymbolTable.js] is not under [src/].  The
    spec (section 3) names the primitive Types by their ids, and
    [_numeric] as the union of [_integer], [_decimal], [_hex] and
    [_octal]. *)
Module Types.
Definition _string : JType := mkType "_string".
Definition _integer : JType := mkType "_integer".
Definition _decimal : JType := mkType "_decimal".
Definition _hex : JType := mkType "_hex".
Definition _octal : JType := mkType "_octal".
Definition _numeric : JType := mkType "_numeric".
Definition _array : JType := mkType "_array".
Definition _object : JType := mkType "_object".
Definition _undefined : JType := mkType "_undefined".
End Types.

(** Modelled from the spec: the instance Types of the recognized host
    classes, named by their ids (section 3). *)
Module JSClasses.
Definition Regex : JType := mkType "Regex".
Definition Date : JType := mkType "Date".
End JSClasses.

(** Modelled from the spec: the Types of the BSON classes, named by their
    ids (section 3). *)
Module BsonClasses.
Definition ObjectId : JType := mkType "ObjectId".
Definition RegExp : JType := mkType "BSONRegExp".
Definition Code : JType := mkType "Code".
End BsonClasses.

(** What the [type] slot of a node holds once it is set: a Type object,
    or the name of one (see [visitFuncCallExpression]). *)
Inductive TypeVal : Type :=
  | TObj (t : JType)
  | TName (s : string).

Global Instance TypeVal_eq_dec : EqDecision TypeVal.
Proof. solve_decision. Defined.

(** An entry of a parameter slot of an [args] schema: a Type object, the
    id of one, or [null], the sentinel of an optional argument. *)
Inductive SlotEntry : Type :=
  | EType (t : JType)
  | EId (s : string)
  | ENull.

Global Instance SlotEntry_eq_dec : EqDecision SlotEntry.
Proof. solve_decision. Defined.

End SymbolTable.
Export SymbolTable.

(** ** Parse tree, mutable state and the visitor monad *)

(** A parse-tree node: its identity, its whole-span text (the text of its
    tokens, without the blanks between them) and its children. *)
Inductive Node : Type :=
  mkNode { node_id : nat; getText : string; children : list Node }.

(** An [ArgumentListContext].  Its children are the argument expressions
    separated by comma terminals (the grammar is not under [src/]), so
    [getChildCount()] is twice the number of arguments minus one. *)
Record ArgumentListContext : Type :=
  mkArgumentList { singleExpression : list Node }.

Definition getChildCount (argumentList : ArgumentListContext) : nat :=
  2 * length (singleExpression argumentList) - 1.

(** A call context ([FuncCallExpressionContext] and the constructor
    contexts of the Python grammar): the node itself and what
    [ctx.arguments().argumentList()] returns, [None] for [null]. *)
Record CallContext : Type :=
  mkCall { call_node : Node; argumentList : option ArgumentListContext }.

(** A host value returned by the sandbox. *)
Inductive HostValue : Type :=
| HRegExp (source flags : string)
| HObjectID (hex : string)
| HDate (utc : option (Z * Z * Z * Z * Z * Z))
| HOther.

Record World : Type := mkWorld {
  node_types : gmap nat TypeVal;   (* the [type] slot of every node *)
  contexts_created : nat;          (* evaluation contexts allocated so far *)
  contexts_live : gset nat         (* those not yet destroyed *)
}.

Definition M (A : Type) : Type := World -> result A * World.

Definition ret {A} (a : A) : M A := fun w => (Ok a, w).

Definition throw {A} (c : ErrorClass) (message : string) : M A :=
  fun w => (Throw (mkError c message), w).

Definition rethrow {A} (e : Error) : M A := fun w => (Throw e, w).

Definition bind {A B} (m : M A) (k : A -> M B) : M B :=
  fun w => match m w with
           | (Ok a, w') => k a w'
           | (Throw e, w') => (Throw e, w')
           end.

(** [try { m } catch (error) { h error }] *)
Definition try_catch {A} (m : M A) (h : Error -> M A) : M A :=
  fun w => match m w with
           | (Ok a, w') => (Ok a, w')
           | (Throw e, w') => h e w'
           end.

Declare Scope js_scope.
Delimit Scope js_scope with js.
Notation "x <- m ;; k" := (bind m (fun x => k))
  (at level 100, m at next level, right associativity) : js_scope.
Notation "m ;;; k" := (bind m (fun _ => k))
  (at level 100, right associativity) : js_scope.
Local Open Scope js_scope.

(** [ctx.type] *)
Definition get_type (ctx : Node) : M (option TypeVal) :=
  fun w => (Ok (node_types w !! node_id ctx), w).

(** [ctx.type = v]; assigning [undefined] leaves the slot unset. *)
Definition set_type (ctx : Node) (v : option TypeVal) : M unit :=
  fun w => (Ok tt,
            mkWorld (match v with
                     | Some t => <[node_id ctx := t]> (node_types w)
                     | None => delete (node_id ctx) (node_types w)
                     end)
                    (contexts_created w) (contexts_live w)).

(** What the code under [src/] calls and does not define: the dispatch of
    the ANTLR runtime ([this.visit], which calls the [visit...] method of
    the node's class), the evaluation of source text in a context of
    [context-eval], and the string helpers of [helpers.js]. *)
Class Externals : Type := {
  visit : Node -> M string;
  Context_evaluate : string -> result HostValue;
  doubleQuoteStringify : string -> string;
  singleQuoteStringify : string -> string;
  removeQuotes : string -> string
}.

(** A [NewExpressionContext]: the node itself and what
    [ctx.singleExpression()] returns, one of its children. *)
Record NewExpressionContext : Type :=
  mkNew { new_node : Node; new_singleExpression : Node }.

(** A [FuncCallExpressionContext] as [visitFuncCallExpression] reads it:
    the call, the callee [ctx.singleExpression()] and, when the callee has
    an [identifierName] accessor, the object
    [ctx.singleExpression().singleExpression()] of that attribute access. *)
Record FuncCallExpressionContext : Type := mkFuncCall {
  fc_call : CallContext;
  fc_singleExpression : Node;
  fc_object : option Node
}.

(** Modelled from the spec: the [callable] field of a Type (section 3),
    one of not callable, function and constructor; only the first is
    falsy. *)
Inductive SymbolType : Type :=
| NOT_CALLABLE
| FUNC
| CONSTRUCTOR.

(** What the visitor reads of the symbol table and of itself, none of it
    under [src/]: [this.Symbols] and [this.Types] as maps from names, the
    fields [callable], [args], [type], [template] and [argsTemplate] of a
    Type, the methods [emit<Id>] of the target by the id they are named
    after, and the token [this.new].  A Type whose [type] is [null] has
    [None] here: assigning it leaves the slot without a Type. *)
Class SymbolTableEnv : Type := {
  Symbols : gmap string TypeVal;
  Types_by_name : gmap string JType;
  callable : JType -> SymbolType;
  args : JType -> list (list SlotEntry);
  type_of : JType -> option TypeVal;
  template : JType -> option (list string -> string);
  argsTemplate : JType -> option (string -> list string -> string);
  emit : string -> option (FuncCallExpressionContext -> M string);
  new_token : string
}.

(** What the emitters read of the class of a node:
    [child.constructor.name === 'TerminalNodeImpl']. *)
Class NodeClasses : Type := {
  is_TerminalNodeImpl : Node -> bool
}.

(** An [ArrayLiteralContext]: the node itself and what [ctx.elementList()]
    returns, [None] for [null]. *)
Record ArrayLiteralContext : Type :=
  mkArrayLiteral { arr_node : Node; elementList : option Node }.

(** A [PropertyAssignmentExpressionContext]: the node itself and its
    accessors [propertyName()] and [singleExpression()]. *)
Record PropertyAssignmentContext : Type := mkPropertyAssignment {
  pa_node : Node;
  propertyName : Node;
  pa_singleExpression : Node
}.

(** A [PropertyNameAndValueListContext]: the node itself and what
    [ctx.propertyAssignment()] returns. *)
Record PropertyNameAndValueListContext : Type := mkPropertyList {
  pl_node : Node;
  propertyAssignment : list PropertyAssignmentContext
}.

(** What a read [this.Symbols[name]] finds besides the symbols.
    [this.Symbols] is an object: a read of a name that is no symbol goes
    up the prototype chain of the object, where it finds [toString],
    [constructor] and the other properties that every object inherits.
    How the object is built is not under [src/]: [inherited] holds the
    names that are found that way.  The values found are no Types and have
    no [template].  A type slot of this development holds a Type, the name
    of one, or nothing, so what [ctx.type = this.Symbols[name]] leaves
    behind for such a name is not described here: [assign_inherited] is
    the world after the assignment. *)
Class SymbolsPrototype : Type := {
  inherited : gset string;
  assign_inherited : Node -> string -> World -> World
}.

(** The double quote of the message of [visitIdentifierExpression]. *)
Definition quotation_mark : string := String (ascii_of_nat 34) EmptyString.

(** ** The shared visitor superclass ([CodeGenerator.js]) *)

Module CodeGenerator.

Section WithExternals.
Context `{Ext : Externals}.

(** The [options] object of [visitChildren]; an absent key is [None].  A
    step is positive: with a step of 0 the loop would never end. *)
Record Options : Type := mkOptions {
  opt_start : option nat;
  opt_end : option Z;
  opt_step : option positive;
  opt_separator : option string;
  opt_ignore : option (list nat);
  opt_children : option (list Node)
}.

Definition no_options : Options := mkOptions None None None None None None.

(** The [for] loop of [visitChildren], from index [i]; [fuel] bounds the
    iterations left, and the loop stops by itself once [i] exceeds [end_]. *)
Fixpoint visitChildren_for (fuel i : nat) (end_ : Z) (step : positive)
    (separator : string) (ignore : list nat) (chs : list Node) (code : string)
    : M string :=
  match fuel with
  | 0 => ret code
  | S fuel' =>
      if (Z.of_nat i <=? end_)%Z then
        code' <- (if bool_decide (i ∈ ignore) then ret code
                  else match chs !! i with
                       | Some child =>
                           s <- visit child ;;
                           ret (code +:+ s +:+
                                (if (Z.of_nat i =? end_)%Z then "" else separator))
                       | None =>
                           throw TypeError "Cannot read property 'accept' of undefined"
                       end) ;;
        visitChildren_for fuel' (i + Pos.to_nat step) end_ step separator ignore chs code'
      else ret code
  end.

(** [visitChildren(ctx, options)] *)
Definition visitChildren (ctx : Node) (options : Options) : M string :=
  let start := default 0 (opt_start options) in
  let step := default 1%positive (opt_step options) in
  let separator := default "" (opt_separator options) in
  let ignore := default [] (opt_ignore options) in
  let chs := default (children ctx) (opt_children options) in
  let end_ := default (Z.of_nat (length chs) - 1)%Z (opt_end options) in
  code <- visitChildren_for (Z.to_nat (end_ - Z.of_nat start + 1)) start end_ step
            separator ignore chs "" ;;
  t <- get_type ctx ;;
  (match t with
   | None =>
       match chs with
       | child0 :: _ => t0 <- get_type child0 ;; set_type ctx t0
       | [] => set_type ctx (Some (TObj Types._undefined))
       end
   | Some _ => ret tt
   end) ;;;
  ret (trim code).

(** [visitTerminal(ctx)] *)
Definition visitTerminal (ctx : Node) : M string := ret (getText ctx).



(** [new Context(sandbox)]: a context that no earlier call returned. *)
Definition new_Context : M nat :=
  fun w => (Ok (contexts_created w),
            mkWorld (node_types w) (S (contexts_created w))
                    ({[contexts_created w]} ∪ contexts_live w)).

(** [ctx.evaluate(code)]: the sandbox is rebuilt by every call of
    [executeJavascript], so the outcome depends on the code alone. *)
Definition evaluate (ctx : nat) (code : string) : M HostValue :=
  fun w => (Context_evaluate code, w).

(** [ctx.destroy()] *)
Definition destroy (ctx : nat) : M unit :=
  fun w => (Ok tt,
            mkWorld (node_types w) (contexts_created w) (contexts_live w ∖ {[ctx]})).

(** [executeJavascript(input)] *)
Definition executeJavascript (input : string) : M HostValue :=
  ctx <- new_Context ;;
  res <- evaluate ctx ("__result = " +:+ input) ;;
  destroy ctx ;;;
  ret res.

(** [expected[i].indexOf(e) !== -1] *)
Definition slot_has (slot : list SlotEntry) (e : SlotEntry) : bool :=
  bool_decide (e ∈ slot).

(** The callback [(e) => e.id ? e.id : e] as the template literal renders
    its result: the id of a Type, an object without id as any object, a
    string as itself; reading [id] of [null] throws. *)
Definition slot_id (e : SlotEntry) : result (option string) :=
  match e with
  | EType t => Ok (Some (if String.eqb (type_id t) "" then "[object Object]"
                         else type_id t))
  | EId s => Ok (Some s)
  | ENull => Throw (mkError TypeError "Cannot read property 'id' of null")
  end.

(** [expected[i].map((e) => e.id ? e.id : e)] *)
Fixpoint slot_ids (slot : list SlotEntry) : result (list (option string)) :=
  match slot with
  | [] => Ok []
  | e :: slot' =>
      match slot_id e with
      | Throw err => Throw err
      | Ok id =>
          match slot_ids slot' with
          | Ok ids => Ok (id :: ids)
          | Throw err => Throw err
          end
      end
  end.

(** [args[i].type === T] for one of the four numeric Types *)
Definition is_numeric_type (t : option TypeVal) : bool :=
  bool_decide (t = Some (TObj Types._integer)) ||
  bool_decide (t = Some (TObj Types._decimal)) ||
  bool_decide (t = Some (TObj Types._hex)) ||
  bool_decide (t = Some (TObj Types._octal)).

(** The [for] loop of [checkArguments] from index [i], with [n] slots left. *)
Fixpoint checkArguments_for (n : nat) (expected : list (list SlotEntry))
    (args : list Node) (i : nat) (argStr : list string) : M (list string) :=
  match n with
  | 0 => ret argStr
  | S n' =>
      match expected !! i with
      | None => ret argStr
      | Some slot =>
          match args !! i with
          | None =>
              if slot_has slot ENull then ret argStr
              else throw SemanticArgumentCountMismatchError "too few arguments"
          | Some arg =>
              s <- visit arg ;;
              let argStr := argStr ++ [s] in
              t <- get_type arg ;;
              if slot_has slot (EType Types._numeric) && is_numeric_type t
              then checkArguments_for n' expected args (S i) argStr
              else
                match t with
                | None => throw TypeError "Cannot read property 'id' of undefined"
                | Some tv =>
                    let by_object := match tv with
                                     | TObj ty => slot_has slot (EType ty)
                                     | TName name => slot_has slot (EId name)
                                     end in
                    let by_id := match tv with
                                 | TObj ty => slot_has slot (EId (type_id ty))
                                 | TName _ => false
                                 end in
                    if negb by_object && negb by_id then
                      match slot_ids slot with
                      | Throw err => rethrow err
                      | Ok ids =>
                          throw SemanticTypeError
                            ("expected types " +:+ join "," ids +:+
                             " but got type " +:+
                             (match tv with
                              | TObj ty => type_id ty
                              | TName _ => "undefined"
                              end) +:+
                             " for argument at index " +:+ pretty i)
                      end
                    else checkArguments_for n' expected args (S i) argStr
                end
          end
      end
  end.

(** [checkArguments(expected, argumentList)]; [argumentList] is [None]
    for [null]. *)
Definition checkArguments (expected : list (list SlotEntry))
    (argumentList : option ArgumentListContext) : M (list string) :=
  match argumentList with
  | None =>
      if length expected =? 0 then ret []
      else throw SemanticArgumentCountMismatchError "arguments required"
  | Some argumentList =>
      let args := singleExpression argumentList in
      if length expected <? length args then
        throw SemanticArgumentCountMismatchError
          ("Arguments mismatch: expected " +:+ pretty (length expected) +:+
           " and got " +:+ pretty (length args))
      else checkArguments_for (length expected) expected args 0 []
  end.

End WithExternals.

Section WithSymbolTable.
Context `{Ext : Externals} `{Sym : SymbolTableEnv} `{Proto : SymbolsPrototype}.

(** [visitIdentifierExpression(ctx)].  The read [this.Symbols[name]]
    finds a symbol, or else a property that the object inherits, or else
    [undefined]. *)
Definition visitIdentifierExpression (ctx : Node) : M string :=
  name <- visitChildren ctx no_options ;;
  match Symbols !! name with
  | Some t =>
      set_type ctx (Some t) ;;;
      match t with
      | TObj ty =>
          match template ty with
          | Some f => ret (f [])
          | None => ret name
          end
      | TName _ => ret name
      end
  | None =>
      if bool_decide (name ∈ inherited) then
        (fun w => (Ok tt, assign_inherited ctx name w)) ;;;
        ret name
      else
        set_type ctx None ;;;
        throw SemanticReferenceError
          ("symbol " +:+ quotation_mark +:+ name +:+ quotation_mark +:+
           " is undefined")
  end.

(** [visitFuncCallExpression(ctx)] *)
Definition visitFuncCallExpression (ctx : FuncCallExpressionContext) : M string :=
  lhs <- visit (fc_singleExpression ctx) ;;
  t <- get_type (fc_singleExpression ctx) ;;
  let lhsType := match t with
                 | Some (TName name) => Types_by_name !! name
                 | Some (TObj ty) => Some ty
                 | None => None
                 end in
  match lhsType with
  | None => throw TypeError "Cannot read property 'id' of undefined"
  | Some lhsType =>
      match emit (type_id lhsType) with
      | Some hook => hook ctx
      | None =>
          set_type (call_node (fc_call ctx)) (type_of lhsType) ;;;
          match callable lhsType with
          | NOT_CALLABLE =>
              throw SemanticTypeError (type_id lhsType +:+ " is not callable")
          | kind =>
              rhs <- checkArguments (args lhsType) (argumentList (fc_call ctx)) ;;
              let newStr := match kind with CONSTRUCTOR => new_token | _ => "" end in
              match argsTemplate lhsType with
              | Some f =>
                  l <- match fc_object ctx with
                       | Some object => visit object
                       | None => ret lhs
                       end ;;
                  ret (newStr +:+ lhs +:+ f l rhs)
              | None =>
                  ret (newStr +:+ lhs +:+
                       ("(" +:+ join ", " (map Some rhs) +:+ ")"))
              end
          end
      end
  end.

End WithSymbolTable.

End CodeGenerator.

(** ** Host values *)

(** [regexobj.source] and [regexobj.flags]; [None] is [undefined]. *)
Definition source (v : HostValue) : option string :=
  match v with HRegExp s _ => Some s | _ => None end.

Definition flags (v : HostValue) : option string :=
  match v with HRegExp _ f => Some f | _ => None end.

(** [v.toHexString()] *)
Definition toHexString (v : HostValue) : M string :=
  match v with
  | HObjectID hex => ret hex
  | _ => throw TypeError "this.executeJavascript(...).toHexString is not a function"
  end.

(** ** The Java emitter ([JavaGenerator.js]) *)

Module JavaGenerator.

Definition JAVA_REGEX_FLAGS : gmap string string :=
  {[ "i" := "i"; "m" := "m"; "u" := "u"; "y" := ""; "g" := "" ]}.

(** The character class [[imuyg]] *)
Definition is_imuyg (c : string) : bool :=
  bool_decide (c ∈ ["i"; "m"; "u"; "y"; "g"]).

(** [flags.replace(/[imuyg]/g, m => JAVA_REGEX_FLAGS[m])] *)
Fixpoint replace_imuyg (s : string) : string :=
  match s with
  | EmptyString => EmptyString
  | String c s' =>
      let m := String c EmptyString in
      (if is_imuyg m then default "undefined" (JAVA_REGEX_FLAGS !! m) else m)
      +:+ replace_imuyg s'
  end.

(** The test of the loop body of [emitBSONRegExp] on [flags[i]] *)
Definition is_imxlsu (c : string) : bool :=
  bool_decide (c ∈ ["i"; "m"; "x"; "l"; "s"; "u"]).

(** The [for] loop of [emitBSONRegExp]: the first [flags[i]] with
    [1 <= i < flags.length - 1] that is not supported, if any. *)
Fixpoint first_unsupported (fuel i : nat) (flags : string) : option string :=
  match fuel with
  | 0 => None
  | S fuel' =>
      if i <? String.length flags - 1 then
        if is_imxlsu (charAt flags i) then first_unsupported fuel' (S i) flags
        else Some (charAt flags i)
      else None
  end.

Section WithExternals.
Context `{Ext : Externals}.

(** [visitRegularExpressionLiteral(ctx)], also [emitRegExp] *)
Definition visitRegularExpressionLiteral (ctx : Node) : M string :=
  set_type ctx (Some (TObj JSClasses.Regex)) ;;;
  pf <- try_catch
          (regexobj <- CodeGenerator.executeJavascript (getText ctx) ;;
           ret (source regexobj, flags regexobj))
          (fun error => throw CodeGenerationError (err_message error)) ;;
  match snd pf with
  | None => throw TypeError "Cannot read property 'replace' of undefined"
  | Some flags =>
      let javaflags := replace_imuyg flags in
      let javaflags := if String.eqb javaflags "" then ""
                       else "(?" +:+ javaflags +:+ ")" in
      match fst pf with
      | None => throw TypeError "Cannot read property 'replace' of undefined"
      | Some pattern =>
          let escaped := replace_backslash_not_before_slash pattern in
          ret ("Pattern.compile(" +:+ doubleQuoteStringify (escaped +:+ javaflags) +:+ ")")
      end
  end.

Definition emitRegExp := visitRegularExpressionLiteral.

(** [emitObjectId(ctx)] *)
Definition emitObjectId (ctx : CallContext) : M string :=
  set_type (call_node ctx) (Some (TObj BsonClasses.ObjectId)) ;;;
  match argumentList ctx with
  | None => ret "new ObjectId()"
  | Some argList =>
      hexstr <- try_catch
                  (v <- CodeGenerator.executeJavascript (getText (call_node ctx)) ;;
                   toHexString v)
                  (fun error => throw CodeGenerationError (err_message error)) ;;
      ret ("new ObjectId(" +:+ doubleQuoteStringify hexstr +:+ ")")
  end.

(** [emitBSONRegExp(ctx)] *)
Definition emitBSONRegExp (ctx : CallContext) : M string :=
  set_type (call_node ctx) (Some (TObj BsonClasses.RegExp)) ;;;
  match argumentList ctx with
  | None => throw CodeGenerationError "BSONRegExp requires one or two arguments"
  | Some argList =>
      let args := singleExpression argList in
      if negb ((length args =? 1) || (length args =? 2)) then
        throw CodeGenerationError "BSONRegExp requires one or two arguments"
      else
        match args !! 0 with
        | None => throw TypeError "Cannot read property 'accept' of undefined"
        | Some arg0 =>
            pattern <- visit arg0 ;;
            t0 <- get_type arg0 ;;
            if negb (bool_decide (t0 = Some (TObj Types._string))) then
              throw CodeGenerationError "BSONRegExp requires pattern to be a string"
            else if length args =? 2 then
              match args !! 1 with
              | None => throw TypeError "Cannot read property 'accept' of undefined"
              | Some arg1 =>
                  flags <- visit arg1 ;;
                  t1 <- get_type arg1 ;;
                  if negb (bool_decide (t1 = Some (TObj Types._string))) then
                    throw CodeGenerationError "BSONRegExp requires flags to be a string"
                  else
                    match first_unsupported (String.length flags) 1 flags with
                    | Some c =>
                        ret ("Error: the regular expression options [" +:+ c +:+
                             "] is not supported")
                    | None =>
                        ret ("new BsonRegularExpression(" +:+ pattern +:+ ", " +:+
                             flags +:+ ")")
                    end
              end
            else ret ("new BsonRegularExpression(" +:+ pattern +:+ ")")
        end
  end.

(** [visitNewExpression(ctx)] *)
Definition visitNewExpression (ctx : NewExpressionContext) : M string :=
  expr <- visit (new_singleExpression ctx) ;;
  t <- get_type (new_singleExpression ctx) ;;
  set_type (new_node ctx) t ;;;
  ret expr.

(** [emitCode(ctx)] *)
Definition emitCode (ctx : CallContext) : M string :=
  set_type (call_node ctx) (Some (TObj BsonClasses.Code)) ;;;
  match argumentList ctx with
  | None => throw CodeGenerationError "Code requires one or two arguments"
  | Some argList =>
      let args := singleExpression argList in
      if negb ((length args =? 1) || (length args =? 2)) then
        throw CodeGenerationError "Code requires one or two arguments"
      else
        match args !! 0 with
        | None => throw TypeError "Cannot read property 'getText' of undefined"
        | Some arg0 =>
            let code := doubleQuoteStringify (getText arg0) in
            if length args =? 2 then
              match args !! 1 with
              | None => throw TypeError "Cannot read property 'accept' of undefined"
              | Some arg1 =>
                  scope <- visit arg1 ;;
                  t1 <- get_type arg1 ;;
                  if negb (bool_decide (t1 = Some (TObj Types._object))) then
                    throw CodeGenerationError "Code requires scope to be an object"
                  else
                    ret ("new CodeWithScope(" +:+ code +:+ ", " +:+ scope +:+ ")")
              end
            else ret ("new Code(" +:+ code +:+ ")")
        end
  end.

(** [visitElementList(ctx)] *)
Definition visitElementList `{NC : NodeClasses} (ctx : Node) : M string :=
  let children := filter (fun child => is_TerminalNodeImpl child = false)
                         (children ctx) in
  CodeGenerator.visitChildren ctx
    (CodeGenerator.mkOptions None None None (Some ", ") None (Some children)).

(** [visitArrayLiteral(ctx)] *)
Definition visitArrayLiteral (ctx : ArrayLiteralContext) : M string :=
  set_type (arr_node ctx) (Some (TObj Types._array)) ;;;
  match elementList ctx with
  | None => ret "Arrays.asList()"
  | Some el =>
      s <- visit el ;;
      ret ("Arrays.asList(" +:+ s +:+ ")")
  end.

End WithExternals.

End JavaGenerator.

(** ** The Python emitter ([src/unnamed/part_000]) *)

Module PythonGenerator.

Definition PYTHON_REGEX_FLAGS : gmap string string :=
  {[ "i" := "i"; "m" := "m"; "u" := "a"; "y" := ""; "g" := "s" ]}.

Definition BSON_FLAGS : gmap string string :=
  {[ "i" := "i"; "m" := "m"; "x" := "x"; "s" := "s"; "l" := "l"; "u" := "u" ]}.

(** [Object.keys(BSON_FLAGS).includes(item)] *)
Definition is_bson_flag (item : string) : bool :=
  bool_decide (item ∈ dom BSON_FLAGS).

(** The six getters of [visitDateConstructorExpression], joined by a comma
    and a space; every getter of an invalid date returns [NaN]. *)
Definition utc_fields (v : HostValue) : M string :=
  match v with
  | HDate (Some (year, month, date, hours, minutes, seconds)) =>
      ret (join ", " [Some (pretty year); Some (pretty (month + 1)%Z);
                      Some (pretty date); Some (pretty hours);
                      Some (pretty minutes); Some (pretty seconds)])
  | HDate None =>
      ret (join ", " [Some "NaN"; Some "NaN"; Some "NaN";
                      Some "NaN"; Some "NaN"; Some "NaN"])
  | _ => throw TypeError "date.getUTCFullYear is not a function"
  end.

Section WithExternals.
Context `{Ext : Externals}.

(** [visitBSONObjectIdConstructor(ctx)] *)
Definition visitBSONObjectIdConstructor (ctx : CallContext) : M string :=
  match argumentList ctx with
  | None => ret "ObjectId()"
  | Some argumentList =>
      if negb (getChildCount argumentList =? 1) then
        throw SemanticArgumentCountMismatchError "ObjectId requires zero or one argument"
      else
        hexstr <- try_catch
                    (v <- CodeGenerator.executeJavascript (getText (call_node ctx)) ;;
                     toHexString v)
                    (fun error => throw SemanticGenericError (err_message error)) ;;
        ret ("ObjectId(" +:+ singleQuoteStringify hexstr +:+ ")")
  end.

(** [visitDateConstructorExpression(ctx)] *)
Definition visitDateConstructorExpression (ctx : CallContext) : M string :=
  match argumentList ctx with
  | None => ret "datetime.datetime.utcnow().date()"
  | Some _ =>
      dateStr <- try_catch
                   (date <- CodeGenerator.executeJavascript (getText (call_node ctx)) ;;
                    utc_fields date)
                   (fun error => throw SemanticGenericError (err_message error)) ;;
      ret ("datetime.datetime(" +:+ dateStr +:+ ", tzinfo=datetime.timezone.utc)")
  end.

(** [visitDateNowConstructorExpression()] *)
Definition visitDateNowConstructorExpression : M string :=
  ret "datetime.datetime.utcnow()".

(** [visitOctalIntegerLiteral(ctx)] *)
Definition visitOctalIntegerLiteral (ctx : Node) : M string :=
  set_type ctx (Some (TObj Types._octal)) ;;;
  oct <- CodeGenerator.visitChildren ctx CodeGenerator.no_options ;;
  let offset :=
    if String.eqb (charAt oct 0) "0" &&
       (String.eqb (charAt oct 1) "0" || String.eqb (charAt oct 1) "o" ||
        String.eqb (charAt oct 1) "O")
    then 2
    else if String.eqb (charAt oct 0) "0" then 1
    else 0 in
  ret ("0o" +:+ substr oct offset (Z.of_nat (String.length oct) - 1)).

(** [buildRegExp(ctx)] *)
Definition buildRegExp (ctx : Node) : M string :=
  pf <- try_catch
          (regexobj <- CodeGenerator.executeJavascript (getText ctx) ;;
           ret (source regexobj, flags regexobj))
          (fun error => throw SemanticGenericError (err_message error)) ;;
  match fst pf with
  | None => throw TypeError "Cannot read property 'replace' of undefined"
  | Some pattern =>
      let escaped := replace_backslash_not_before_slash pattern in
      match snd pf with
      | None => throw TypeError "Cannot read property 'split' of undefined"
      | Some flags =>
          if negb (String.eqb flags "") then
            let flags :=
              join "" (sort (map (fun item => PYTHON_REGEX_FLAGS !! item)
                                 (split_chars flags))) in
            ret ("re.compile(r" +:+
                 doubleQuoteStringify (escaped +:+ "(?" +:+ flags +:+ ")") +:+ ")")
          else ret ("re.compile(r" +:+ doubleQuoteStringify escaped +:+ ")")
      end
  end.

(** [visitRegExpConstructorExpression(ctx)] *)
Definition visitRegExpConstructorExpression (ctx : Node) : M string :=
  buildRegExp ctx.

(** [visitRegularExpressionLiteral(ctx)] *)
Definition visitRegularExpressionLiteral (ctx : Node) : M string :=
  buildRegExp ctx.

(** [visitBSONRegExpConstructor(ctx)] *)
Definition visitBSONRegExpConstructor (ctx : CallContext) : M string :=
  match argumentList ctx with
  | None =>
      throw SemanticArgumentCountMismatchError "BSONRegExp requires one or two arguments"
  | Some argumentList =>
      if negb (getChildCount argumentList =? 1) &&
         negb (getChildCount argumentList =? 3) then
        throw SemanticArgumentCountMismatchError
          "BSONRegExp requires one or two arguments"
      else
        let args := singleExpression argumentList in
        match args !! 0 with
        | None => throw TypeError "Cannot read property 'accept' of undefined"
        | Some arg0 =>
            pattern <- visit arg0 ;;
            t0 <- get_type arg0 ;;
            if negb (bool_decide (t0 = Some (TObj Types._string))) then
              throw SemanticTypeError "BSONRegExp requires pattern to be a string"
            else if length args =? 2 then
              match args !! 1 with
              | None => throw TypeError "Cannot read property 'accept' of undefined"
              | Some arg1 =>
                  flags <- visit arg1 ;;
                  t1 <- get_type arg1 ;;
                  if negb (bool_decide (t1 = Some (TObj Types._string))) then
                    throw SemanticTypeError "BSONRegExp requires flags to be a string"
                  else if negb (String.eqb flags "") then
                    let items := split_chars (removeQuotes flags) in
                    let unsuppotedFlags :=
                      filter (fun item => is_bson_flag item = false) items in
                    let flags := map (fun item => BSON_FLAGS !! item) items in
                    if 0 <? length unsuppotedFlags then
                      throw SemanticGenericError
                        ("Regular expression contains unsuppoted '" +:+
                         join "" (map Some unsuppotedFlags) +:+ "' flag")
                    else
                      ret ("RegExp(" +:+ pattern +:+ ", " +:+
                           singleQuoteStringify (join "" flags) +:+ ")")
                  else ret ("RegExp(" +:+ pattern +:+ ", " +:+ flags +:+ ")")
              end
            else ret ("RegExp(" +:+ pattern +:+ ")")
        end
  end.

(** [visitNewExpression(ctx)] *)
Definition visitNewExpression (ctx : NewExpressionContext) : M string :=
  child <- CodeGenerator.visitChildren (new_node ctx)
             (CodeGenerator.mkOptions (Some 1) None None None None None) ;;
  t <- get_type (new_singleExpression ctx) ;;
  set_type (new_node ctx) t ;;;
  ret child.

(** [visitBSONDoubleConstructor(ctx)] *)
Definition visitBSONDoubleConstructor (ctx : CallContext) : M string :=
  match argumentList ctx with
  | None => throw SemanticArgumentCountMismatchError "Double requires one argument"
  | Some argumentList =>
      if negb (getChildCount argumentList =? 1) then
        throw SemanticArgumentCountMismatchError "Double requires one argument"
      else
        match singleExpression argumentList !! 0 with
        | None => throw TypeError "Cannot read property 'accept' of undefined"
        | Some arg =>
            s <- visit arg ;;
            let double := removeQuotes s in
            t <- get_type arg ;;
            if negb (bool_decide (t = Some (TObj Types._string))) &&
               negb (bool_decide (t = Some (TObj Types._decimal))) &&
               negb (bool_decide (t = Some (TObj Types._integer))) then
              throw SemanticTypeError "Double requires a number or a string argument"
            else ret ("float(" +:+ double +:+ ")")
        end
  end.

(** [visitBSONSymbolConstructor(ctx)] *)
Definition visitBSONSymbolConstructor (ctx : CallContext) : M string :=
  match argumentList ctx with
  | None => throw SemanticArgumentCountMismatchError "Symbol requires one argument"
  | Some argumentList =>
      if negb (getChildCount argumentList =? 1) then
        throw SemanticArgumentCountMismatchError "Symbol requires one argument"
      else
        match singleExpression argumentList !! 0 with
        | None => throw TypeError "Cannot read property 'accept' of undefined"
        | Some arg =>
            symbol <- visit arg ;;
            t <- get_type arg ;;
            if negb (bool_decide (t = Some (TObj Types._string))) then
              throw SemanticTypeError "Symbol requires a string argument"
            else ret ("unicode(" +:+ symbol +:+ ", 'utf-8')")
        end
  end.

(** [visitObjectCreateConstructorExpression(ctx)] *)
Definition visitObjectCreateConstructorExpression (ctx : CallContext) : M string :=
  match argumentList ctx with
  | None =>
      throw SemanticArgumentCountMismatchError "Object.create() requires one argument"
  | Some argumentList =>
      if negb (getChildCount argumentList =? 1) then
        throw SemanticArgumentCountMismatchError "Object.create() requires one argument"
      else
        match singleExpression argumentList !! 0 with
        | None => throw TypeError "Cannot read property 'accept' of undefined"
        | Some arg =>
            obj <- visit arg ;;
            t <- get_type arg ;;
            if negb (bool_decide (t = Some (TObj Types._object))) then
              throw SemanticTypeError "Object.create() requires an object argument"
            else ret obj
        end
  end.

(** [visitBSONTimestampConstructor(ctx)] *)
Definition visitBSONTimestampConstructor (ctx : CallContext) : M string :=
  match argumentList ctx with
  | None => throw SemanticArgumentCountMismatchError "Timestamp requires two arguments"
  | Some argumentList =>
      if negb (getChildCount argumentList =? 3) then
        throw SemanticArgumentCountMismatchError "Timestamp requires two arguments"
      else
        let argList := singleExpression argumentList in
        match argList !! 0 with
        | None => throw TypeError "Cannot read property 'accept' of undefined"
        | Some arg0 =>
            low <- visit arg0 ;;
            t0 <- get_type arg0 ;;
            if negb (bool_decide (t0 = Some (TObj Types._integer))) then
              throw SemanticTypeError
                "Timestamp first argument requires integer arguments"
            else
              match argList !! 1 with
              | None => throw TypeError "Cannot read property 'accept' of undefined"
              | Some arg1 =>
                  high <- visit arg1 ;;
                  t1 <- get_type arg1 ;;
                  if negb (bool_decide (t1 = Some (TObj Types._integer))) then
                    throw SemanticTypeError
                      "Timestamp second argument requires integer arguments"
                  else ret ("Timestamp(" +:+ low +:+ ", " +:+ high +:+ ")")
              end
        end
  end.

(** [visitBSONDBRefConstructor(ctx)] *)
Definition visitBSONDBRefConstructor (ctx : CallContext) : M string :=
  match argumentList ctx with
  | None =>
      throw SemanticArgumentCountMismatchError "DBRef requires two or three arguments"
  | Some argumentList =>
      if negb (getChildCount argumentList =? 3) &&
         negb (getChildCount argumentList =? 5) then
        throw SemanticArgumentCountMismatchError "DBRef requires two or three arguments"
      else
        let args := singleExpression argumentList in
        match args !! 0 with
        | None => throw TypeError "Cannot read property 'accept' of undefined"
        | Some arg0 =>
            ns <- visit arg0 ;;
            t0 <- get_type arg0 ;;
            if negb (bool_decide (t0 = Some (TObj Types._string))) then
              throw SemanticTypeError "DBRef first argumnet requires string namespace"
            else
              match args !! 1 with
              | None => throw TypeError "Cannot read property 'accept' of undefined"
              | Some arg1 =>
                  oid <- visit arg1 ;;
                  t1 <- get_type arg1 ;;
                  if negb (bool_decide (t1 = Some (TObj Types._object))) then
                    throw SemanticTypeError "DBRef requires object OID"
                  else if length args =? 3 then
                    match args !! 2 with
                    | None =>
                        throw TypeError "Cannot read property 'accept' of undefined"
                    | Some arg2 =>
                        db <- visit arg2 ;;
                        t2 <- get_type arg2 ;;
                        if negb (bool_decide (t2 = Some (TObj Types._string))) then
                          throw SemanticTypeError "DbRef requires string collection"
                        else
                          ret ("DBRef(" +:+ ns +:+ ", " +:+ oid +:+ ", " +:+ db +:+ ")")
                    end
                  else ret ("DBRef(" +:+ ns +:+ ", " +:+ oid +:+ ")")
              end
        end
  end.

(** [visitBSONDecimal128Constructor(ctx)] *)
Definition visitBSONDecimal128Constructor (ctx : CallContext) : M string :=
  match argumentList ctx with
  | None => throw SemanticArgumentCountMismatchError "Decimal128 requires one argument"
  | Some argumentList =>
      if negb (getChildCount argumentList =? 1) then
        throw SemanticArgumentCountMismatchError "Decimal128 requires one argument"
      else
        match singleExpression argumentList !! 0 with
        | None => throw TypeError "Cannot read property 'accept' of undefined"
        | Some arg =>
            decimal <- visit arg ;;
            ret ("Decimal128(Decimal(" +:+ decimal +:+ "))")
        end
  end.

(** [visitPropertyNameAndValueList(ctx)] *)
Definition visitPropertyNameAndValueList (ctx : PropertyNameAndValueListContext)
    : M string :=
  CodeGenerator.visitChildren (pl_node ctx)
    (CodeGenerator.mkOptions None None None (Some ", ") None
       (Some (map pa_node (propertyAssignment ctx)))).

(** [visitPropertyAssignmentExpression(ctx)] *)
Definition visitPropertyAssignmentExpression (ctx : PropertyAssignmentContext)
    : M string :=
  name <- visit (propertyName ctx) ;;
  let key := singleQuoteStringify name in
  value <- visit (pa_singleExpression ctx) ;;
  ret (key +:+ ": " +:+ value).

(** [visitElementList(ctx)] *)
Definition visitElementList `{NC : NodeClasses} (ctx : Node) : M string :=
  let children := filter (fun child => is_TerminalNodeImpl child = false)
                         (children ctx) in
  CodeGenerator.visitChildren ctx
    (CodeGenerator.mkOptions None None None (Some ", ") None (Some children)).

(** [visitArrayLiteral(ctx)] *)
Definition visitArrayLiteral (ctx : Node) : M string :=
  set_type ctx (Some (TObj Types._array)) ;;;
  CodeGenerator.visitChildren ctx CodeGenerator.no_options.

End WithExternals.

End PythonGenerator.

(** ** A concrete environment for closed examples *)

Module Model.

Definition double_quote : string := String (ascii_of_nat 34) EmptyString.
Definition single_quote : string := "'".
Definition backslash : string := "\".

(** Every occurrence of the one-character string [q] in [s] preceded by a
    backslash. *)
Fixpoint escape_quote (q : string) (s : string) : string :=
  match s with
  | EmptyString => EmptyString
  | String c s' =>
      (if String.eqb (String c EmptyString) q then backslash +:+ q
       else String c EmptyString) +:+ escape_quote q s'
  end.

(** Modelled from the spec: [helpers.js] is not under [src/].  A string
    that starts and ends with the same quote character, single or double,
    loses both. *)
Definition removeQuotes (s : string) : string :=
  let first := charAt s 0 in
  let last := charAt s (String.length s - 1) in
  if (2 <=? String.length s) &&
     ((String.eqb first single_quote && String.eqb last single_quote) ||
      (String.eqb first double_quote && String.eqb last double_quote))
  then String.substring 1 (String.length s - 2) s
  else s.

(** Modelled from the spec: [helpers.js] is not under [src/].  Section 4.3,
    String rendering: a target's strings are wrapped in its quote
    character, double quotes here, and embedded quotes are escaped; the
    quotes that the source text has around it are replaced, not kept
    (section 8, scenario 2). *)
Definition doubleQuoteStringify (s : string) : string :=
  double_quote +:+ escape_quote double_quote (removeQuotes s) +:+ double_quote.

(** Modelled from the spec: [helpers.js] is not under [src/].  Section 4.3,
    String rendering, with single quotes: the text ["return 1"] in double
    quotes renders as ['return 1'] (section 8, scenario 2). *)
Definition singleQuoteStringify (s : string) : string :=
  single_quote +:+ escape_quote single_quote (removeQuotes s) +:+ single_quote.

(** The environment whose dispatcher is [visit] and whose sandbox is
    [evaluate], with the helpers above. *)
Definition externals (visit : Node -> M string)
    (evaluate : string -> result HostValue) : Externals :=
  Build_Externals visit evaluate doubleQuoteStringify singleQuoteStringify
                  removeQuotes.

(** The world before a translation: no node is typed, no context exists. *)
Definition initial_world : World := mkWorld ∅ 0 ∅.

End Model.

(** ** Notions used by the statements *)

(** A context is live only if it was created. *)
Definition contexts_wf (w : World) : Prop :=
  forall c, c ∈ contexts_live w -> c < contexts_created w.

(** The order in which [sort] leaves an array. *)
Definition sort_rel (x y : option string) : Prop := sort_le x y = true.

(** The order of strings by code units. *)
Definition string_le (a b : string) : Prop := String.leb a b = true.

(** The flag table of the Python target as the specification words it:
    [i] to [i], [m] to [m], [u] to [a], [g] to [s], and [y] dropped. *)
Definition python_flag_spec (item : string) : string :=
  if String.eqb item "i" then "i"
  else if String.eqb item "m" then "m"
  else if String.eqb item "u" then "a"
  else if String.eqb item "g" then "s"
  else "".

(** The flag table of the Java target as the specification words it:
    [i], [m] and [u] kept, [y] and [g] dropped. *)
Definition java_flag_spec (item : string) : string :=
  if String.eqb item "i" then "i"
  else if String.eqb item "m" then "m"
  else if String.eqb item "u" then "u"
  else "".

(** The flags that both tables translate. *)
Definition translatable (fl : string) : Prop :=
  Forall (fun item => item ∈ ["i"; "m"; "u"; "y"; "g"]) (split_chars fl).

(** Visiting [n] in the world [w] renders [s], leaves the world [w'] and
    leaves the type [t] in the slot of [n]. *)
Definition visits_to `{Ext : Externals} (n : Node) (w : World)
    (s : string) (t : TypeVal) (w' : World) : Prop :=
  visit n w = (Ok s, w') /\ node_types w' !! node_id n = Some t.

(** The world after [ctx.type = t]. *)
Definition typed (ctx : Node) (t : JType) (w : World) : World :=
  snd (set_type ctx (Some (TObj t)) w).

Definition is_octal_digit (c : ascii) : bool :=
  (48 <=? nat_of_ascii c) && (nat_of_ascii c <=? 55).

Fixpoint all_octal_digits (s : string) : bool :=
  match s with
  | EmptyString => true
  | String c s' => is_octal_digit c && all_octal_digits s'
  end.

(** Modelled from the spec: the lexer is not under [src/].  An octal
    literal is a [0], or a [0o] or [0O] prefix (section 4.3, Octal
    normalization), followed by one octal digit or more; the result is
    those digits. *)
Definition octal_digits_of (literal : string) : option string :=
  match literal with
  | String "0"%char (String c rest) =>
      if Ascii.eqb c "o"%char || Ascii.eqb c "O"%char then
        match rest with
        | EmptyString => None
        | _ => if all_octal_digits rest then Some rest else None
        end
      else if all_octal_digits (String c rest) then Some (String c rest)
      else None
  | _ => None
  end.

(** The integer that a string of octal digits denotes, most significant
    digit first. *)
Fixpoint octal_value_from (acc : N) (digits : string) : N :=
  match digits with
  | EmptyString => acc
  | String c digits' =>
      octal_value_from (8 * acc + (N_of_ascii c - 48))%N digits'
  end.

Definition octal_value (digits : string) : N := octal_value_from 0 digits.

(** The text that [visitOctalIntegerLiteral] builds from the text [oct] of
    the literal. *)
Definition python_octal (oct : string) : string :=
  let offset :=
    if String.eqb (charAt oct 0) "0" &&
       (String.eqb (charAt oct 1) "0" || String.eqb (charAt oct 1) "o" ||
        String.eqb (charAt oct 1) "O")
    then 2
    else if String.eqb (charAt oct 0) "0" then 1
    else 0 in
  "0o" +:+ substr oct offset (Z.of_nat (String.length oct) - 1).


(** The test that lets the loop of [checkArguments] go on to the next
    slot: the Type of the argument is an entry of the slot, or its id is,
    or the slot holds [_numeric] and the Type is one of the four numeric
    Types. *)
Definition acceptable (slot : list SlotEntry) (t : JType) : bool :=
  (CodeGenerator.slot_has slot (EType Types._numeric) &&
   CodeGenerator.is_numeric_type (Some (TObj t))) ||
  CodeGenerator.slot_has slot (EType t) ||
  CodeGenerator.slot_has slot (EId (type_id t)).

(** From index [i] on, the Type [ty arg] of every argument is acceptable
    for the slot of the same index. *)
Definition all_acceptable_from (ty : Node -> JType)
    (expected : list (list SlotEntry)) (args : list Node) (i : nat) : Prop :=
  forall j arg slot, i <= j -> args !! j = Some arg -> expected !! j = Some slot ->
                     acceptable slot (ty arg) = true.

(** Every backslash of [s] stands before a slash: the regular expression
    of the replacement matches nowhere in [s]. *)
Fixpoint backslashes_before_slash (s : string) : bool :=
  match s with
  | EmptyString => true
  | String c s' =>
      (if Ascii.eqb c "\"%char then
         match s' with
         | String "/"%char _ => true
         | _ => false
         end
       else true) && backslashes_before_slash s'
  end.

(** [post] does not start with a slash. *)
Definition no_leading_slash (post : string) : bool :=
  negb (String.eqb (charAt post 0) "/").

(** The letters of the rendered flags between the quotes, which the loop
    of the Java [emitBSONRegExp] inspects, are all among [imxlsu]. *)
Definition flags_supported (fl : string) : Prop :=
  forall k, 1 <= k < String.length fl - 1 ->
            JavaGenerator.is_imxlsu (charAt fl k) = true.

(** The renderings of the children of an element list that are not
    terminals, separated by a comma and a space. *)
Definition rendered_elements `{NC : NodeClasses} (rendered : Node -> string)
    (el : Node) : string :=
  trim (join ", "
          (map Some
             (map rendered
                (filter (fun child => is_TerminalNodeImpl child = false)
                        (children el))))).

(** The rendering of a property assignment: the name in single quotes, a
    colon, the value. *)
Definition rendered_property `{Ext : Externals} (rendered : Node -> string)
    (pa : PropertyAssignmentContext) : string :=
  singleQuoteStringify (rendered (propertyName pa)) +:+ ": " +:+
  rendered (pa_singleExpression pa).

(** The argument expressions of a call: those of its argument list, none
    when the call is written without arguments and has no argument list. *)
Definition arguments_of (argumentList : option ArgumentListContext) : list Node :=
  match argumentList with
  | Some al => singleExpression al
  | None => []
  end.

(** The calls that pass [checkArguments] against the schema [expected],
    whose optional slots are those from index [lo] on.  A call without
    argument list passes when the schema is empty.  A call with an
    argument list passes when the number of its arguments lies between
    [lo] and the number of slots and the Type of each argument is
    acceptable for its slot. *)
Definition call_accepted (ty : Node -> JType) (expected : list (list SlotEntry))
    (lo : nat) (argumentList : option ArgumentListContext) : Prop :=
  match argumentList with
  | None => expected = []
  | Some al =>
      lo <= length (singleExpression al) <= length expected /\
      all_acceptable_from ty expected (singleExpression al) 0
  end.

(** ** Environments of the closed examples *)

(** The error of the ObjectId shim on a string that is not a hex string. *)
Definition failing_error : Error :=
  mkError TypeError
    "Argument passed in must be a single String of 12 bytes or a string of 24 hex characters".

(** A sandbox in which the wrapped fragment [input] completes as
    [outcome]; no other code is evaluated in the examples. *)
Definition sandbox_on (input : string) (outcome : result HostValue)
    : string -> result HostValue :=
  fun code =>
    if String.eqb code ("__result = " +:+ input) then outcome
    else Throw (mkError TypeError "code outside the example").

(** [ObjectId('zz')] makes the shim of the sandbox throw. *)
Definition failing_sandbox : string -> result HostValue :=
  sandbox_on "ObjectId('zz')" (Throw failing_error).

(** The sandbox on the literal [/foo/gi]. *)
Definition foo_gi_sandbox : string -> result HostValue :=
  sandbox_on "/foo/gi" (Ok (HRegExp "foo" "gi")).

(** The sandbox on the literal [/\d\d/]. *)
Definition two_digits_sandbox : string -> result HostValue :=
  sandbox_on "/\d\d/" (Ok (HRegExp "\d\d" "")).

(** The sandbox on the literal [/foo/s]. *)
Definition foo_s_sandbox : string -> result HostValue :=
  sandbox_on "/foo/s" (Ok (HRegExp "foo" "s")).

(** The sandbox on [Date(2018, 0, 5, 10, 3, 0)], whose text has no blanks:
    the [Date] shim builds the date from [Date.UTC] of its arguments. *)
Definition date_sandbox : string -> result HostValue :=
  sandbox_on "Date(2018,0,5,10,3,0)"
             (Ok (HDate (Some (2018, 0, 5, 10, 3, 0)%Z))).

(** The sandbox on [ObjectId('5ab901c29ee65f5c8550c5b9', 1)]: the shim
    ignores the second argument. *)
Definition objectid_sandbox : string -> result HostValue :=
  sandbox_on "ObjectId('5ab901c29ee65f5c8550c5b9',1)"
             (Ok (HObjectID "5ab901c29ee65f5c8550c5b9")).

(** A sandbox that is never called. *)
Definition no_sandbox : string -> result HostValue :=
  fun _ => Throw (mkError TypeError "code outside the example").

(** A string literal as the Java target visits it: typed [_string] and
    rendered in double quotes (the symbol table and its templates are not
    under [src/]). *)
Definition visit_java_string (n : Node) : M string :=
  fun w => (Ok (Model.doubleQuoteStringify (Model.removeQuotes (getText n))),
            typed n Types._string w).

(** An integer literal as both targets visit it: typed [_integer] and
    rendered as it is written. *)
Definition visit_integer (n : Node) : M string :=
  fun w => (Ok (getText n), typed n Types._integer w).


(** A string literal as the Python target visits it: typed [_string] and
    rendered in single quotes. *)
Definition visit_python_string (n : Node) : M string :=
  fun w => (Ok (Model.singleQuoteStringify (Model.removeQuotes (getText n))),
            typed n Types._string w).

(** A symbol table with one constructor, [Int32], which takes a number or
    a string, has no template and no emit method; the target writes [new]
    before a constructor. *)
Definition Int32 : JType := mkType "Int32".

Definition int32_symbols : SymbolTableEnv :=
  Build_SymbolTableEnv
    {[ "Int32" := TObj Int32 ]}
    ∅
    (fun t => if decide (t = Int32) then CONSTRUCTOR else NOT_CALLABLE)
    (fun t => if decide (t = Int32)
              then [[EType Types._numeric; EType Types._string]] else [])
    (fun t => if decide (t = Int32) then Some (TObj Int32) else None)
    (fun _ => None)
    (fun _ => None)
    (fun _ => None)
    "new ".

(** The symbols of the examples are an object literal: it inherits the
    properties of [Object.prototype].  The examples read no type slot
    after the assignment of such a value. *)
Definition object_prototype : SymbolsPrototype :=
  Build_SymbolsPrototype
    (list_to_set ["constructor"; "hasOwnProperty"; "isPrototypeOf";
                  "propertyIsEnumerable"; "toLocaleString"; "toString"; "valueOf";
                  "__proto__"; "__defineGetter__"; "__defineSetter__";
                  "__lookupGetter__"; "__lookupSetter__"])
    (fun _ _ w => w).

(** The visit of the examples on calls: the identifier [Int32] is typed by
    its symbol, any other node is an integer literal. *)
Definition visit_call (n : Node) : M string :=
  fun w => (Ok (getText n),
            typed n (if String.eqb (getText n) "Int32" then Int32
                     else Types._integer) w).

(** The terminals of the examples are the nodes without children. *)
Definition leaf_terminals : NodeClasses :=
  Build_NodeClasses (fun n => match children n with [] => true | _ => false end).

(** The element list of the array literal [[1, 2]]: two expressions, each
    over one terminal, and the comma between them. *)
Definition one_two : Node :=
  mkNode 2 "1,2" [mkNode 3 "1" [mkNode 4 "1" []]; mkNode 5 "," [];
                  mkNode 6 "2" [mkNode 7 "2" []]].

(** The visit of the examples on arrays: the element list [1,2] goes to
    [visitElementList], whose children render as their text; any other
    node renders as its text. *)
Definition visit_array (n : Node) : M string :=
  if String.eqb (getText n) "1,2" then
    @JavaGenerator.visitElementList
      (Model.externals CodeGenerator.visitTerminal no_sandbox) leaf_terminals n
  else ret (getText n).

(** The visit of the examples on object literals: a node with a name, a
    colon and a value is a property assignment, any other node renders as
    its text. *)
Definition visit_property (n : Node) : M string :=
  match children n with
  | [name; _; value] =>
      ret (Model.singleQuoteStringify (getText name) +:+ ": " +:+ getText value)
  | _ => ret (getText n)
  end.

(** The property assignment of [name] to [value]. *)
Definition property (id : nat) (name value : string) : PropertyAssignmentContext :=
  let n := mkNode (id + 1) name [] in
  let v := mkNode (id + 3) value [] in
  mkPropertyAssignment (mkNode id (name +:+ ":" +:+ value) [n; mkNode (id + 2) ":" []; v])
                       n v.

(** * Properties *)

Local Open Scope js_scope.

(** Unfolds the monad so that a computation reduces by [simpl]. *)
Ltac run_js :=
  unfold bind, ret, throw, rethrow, try_catch, get_type, set_type in *;
  simpl in *.

(** ** The bounded loops run to their end *)

Section Loops.
Context `{Ext : Externals}.

(** One iteration of the loop of [visitChildren]. *)
Lemma visitChildren_for_step (fuel i : nat) (end_ : Z) (step : positive)
    (separator : string) (ignore : list nat) (chs : list Node) (code : string) :
  CodeGenerator.visitChildren_for (S fuel) i end_ step separator ignore chs code =
    if (Z.of_nat i <=? end_)%Z then
      code' <- (if bool_decide (i ∈ ignore) then ret code
                else match chs !! i with
                     | Some child =>
                         s <- visit child ;;
                         ret (code +:+ s +:+
                              (if (Z.of_nat i =? end_)%Z then "" else separator))
                     | None =>
                         throw TypeError "Cannot read property 'accept' of undefined"
                     end) ;;
      CodeGenerator.visitChildren_for fuel (i + Pos.to_nat step) end_ step
        separator ignore chs code'
    else ret code.
Proof. reflexivity. Qed.

(** The loop of [visitChildren] never stops for lack of fuel: once the
    fuel covers the indices from [i] to [end_], more fuel changes nothing. *)
Lemma visitChildren_for_fuel (fuel i : nat) (end_ : Z) (step : positive)
    (separator : string) (ignore : list nat) (chs : list Node) (code : string)
    (w : World) :
  Z.to_nat (end_ - Z.of_nat i + 1) <= fuel ->
  CodeGenerator.visitChildren_for (S fuel) i end_ step separator ignore chs code w
    = CodeGenerator.visitChildren_for fuel i end_ step separator ignore chs code w.
Proof.
  revert i code w. induction fuel as [|fuel IH]; intros i code w Hfuel.
  - simpl. destruct (Z.leb_spec (Z.of_nat i) end_) as [Hle|_]; [lia|reflexivity].
  - rewrite (visitChildren_for_step (S fuel) i), (visitChildren_for_step fuel i).
    destruct (Z.leb_spec (Z.of_nat i) end_) as [Hle|Hgt]; [|reflexivity].
    unfold bind at 1 3.
    match goal with |- context [?m w] =>
      destruct (m w) as [[code'|e] w'] end; [|reflexivity].
    apply IH. lia.
Qed.

(** What the loop of the Java [emitBSONRegExp] finds: the letter at the
    least index between the quotes that is outside [imxlsu]. *)
Lemma first_unsupported_some (fuel i : nat) (fl c : string) :
  JavaGenerator.first_unsupported fuel i fl = Some c ->
  exists j, i <= j < String.length fl - 1 /\ charAt fl j = c /\
            JavaGenerator.is_imxlsu c = false /\
            forall k, i <= k < j -> JavaGenerator.is_imxlsu (charAt fl k) = true.
Proof.
  revert i. induction fuel as [|fuel IH]; intros i H; [discriminate|].
  simpl in H. destruct (Nat.ltb_spec i (String.length fl - 1)) as [Hlt|]; [|discriminate].
  destruct (JavaGenerator.is_imxlsu (charAt fl i)) eqn:Hsup.
  - destruct (IH (S i) H) as (j & Hj & Hc & Hns & Hbefore).
    exists j. split; [lia|]. split; [exact Hc|]. split; [exact Hns|].
    intros k Hk. destruct (decide (k = i)) as [->|Hne]; [exact Hsup|].
    apply Hbefore. lia.
  - inversion H; subst. exists i. split; [lia|]. split; [reflexivity|].
    split; [exact Hsup|]. intros k Hk. lia.
Qed.

(** With the fuel that [emitBSONRegExp] gives it, the loop answers [None]
    only when every letter between the quotes is supported. *)
Lemma first_unsupported_none (fuel i : nat) (fl : string) :
  String.length fl - 1 <= i + fuel ->
  JavaGenerator.first_unsupported fuel i fl = None ->
  forall k, i <= k < String.length fl - 1 ->
            JavaGenerator.is_imxlsu (charAt fl k) = true.
Proof.
  revert i. induction fuel as [|fuel IH]; intros i Hfuel H k Hk; [lia|].
  simpl in H. destruct (Nat.ltb_spec i (String.length fl - 1)) as [Hlt|]; [|lia].
  destruct (JavaGenerator.is_imxlsu (charAt fl i)) eqn:Hsup; [|discriminate].
  destruct (decide (k = i)) as [->|Hne]; [exact Hsup|].
  apply (IH (S i)); [lia|exact H|lia].
Qed.

End Loops.

(** ** The sandbox: [executeJavascript] *)

Section Sandbox.
Context `{Ext : Externals}.

(** The initial world has no context. *)
Lemma initial_world_wf : contexts_wf Model.initial_world.
Proof. intros c Hc. simpl in Hc. set_solver. Qed.

(** The context that [executeJavascript] allocates is not live before the
    call, and was never returned before. *)
Lemma new_Context_fresh (w : World) :
  contexts_wf w ->
  fst (CodeGenerator.new_Context w) = Ok (contexts_created w) /\
  (contexts_created w ∉ contexts_live w) /\
  contexts_created w ∈ contexts_live (snd (CodeGenerator.new_Context w)).
Proof.
  intros Hwf. split; [reflexivity|]. split.
  - intros Hin. apply Hwf in Hin. lia.
  - simpl. set_solver.
Qed.

(** X3.  When the evaluation succeeds, the value is returned, the fragment
    was evaluated as [__result = <fragment>], one context was allocated,
    and the set of live contexts is what it was before the call. *)
Lemma executeJavascript_success (input : string) (v : HostValue) (w : World) :
  contexts_wf w ->
  Context_evaluate ("__result = " +:+ input) = Ok v ->
  fst (CodeGenerator.executeJavascript input w) = Ok v /\
  contexts_live (snd (CodeGenerator.executeJavascript input w)) = contexts_live w /\
  contexts_created (snd (CodeGenerator.executeJavascript input w))
    = S (contexts_created w).
Proof.
  intros Hwf Hev. unfold CodeGenerator.executeJavascript, CodeGenerator.evaluate.
  run_js. rewrite Hev. simpl. repeat split.
  apply set_eq. intros c. specialize (Hwf c).
  rewrite elem_of_difference, elem_of_union, elem_of_singleton.
  split; [intros [[?|?] ?]; [congruence|assumption]|].
  intros Hc. split; [right; assumption|]. intros ->. apply Hwf in Hc. lia.
Qed.

(** The outcome and the node types do not depend on the contexts. *)
Lemma executeJavascript_outcome (input : string) (w : World) :
  fst (CodeGenerator.executeJavascript input w)
    = Context_evaluate ("__result = " +:+ input) /\
  node_types (snd (CodeGenerator.executeJavascript input w)) = node_types w.
Proof.
  unfold CodeGenerator.executeJavascript, CodeGenerator.evaluate. run_js.
  destruct (Context_evaluate _); simpl; auto.
Qed.

(** C2, at the failing path.  When the evaluation of the wrapped fragment
    throws, [executeJavascript] passes the exception on and never reaches
    [ctx.destroy()]: the context it has just allocated, which was not live
    before the call, is still live after it. *)
Theorem executeJavascript_leaks_context_on_throw
    (input : string) (e : Error) (w : World) :
  contexts_wf w ->
  Context_evaluate ("__result = " +:+ input) = Throw e ->
  fst (CodeGenerator.executeJavascript input w) = Throw e /\
  (contexts_created w ∉ contexts_live w) /\
  contexts_created w ∈ contexts_live (snd (CodeGenerator.executeJavascript input w)).
Proof.
  intros Hwf Hev. unfold CodeGenerator.executeJavascript, CodeGenerator.evaluate.
  run_js. rewrite Hev. simpl. split; [reflexivity|]. split.
  - intros Hin. apply Hwf in Hin. lia.
  - set_solver.
Qed.

End Sandbox.

(** [executeJavascript] on the fragment [ObjectId('zz')], in the initial
    world. *)
Lemma executeJavascript_leaks_context_on_throw_witness :
  let Ext := Model.externals CodeGenerator.visitTerminal failing_sandbox in
  contexts_wf Model.initial_world /\
  Context_evaluate ("__result = " +:+ "ObjectId('zz')") = Throw failing_error /\
  (fst (CodeGenerator.executeJavascript "ObjectId('zz')" Model.initial_world)
     = Throw failing_error /\
   (0 ∉ contexts_live Model.initial_world) /\
   0 ∈ contexts_live
         (snd (CodeGenerator.executeJavascript "ObjectId('zz')" Model.initial_world))).
Proof.
  intros Ext. split; [exact initial_world_wf|]. split; [reflexivity|].
  apply (@executeJavascript_leaks_context_on_throw Ext "ObjectId('zz')"
           failing_error Model.initial_world);
    [exact initial_world_wf | reflexivity].
Defined.

(** ** Strings *)

Section Strings.

Lemma append_cons (c : ascii) (s t : string) :
  String c s +:+ t = String c (s +:+ t).
Proof. reflexivity. Qed.

Lemma append_nil_r (s : string) : s +:+ "" = s.
Proof.
  induction s as [|c s IH]; [reflexivity|]. now rewrite append_cons, IH.
Qed.

Lemma append_assoc (s t u : string) : (s +:+ t) +:+ u = s +:+ (t +:+ u).
Proof.
  induction s as [|c s IH]; [reflexivity|]. now rewrite !append_cons, IH.
Qed.

(** Joining the characters of a string gives the string back. *)
Lemma concat_split_chars (s : string) : String.concat "" (split_chars s) = s.
Proof.
  induction s as [|c s IH]; [reflexivity|].
  simpl. destruct (split_chars s) as [|d l] eqn:E.
  - destruct s; [reflexivity|discriminate].
  - simpl in IH |- *. now rewrite IH.
Qed.

End Strings.

(** ** JavaScript arrays and strings *)

Section JsFacts.

(** [sort] returns a sorted permutation of the array. *)
Lemma sort_le_total (x y : option string) : sort_le x y = true \/ sort_le y x = true.
Proof.
  destruct x as [a|], y as [b|]; simpl; auto. apply String.leb_total.
Qed.

Lemma sort_insert_perm (x : option string) (l : list (option string)) :
  sort_insert x l ≡ₚ x :: l.
Proof.
  induction l as [|y l IH]; simpl; [reflexivity|].
  destruct (sort_le x y); [reflexivity|].
  rewrite IH. apply Permutation_swap.
Qed.

Lemma sort_perm (l : list (option string)) : sort l ≡ₚ l.
Proof.
  induction l as [|x l IH]; simpl; [reflexivity|].
  rewrite sort_insert_perm. now rewrite IH.
Qed.

Lemma sort_insert_hd (x y : option string) (l : list (option string)) :
  sort_rel y x -> HdRel sort_rel y l -> HdRel sort_rel y (sort_insert x l).
Proof.
  intros Hyx Hhd. destruct l as [|z l]; simpl; [constructor; exact Hyx|].
  destruct (sort_le x z); constructor; [exact Hyx|].
  inversion Hhd; assumption.
Qed.

Lemma sort_insert_sorted (x : option string) (l : list (option string)) :
  Sorted sort_rel l -> Sorted sort_rel (sort_insert x l).
Proof.
  induction 1 as [|y l Hs IH Hhd]; simpl; [repeat constructor|].
  destruct (sort_le x y) eqn:Hxy.
  - constructor; [constructor; assumption|constructor; exact Hxy].
  - constructor; [exact IH|]. apply sort_insert_hd; [|exact Hhd].
    destruct (sort_le_total x y) as [H'|H']; [congruence|exact H'].
Qed.

Lemma sort_sorted (l : list (option string)) : Sorted sort_rel (sort l).
Proof.
  induction l as [|x l IH]; simpl; [constructor|].
  now apply sort_insert_sorted.
Qed.

(** On an array without [undefined] entries the order is that of the
    strings. *)
Lemma sorted_defined (l : list (option string)) :
  Forall (fun x => is_Some x) l -> Sorted sort_rel l ->
  Sorted string_le (map (default "") l).
Proof.
  intros Hall Hs. induction Hs as [|x l Hs IH Hhd]; simpl; [constructor|].
  inversion Hall as [|? ? [a ->] Hl]; subst. constructor; [now apply IH|].
  destruct Hhd as [|y l' Hxy]; simpl; constructor.
  inversion Hl as [|? ? [b ->] _]; subst. exact Hxy.
Qed.

(** [join('')] concatenates the defined entries and skips the others. *)
Lemma join_empty_concat (l : list (option string)) :
  join "" l = String.concat "" (map (default "") l).
Proof.
  induction l as [|x l IH]; [reflexivity|].
  destruct l as [|y l]; [reflexivity|].
  change (join "" (x :: y :: l)) with (default "" x +:+ "" +:+ join "" (y :: l)).
  rewrite IH. reflexivity.
Qed.

(** On an array of strings [join('')] is their concatenation. *)
Lemma join_empty_defined (l : list string) :
  join "" (map Some l) = String.concat "" l.
Proof.
  rewrite join_empty_concat. f_equal. induction l as [|x l IH]; simpl; congruence.
Qed.

(** The replacement lengthens a pattern by one character at most: it never
    doubles two backslashes. *)
Lemma replace_backslash_length (s : string) :
  String.length (replace_backslash_not_before_slash s) <= S (String.length s).
Proof.
  induction s as [|c s IH]; simpl; [lia|].
  destruct (Ascii.eqb c "\"); simpl; [|lia].
  destruct s as [|d s']; simpl; [lia|].
  destruct (Ascii.eqb_spec d "/") as [->|Hd]; simpl.
  - simpl in IH. lia.
  - destruct d as [[] [] [] [] [] [] [] []]; simpl in *; try lia; congruence.
Qed.

(** [concat] with the empty separator, element by element. *)
Lemma concat_empty_cons (x : string) (l : list string) :
  String.concat "" (x :: l) = x +:+ String.concat "" l.
Proof.
  destruct l as [|y l]; [|reflexivity]. simpl. now rewrite append_nil_r.
Qed.

(** Empty strings add nothing to a concatenation. *)
Lemma concat_empty_replicate (l : list string) (k : nat) :
  String.concat "" (l ++ replicate k "") = String.concat "" l.
Proof.
  induction l as [|x l IH].
  - induction k as [|k IHk]; [reflexivity|].
    change ([] ++ replicate (S k) "") with ("" :: ([] ++ replicate k "")).
    now rewrite concat_empty_cons, IHk.
  - change ((x :: l) ++ replicate k "") with (x :: (l ++ replicate k "")).
    now rewrite !concat_empty_cons, IH.
Qed.

(** After an [undefined] entry a sorted array holds [undefined] entries
    only. *)
Lemma sorted_after_undefined (l : list (option string)) :
  Sorted sort_rel (None :: l) -> l = replicate (length l) None.
Proof.
  induction l as [|x l IH]; [reflexivity|]. intros Hs.
  inversion Hs as [|? ? Hl Hhd]; subst.
  inversion Hhd as [|? ? Hxy]; subst. destruct x as [a|]; [discriminate Hxy|].
  simpl. f_equal. now apply IH.
Qed.

(** A sorted array is its strings in ascending order followed by its
    [undefined] entries. *)
Lemma sorted_undefined_last (l : list (option string)) :
  Sorted sort_rel l ->
  exists ss k, l = map Some ss ++ replicate k None /\ Sorted string_le ss.
Proof.
  induction l as [|x l IH]; intros Hs.
  - exists [], 0. split; [reflexivity|constructor].
  - destruct x as [a|].
    + inversion Hs as [|? ? Hl Hhd]; subst.
      destruct (IH Hl) as (ss & k & -> & Hss).
      exists (a :: ss), k. split; [reflexivity|]. constructor; [exact Hss|].
      destruct ss as [|b ss]; [constructor|]. constructor.
      inversion Hhd as [|? ? Hab]; subst. exact Hab.
    + exists [], (S (length l)). split; [|constructor].
      simpl. f_equal. now apply sorted_after_undefined.
Qed.

End JsFacts.

(** ** Regular expressions *)

Section RegularExpressions.
Context `{Ext : Externals}.

(** On [imuyg] the table of the code is the table of the specification. *)
Lemma python_flag_lookup (item : string) :
  item ∈ ["i"; "m"; "u"; "y"; "g"] ->
  PythonGenerator.PYTHON_REGEX_FLAGS !! item = Some (python_flag_spec item).
Proof.
  intros H. repeat (apply elem_of_cons in H as [->|H]); try reflexivity.
  inversion H.
Qed.

(** On flags within [imuyg] the replacement maps letter by letter. *)
Lemma java_flag_replace (fl : string) :
  translatable fl ->
  JavaGenerator.replace_imuyg fl = String.concat "" (map java_flag_spec (split_chars fl)).
Proof.
  unfold translatable. induction fl as [|c fl IH]; simpl; [reflexivity|].
  intros Hall. inversion Hall as [|? ? Hc Hfl]; subst.
  rewrite (IH Hfl).
  assert (Hhd : (if JavaGenerator.is_imuyg (String c "")
                 then default "undefined" (JavaGenerator.JAVA_REGEX_FLAGS !! String c "")
                 else String c "") = java_flag_spec (String c "")).
  { repeat (apply elem_of_cons in Hc as [->|Hc]); try reflexivity. inversion Hc. }
  rewrite Hhd. destruct (split_chars fl) as [|d l]; simpl; [|reflexivity].
  destruct (java_flag_spec (String c "")) as [|a s] eqn:E; [reflexivity|].
  revert E. unfold java_flag_spec.
  repeat (match goal with |- context [if ?b then _ else _] => destruct b end);
    intros E; inversion E; reflexivity.
Qed.

(** What [buildRegExp] returns when the sandbox yields a regular
    expression: it never throws. *)
Lemma buildRegExp_of_regexp (ctx : Node) (w : World) (pattern fl : string) :
  Context_evaluate ("__result = " +:+ getText ctx) = Ok (HRegExp pattern fl) ->
  fst (PythonGenerator.buildRegExp ctx w) =
    Ok ("re.compile(r" +:+
        doubleQuoteStringify
          (if String.eqb fl "" then replace_backslash_not_before_slash pattern
           else replace_backslash_not_before_slash pattern +:+ "(?" +:+
                join "" (sort (map (fun item => PythonGenerator.PYTHON_REGEX_FLAGS !! item)
                                   (split_chars fl))) +:+ ")") +:+ ")").
Proof.
  intros Hev. unfold PythonGenerator.buildRegExp, CodeGenerator.executeJavascript,
    CodeGenerator.evaluate. run_js. rewrite Hev. simpl.
  destruct (String.eqb fl ""); reflexivity.
Qed.

(** What the Java emitter returns when the sandbox yields a regular
    expression. *)
Lemma visitRegularExpressionLiteral_of_regexp (ctx : Node) (w : World)
    (pattern fl : string) :
  Context_evaluate ("__result = " +:+ getText ctx) = Ok (HRegExp pattern fl) ->
  fst (JavaGenerator.visitRegularExpressionLiteral ctx w) =
    Ok ("Pattern.compile(" +:+
        doubleQuoteStringify
          (replace_backslash_not_before_slash pattern +:+
           (if String.eqb (JavaGenerator.replace_imuyg fl) "" then ""
            else "(?" +:+ JavaGenerator.replace_imuyg fl +:+ ")")) +:+ ")").
Proof.
  intros Hev. unfold JavaGenerator.visitRegularExpressionLiteral,
    CodeGenerator.executeJavascript, CodeGenerator.evaluate. run_js.
  rewrite Hev. reflexivity.
Qed.

(** C7.  When the evaluated flags all lie in [imuyg], the Python emitter
    appends to the pattern an inline group holding the flags translated by
    its table ([i] to [i], [m] to [m], [u] to [a], [g] to [s], [y] to
    nothing) in ascending order, and the Java emitter appends a group
    holding [i], [m] and [u] unchanged, with [y] and [g] dropped; for the
    regular expression [/foo/gi] the bodies are [foo(?is)] and [foo(?i)]. *)
Theorem regexp_flags_translated (ctx : Node) (w : World) (pattern fl : string) :
  Context_evaluate ("__result = " +:+ getText ctx) = Ok (HRegExp pattern fl) ->
  translatable fl ->
  let escaped := replace_backslash_not_before_slash pattern in
  (exists pyflags : list string,
      pyflags ≡ₚ map python_flag_spec (split_chars fl) /\
      Sorted string_le pyflags /\
      fst (PythonGenerator.buildRegExp ctx w) =
        Ok ("re.compile(r" +:+
            doubleQuoteStringify
              (if String.eqb fl "" then escaped
               else escaped +:+ "(?" +:+ String.concat "" pyflags +:+ ")") +:+ ")")) /\
  (let javaflags := String.concat "" (map java_flag_spec (split_chars fl)) in
   fst (JavaGenerator.visitRegularExpressionLiteral ctx w) =
     Ok ("Pattern.compile(" +:+
         doubleQuoteStringify
           (escaped +:+ (if String.eqb javaflags "" then ""
                         else "(?" +:+ javaflags +:+ ")")) +:+ ")")) /\
  (pattern = "foo" -> fl = "gi" ->
   fst (PythonGenerator.buildRegExp ctx w) =
     Ok ("re.compile(r" +:+ doubleQuoteStringify "foo(?is)" +:+ ")") /\
   fst (JavaGenerator.visitRegularExpressionLiteral ctx w) =
     Ok ("Pattern.compile(" +:+ doubleQuoteStringify "foo(?i)" +:+ ")")).
Proof.
  intros Hev Htr escaped. split; [|split].
  - set (looked := map (fun item => PythonGenerator.PYTHON_REGEX_FLAGS !! item)
                       (split_chars fl)).
    assert (Hlooked : looked = map Some (map python_flag_spec (split_chars fl))).
    { unfold looked. rewrite map_map. apply map_ext_Forall.
      eapply Forall_impl; [exact Htr|]. intros item Hitem.
      now apply python_flag_lookup. }
    exists (map (default "") (sort looked)). split; [|split].
    + rewrite sort_perm, Hlooked, map_map. simpl. now rewrite map_id.
    + apply sorted_defined; [|apply sort_sorted].
      rewrite sort_perm, Hlooked. apply Forall_forall.
      intros x Hx. apply list_elem_of_In, in_map_iff in Hx as (s & <- & _). eauto.
    + rewrite (buildRegExp_of_regexp ctx w pattern fl Hev).
      now rewrite join_empty_concat.
  - intros javaflags.
    rewrite (visitRegularExpressionLiteral_of_regexp ctx w pattern fl Hev).
    now rewrite java_flag_replace.
  - intros -> ->. split.
    + now rewrite (buildRegExp_of_regexp ctx w _ _ Hev).
    + now rewrite (visitRegularExpressionLiteral_of_regexp ctx w _ _ Hev).
Qed.

End RegularExpressions.

(** The literal [/foo/gi] in both targets. *)
Lemma regexp_flags_translated_witness :
  let Ext := Model.externals CodeGenerator.visitTerminal foo_gi_sandbox in
  let ctx := mkNode 0 "/foo/gi" [] in
  Context_evaluate ("__result = " +:+ getText ctx) = Ok (HRegExp "foo" "gi") /\
  translatable "gi" /\
  fst (PythonGenerator.buildRegExp ctx Model.initial_world) =
    Ok ("re.compile(r" +:+ Model.double_quote +:+ "foo(?is)" +:+ Model.double_quote
        +:+ ")") /\
  fst (JavaGenerator.visitRegularExpressionLiteral ctx Model.initial_world) =
    Ok ("Pattern.compile(" +:+ Model.double_quote +:+ "foo(?i)" +:+ Model.double_quote
        +:+ ")").
Proof.
  intros Ext ctx.
  assert (Htr : translatable "gi").
  { repeat constructor. }
  split; [reflexivity|]. split; [exact Htr|].
  exact (proj2 (proj2 (@regexp_flags_translated Ext ctx Model.initial_world
                         "foo" "gi" eq_refl Htr)) eq_refl eq_refl).
Defined.

Section Backslashes.
Context `{Ext : Externals}.

(** C4, at the failing input.  For a regular expression whose source is
    [\d\d], two backslashes neither of which precedes a slash, both
    emitters double the first backslash only: the pattern they quote is
    [\\d\d]. *)
Theorem regexp_second_backslash_not_doubled (ctx : Node) (w : World) :
  Context_evaluate ("__result = " +:+ getText ctx) = Ok (HRegExp "\d\d" "") ->
  fst (PythonGenerator.buildRegExp ctx w) =
    Ok ("re.compile(r" +:+ doubleQuoteStringify "\\d\d" +:+ ")") /\
  fst (JavaGenerator.visitRegularExpressionLiteral ctx w) =
    Ok ("Pattern.compile(" +:+ doubleQuoteStringify "\\d\d" +:+ ")").
Proof.
  intros Hev. split.
  - now rewrite (buildRegExp_of_regexp ctx w _ _ Hev).
  - now rewrite (visitRegularExpressionLiteral_of_regexp ctx w _ _ Hev).
Qed.

End Backslashes.

(** The literal [/\d\d/] in both targets. *)
Lemma regexp_second_backslash_not_doubled_witness :
  let Ext := Model.externals CodeGenerator.visitTerminal two_digits_sandbox in
  let ctx := mkNode 0 "/\d\d/" [] in
  Context_evaluate ("__result = " +:+ getText ctx) = Ok (HRegExp "\d\d" "") /\
  fst (PythonGenerator.buildRegExp ctx Model.initial_world) =
    Ok ("re.compile(r" +:+ Model.double_quote +:+ "\\d\d" +:+ Model.double_quote +:+ ")") /\
  fst (JavaGenerator.visitRegularExpressionLiteral ctx Model.initial_world) =
    Ok ("Pattern.compile(" +:+ Model.double_quote +:+ "\\d\d" +:+ Model.double_quote
        +:+ ")").
Proof.
  intros Ext ctx. split; [reflexivity|].
  exact (@regexp_second_backslash_not_doubled Ext ctx Model.initial_world eq_refl).
Defined.

Section UnknownFlags.
Context `{Ext : Externals}.

(** A flag outside [imuyg] has no entry in the table of the Python
    target. *)
Lemma python_flag_lookup_outside (item : string) :
  item ∉ ["i"; "m"; "u"; "y"; "g"] ->
  PythonGenerator.PYTHON_REGEX_FLAGS !! item = None.
Proof.
  intros H. rewrite !not_elem_of_cons in H. destruct H as (Hi & Hm & Hu & Hy & Hg & _).
  unfold PythonGenerator.PYTHON_REGEX_FLAGS.
  rewrite !lookup_insert_ne by congruence. apply lookup_singleton_ne. congruence.
Qed.

(** The entries that the lookups find are the translations of the flags
    within [imuyg], in the order of the flags. *)
Lemma python_flags_looked_up (items : list string) :
  omap id (map (fun item => PythonGenerator.PYTHON_REGEX_FLAGS !! item) items)
    = map python_flag_spec (filter (fun item => item ∈ ["i"; "m"; "u"; "y"; "g"]) items).
Proof.
  induction items as [|item items IH]; [reflexivity|].
  destruct (decide (item ∈ ["i"; "m"; "u"; "y"; "g"])) as [Hin|Hout].
  - rewrite filter_cons_True by exact Hin. simpl in IH |- *.
    rewrite (python_flag_lookup item Hin). simpl. f_equal. exact IH.
  - rewrite filter_cons_False by exact Hout. simpl in IH |- *.
    rewrite (python_flag_lookup_outside item Hout). simpl. exact IH.
Qed.

(** The array of the sorted lookups: the translations of the flags within
    [imuyg] in ascending order, then one [undefined] for every other
    flag. *)
Lemma python_flags_sorted (items : list string) :
  exists pyflags : list string,
    pyflags ≡ₚ map python_flag_spec
                 (filter (fun item => item ∈ ["i"; "m"; "u"; "y"; "g"]) items) /\
    Sorted string_le pyflags /\
    sort (map (fun item => PythonGenerator.PYTHON_REGEX_FLAGS !! item) items)
      = map Some pyflags ++
        replicate (length (filter (fun item => item ∉ ["i"; "m"; "u"; "y"; "g"]) items))
                  None.
Proof.
  set (looked := map (fun item => PythonGenerator.PYTHON_REGEX_FLAGS !! item) items).
  destruct (sorted_undefined_last (sort looked) (sort_sorted looked))
    as (ss & k & Heq & Hss).
  assert (Hdefined : omap id (sort looked) = ss).
  { rewrite Heq, omap_app.
    assert (H1 : omap id (map Some ss) = ss).
    { clear. induction ss as [|a ss IH]; simpl; [reflexivity|f_equal; exact IH]. }
    assert (H2 : omap id (replicate k (@None string)) = []).
    { clear. induction k as [|k IH]; simpl; [reflexivity|exact IH]. }
    rewrite H1, H2. apply app_nil_r. }
  assert (Hperm : ss ≡ₚ map python_flag_spec
                          (filter (fun item => item ∈ ["i"; "m"; "u"; "y"; "g"]) items)).
  { rewrite <- Hdefined, sort_perm. unfold looked. now rewrite python_flags_looked_up. }
  exists ss. split; [exact Hperm|]. split; [exact Hss|]. rewrite Heq. do 2 f_equal.
  assert (Hlen : length (sort looked) = length items).
  { rewrite sort_perm. unfold looked. apply length_map. }
  rewrite Heq, length_app, length_map, length_replicate in Hlen.
  pose proof (Permutation_length Hperm) as Hss_len. rewrite length_map in Hss_len.
  pose proof (Permutation_length
                (filter_app_complement
                   (fun item => item ∈ ["i"; "m"; "u"; "y"; "g"]) items)) as Hsplit.
  rewrite length_app in Hsplit. lia.
Qed.

(** C10, as amended.  When the sandbox yields a regular expression,
    [buildRegExp] returns a string whatever the flags are.  A flag outside
    [imuyg] has no entry in the table: it is looked up as [undefined],
    which [sort] places after every string and [join] renders as the empty
    string.  So the inline group holds, in ascending order, the
    translations of the flags within [imuyg] by the table of the
    specification ([i] to [i], [m] to [m], [u] to [a], [g] to [s], [y] to
    nothing) and nothing for any other flag, the flags [s] alone giving
    the empty group [(?)]; and [buildRegExp] throws a generic error exactly
    when the sandbox evaluation throws. *)
Theorem buildRegExp_unknown_flag_dropped (ctx : Node) (w : World) :
  (forall pattern fl,
      Context_evaluate ("__result = " +:+ getText ctx) = Ok (HRegExp pattern fl) ->
      is_Ok (fst (PythonGenerator.buildRegExp ctx w)) = true) /\
  (forall item,
      item ∉ ["i"; "m"; "u"; "y"; "g"] ->
      PythonGenerator.PYTHON_REGEX_FLAGS !! item = None) /\
  (forall pattern fl,
      Context_evaluate ("__result = " +:+ getText ctx) = Ok (HRegExp pattern fl) ->
      fl <> "" ->
      exists pyflags : list string,
        pyflags ≡ₚ map python_flag_spec
                     (filter (fun item => item ∈ ["i"; "m"; "u"; "y"; "g"])
                             (split_chars fl)) /\
        Sorted string_le pyflags /\
        sort (map (fun item => PythonGenerator.PYTHON_REGEX_FLAGS !! item)
                  (split_chars fl))
          = map Some pyflags ++
            replicate (length (filter (fun item => item ∉ ["i"; "m"; "u"; "y"; "g"])
                                      (split_chars fl))) None /\
        fst (PythonGenerator.buildRegExp ctx w) =
          Ok ("re.compile(r" +:+
              doubleQuoteStringify
                (replace_backslash_not_before_slash pattern +:+ "(?" +:+
                 String.concat "" pyflags +:+ ")") +:+ ")")) /\
  (forall pattern,
      Context_evaluate ("__result = " +:+ getText ctx) = Ok (HRegExp pattern "s") ->
      fst (PythonGenerator.buildRegExp ctx w) =
        Ok ("re.compile(r" +:+
            doubleQuoteStringify
              (replace_backslash_not_before_slash pattern +:+ "(?)") +:+ ")")) /\
  ((exists message,
       fst (PythonGenerator.buildRegExp ctx w)
         = Throw (mkError SemanticGenericError message)) <->
   (exists e, Context_evaluate ("__result = " +:+ getText ctx) = Throw e)).
Proof.
  split; [|split; [|split; [|split]]].
  - intros pattern fl Hev. now rewrite (buildRegExp_of_regexp ctx w _ _ Hev).
  - exact python_flag_lookup_outside.
  - intros pattern fl Hev Hfl. rewrite (buildRegExp_of_regexp ctx w _ _ Hev).
    destruct (String.eqb_spec fl "") as [->|_]; [congruence|].
    destruct (python_flags_sorted (split_chars fl)) as (pyflags & Hperm & Hsorted & Heq).
    exists pyflags. split; [exact Hperm|]. split; [exact Hsorted|].
    split; [exact Heq|]. rewrite join_empty_concat, Heq, map_app, map_map. simpl.
    rewrite map_id.
    replace (map (default "") (replicate
               (length (filter (fun item => item ∉ ["i"; "m"; "u"; "y"; "g"])
                               (split_chars fl))) None))
      with (replicate (length (filter (fun item => item ∉ ["i"; "m"; "u"; "y"; "g"])
                                      (split_chars fl))) "")
      by (symmetry; apply fmap_replicate).
    now rewrite concat_empty_replicate.
  - intros pattern Hev. now rewrite (buildRegExp_of_regexp ctx w _ _ Hev).
  - unfold PythonGenerator.buildRegExp, CodeGenerator.executeJavascript,
      CodeGenerator.evaluate. run_js.
    destruct (Context_evaluate ("__result = " +:+ getText ctx)) as [v|e]; simpl.
    + split; [|intros [e He]; discriminate].
      intros [message Hm]. exfalso.
      destruct v as [pattern fl| | |]; simpl in Hm; try discriminate.
      destruct (String.eqb fl ""); discriminate.
    + split; eauto.
Qed.

End UnknownFlags.

(** The claim as stated fails on [/foo/s]: the output is
    [re.compile(r"foo(?)")], in which the text [undefined] does not occur. *)
Lemma buildRegExp_no_undefined_text :
  let Ext := Model.externals CodeGenerator.visitTerminal foo_s_sandbox in
  exists out,
    fst (PythonGenerator.buildRegExp (mkNode 0 "/foo/s" []) Model.initial_world) = Ok out /\
    out = "re.compile(r" +:+ Model.double_quote +:+ "foo(?)" +:+ Model.double_quote +:+ ")" /\
    String.index 0 "undefined" out = None.
Proof.
  intros Ext. eexists. split; [reflexivity|]. split; reflexivity.
Qed.

(** ** Dates *)

Section Dates.
Context `{Ext : Externals}.

(** C5, as amended.  In the Python emitter the Date constructor without
    arguments emits the date-only rendering
    [datetime.datetime.utcnow().date()]; [datetime.datetime.utcnow()] is
    what the Date-now expression emits; and the Date constructor with
    arguments is evaluated in the sandbox and emitted as
    [datetime.datetime(...)] over the UTC year, month plus one, day, hours,
    minutes and seconds, with [tzinfo=datetime.timezone.utc]. *)
Theorem date_constructor_renderings (ctx : CallContext) (w : World) :
  (argumentList ctx = None ->
   PythonGenerator.visitDateConstructorExpression ctx w
     = (Ok "datetime.datetime.utcnow().date()", w)) /\
  PythonGenerator.visitDateNowConstructorExpression w
    = (Ok "datetime.datetime.utcnow()", w) /\
  (forall args year month date hours minutes seconds,
      argumentList ctx = Some args ->
      Context_evaluate ("__result = " +:+ getText (call_node ctx))
        = Ok (HDate (Some (year, month, date, hours, minutes, seconds))) ->
      fst (PythonGenerator.visitDateConstructorExpression ctx w)
        = Ok ("datetime.datetime(" +:+
              (pretty year +:+ ", " +:+ pretty (month + 1)%Z +:+ ", " +:+
               pretty date +:+ ", " +:+ pretty hours +:+ ", " +:+
               pretty minutes +:+ ", " +:+ pretty seconds) +:+
              ", tzinfo=datetime.timezone.utc)")).
Proof.
  split; [|split].
  - intros Hnone. unfold PythonGenerator.visitDateConstructorExpression.
    rewrite Hnone. reflexivity.
  - reflexivity.
  - intros args year month date hours minutes seconds Hargs Hev.
    unfold PythonGenerator.visitDateConstructorExpression,
      CodeGenerator.executeJavascript, CodeGenerator.evaluate.
    rewrite Hargs. run_js. rewrite Hev. simpl. unfold ret. simpl.
    reflexivity.
Qed.

End Dates.

(** The claim as stated fails on [Date()]: the constructor without
    arguments emits the date-only rendering and not
    [datetime.datetime.utcnow()]. *)
Lemma date_constructor_no_arguments_is_date_only :
  let Ext := Model.externals CodeGenerator.visitTerminal date_sandbox in
  let ctx := mkCall (mkNode 0 "Date()" []) None in
  fst (PythonGenerator.visitDateConstructorExpression ctx Model.initial_world)
    = Ok "datetime.datetime.utcnow().date()" /\
  (fst (PythonGenerator.visitDateConstructorExpression ctx Model.initial_world)
     <> Ok "datetime.datetime.utcnow()").
Proof.
  intros Ext ctx. split; [reflexivity|]. simpl. intros H. discriminate H.
Qed.

(** The constructor with arguments, on [Date(2018, 0, 5, 10, 3, 0)]. *)
Lemma date_constructor_renderings_witness :
  let Ext := Model.externals CodeGenerator.visitTerminal date_sandbox in
  let args := mkArgumentList
                [mkNode 1 "2018" []; mkNode 2 "0" []; mkNode 3 "5" [];
                 mkNode 4 "10" []; mkNode 5 "3" []; mkNode 6 "0" []] in
  let ctx := mkCall (mkNode 0 "Date(2018,0,5,10,3,0)" []) (Some args) in
  fst (PythonGenerator.visitDateConstructorExpression ctx Model.initial_world)
    = Ok "datetime.datetime(2018, 1, 5, 10, 3, 0, tzinfo=datetime.timezone.utc)".
Proof.
  intros Ext args ctx.
  exact (proj2 (proj2 (@date_constructor_renderings Ext ctx Model.initial_world))
           args 2018%Z 0%Z 5%Z 10%Z 3%Z 0%Z eq_refl eq_refl).
Defined.

(** ** ObjectId *)

Section ObjectId.
Context `{Ext : Externals}.

(** X9.  The Python emitter: the bare constructor without arguments, the
    hex string of the sandbox value with one argument, an argument-count
    mismatch with two arguments or more, thrown before the sandbox is
    called. *)
Lemma visitBSONObjectIdConstructor_arity (ctx : CallContext) (w : World) :
  (argumentList ctx = None ->
   PythonGenerator.visitBSONObjectIdConstructor ctx w = (Ok "ObjectId()", w)) /\
  (forall arg hex,
      argumentList ctx = Some (mkArgumentList [arg]) ->
      Context_evaluate ("__result = " +:+ getText (call_node ctx)) = Ok (HObjectID hex) ->
      fst (PythonGenerator.visitBSONObjectIdConstructor ctx w)
        = Ok ("ObjectId(" +:+ singleQuoteStringify hex +:+ ")")) /\
  (forall args,
      argumentList ctx = Some args ->
      2 <= length (singleExpression args) ->
      PythonGenerator.visitBSONObjectIdConstructor ctx w
        = (Throw (mkError SemanticArgumentCountMismatchError
                    "ObjectId requires zero or one argument"), w)).
Proof.
  unfold PythonGenerator.visitBSONObjectIdConstructor. split; [|split].
  - intros ->. reflexivity.
  - intros arg hex -> Hev. unfold CodeGenerator.executeJavascript,
      CodeGenerator.evaluate. run_js. rewrite Hev. reflexivity.
  - intros args -> Hlen. unfold getChildCount.
    destruct (2 * length (singleExpression args) - 1 =? 1) eqn:E.
    + apply Nat.eqb_eq in E. lia.
    + reflexivity.
Qed.

(** The Java emitter without arguments. *)
Lemma emitObjectId_no_arguments (ctx : CallContext) (w : World) :
  argumentList ctx = None ->
  fst (JavaGenerator.emitObjectId ctx w) = Ok "new ObjectId()".
Proof.
  intros Hnone. unfold JavaGenerator.emitObjectId. rewrite Hnone. reflexivity.
Qed.

(** C6, at the failing input.  The Java emitter does not count the
    arguments of [ObjectId]: with two arguments or more it still evaluates
    the call in the sandbox, returns the constructor over the hex string
    when the sandbox yields an ObjectId, and otherwise throws a
    [CodeGenerationError]; it never throws an argument-count mismatch. *)
Theorem emitObjectId_accepts_two_arguments
    (ctx : CallContext) (args : ArgumentListContext) (w : World) :
  argumentList ctx = Some args ->
  2 <= length (singleExpression args) ->
  (forall hex,
      Context_evaluate ("__result = " +:+ getText (call_node ctx)) = Ok (HObjectID hex) ->
      fst (JavaGenerator.emitObjectId ctx w)
        = Ok ("new ObjectId(" +:+ doubleQuoteStringify hex +:+ ")")) /\
  (forall e, fst (JavaGenerator.emitObjectId ctx w) = Throw e ->
             err_class e = CodeGenerationError).
Proof.
  intros Hargs _. unfold JavaGenerator.emitObjectId, CodeGenerator.executeJavascript,
    CodeGenerator.evaluate. rewrite Hargs. run_js. split.
  - intros hex Hev. rewrite Hev. reflexivity.
  - intros e. destruct (Context_evaluate _) as [v|e']; simpl.
    + destruct v; simpl; intros H; inversion H; reflexivity.
    + intros H; inversion H; reflexivity.
Qed.

End ObjectId.

(** The call [ObjectId('5ab901c29ee65f5c8550c5b9', 1)] in the Java target. *)
Lemma emitObjectId_accepts_two_arguments_witness :
  let Ext := Model.externals CodeGenerator.visitTerminal objectid_sandbox in
  let args := mkArgumentList [mkNode 1 "'5ab901c29ee65f5c8550c5b9'" []; mkNode 2 "1" []] in
  let ctx := mkCall (mkNode 0 "ObjectId('5ab901c29ee65f5c8550c5b9',1)" []) (Some args) in
  argumentList ctx = Some args /\
  2 <= length (singleExpression args) /\
  fst (JavaGenerator.emitObjectId ctx Model.initial_world)
    = Ok ("new ObjectId(" +:+ Model.double_quote +:+ "5ab901c29ee65f5c8550c5b9" +:+
          Model.double_quote +:+ ")").
Proof.
  intros Ext args ctx. split; [reflexivity|]. split; [simpl; lia|].
  exact (proj1 (@emitObjectId_accepts_two_arguments Ext ctx args Model.initial_world
                  eq_refl (le_n 2)) "5ab901c29ee65f5c8550c5b9" eq_refl).
Defined.

(** ** BSONRegExp *)

Section BSONRegExp.
Context `{Ext : Externals}.

(** The keys of [BSON_FLAGS]. *)
Lemma is_bson_flag_spec (item : string) :
  PythonGenerator.is_bson_flag item
    = bool_decide (item ∈ ["i"; "m"; "x"; "s"; "l"; "u"]).
Proof.
  unfold PythonGenerator.is_bson_flag, PythonGenerator.BSON_FLAGS.
  apply bool_decide_ext. rewrite !dom_insert, dom_singleton.
  rewrite !elem_of_union, !elem_of_singleton, !elem_of_cons, elem_of_nil.
  tauto.
Qed.

(** X4.  The Python emitter on flags that hold an unsupported letter: a
    generic error whose message lists the offending letters in order,
    thrown after both arguments were visited. *)
Lemma visitBSONRegExpConstructor_unsupported
    (ctx : CallContext) (arg0 arg1 : Node) (w w1 w2 : World) (pattern fl : string) :
  argumentList ctx = Some (mkArgumentList [arg0; arg1]) ->
  visits_to arg0 w pattern (TObj Types._string) w1 ->
  visits_to arg1 w1 fl (TObj Types._string) w2 ->
  fl <> "" ->
  let offending :=
    filter (fun item => item ∉ ["i"; "m"; "x"; "s"; "l"; "u"])
           (split_chars (removeQuotes fl)) in
  offending <> [] ->
  PythonGenerator.visitBSONRegExpConstructor ctx w =
    (Throw (mkError SemanticGenericError
              ("Regular expression contains unsuppoted '" +:+
               String.concat "" offending +:+ "' flag")), w2).
Proof.
  intros Hargs [Hv0 Ht0] [Hv1 Ht1] Hfl offending Hoff.
  unfold PythonGenerator.visitBSONRegExpConstructor. rewrite Hargs. simpl.
  run_js. rewrite Hv0. simpl. rewrite Ht0. simpl. rewrite Hv1. simpl.
  rewrite Ht1. simpl.
  destruct (String.eqb_spec fl "") as [->|_]; [congruence|]. simpl.
  assert (Heq : filter (fun item => PythonGenerator.is_bson_flag item = false)
                       (split_chars (removeQuotes fl)) = offending).
  { unfold offending. apply list_filter_iff. intros item.
    rewrite is_bson_flag_spec. rewrite bool_decide_eq_false. tauto. }
  rewrite Heq.
  assert (Hlen : (0 <? length offending) = true).
  { destruct offending; [congruence|reflexivity]. }
  rewrite Hlen, join_empty_defined. reflexivity.
Qed.

(** C3, at the failing input.  On flags that type as a string and whose
    rendering holds, between its quotes, a letter outside [imxlsu], the
    Java emitter returns a string that starts with [Error:] and names the
    first such letter; it throws nothing. *)
Theorem emitBSONRegExp_returns_error_text
    (ctx : CallContext) (arg0 arg1 : Node) (w w1 w2 : World)
    (pattern fl c : string) :
  argumentList ctx = Some (mkArgumentList [arg0; arg1]) ->
  visits_to arg0 (typed (call_node ctx) BsonClasses.RegExp w)
            pattern (TObj Types._string) w1 ->
  visits_to arg1 w1 fl (TObj Types._string) w2 ->
  JavaGenerator.first_unsupported (String.length fl) 1 fl = Some c ->
  JavaGenerator.emitBSONRegExp ctx w =
    (Ok ("Error: the regular expression options [" +:+ c +:+ "] is not supported"), w2).
Proof.
  intros Hargs [Hv0 Ht0] [Hv1 Ht1] Hc.
  unfold JavaGenerator.emitBSONRegExp. rewrite Hargs. unfold typed in Hv0.
  run_js. rewrite Hv0. simpl. rewrite Ht0. simpl. rewrite Hv1. simpl.
  rewrite Ht1. simpl. rewrite Hc. reflexivity.
Qed.

End BSONRegExp.

(** The call [BSONRegExp('a', 'g')] in the Java target. *)
Lemma emitBSONRegExp_returns_error_text_witness :
  let Ext := Model.externals visit_java_string no_sandbox in
  let arg0 := mkNode 1 "'a'" [] in
  let arg1 := mkNode 2 "'g'" [] in
  let ctx := mkCall (mkNode 0 "BSONRegExp('a','g')" [])
                    (Some (mkArgumentList [arg0; arg1])) in
  let w0 := typed (call_node ctx) BsonClasses.RegExp Model.initial_world in
  let w1 := snd (visit arg0 w0) in
  let w2 := snd (visit arg1 w1) in
  let fl := Model.double_quote +:+ "g" +:+ Model.double_quote in
  visits_to arg0 w0 (Model.double_quote +:+ "a" +:+ Model.double_quote)
            (TObj Types._string) w1 /\
  visits_to arg1 w1 fl (TObj Types._string) w2 /\
  JavaGenerator.first_unsupported (String.length fl) 1 fl = Some "g" /\
  fst (JavaGenerator.emitBSONRegExp ctx Model.initial_world)
    = Ok "Error: the regular expression options [g] is not supported".
Proof.
  intros Ext arg0 arg1 ctx w0 w1 w2 fl.
  assert (H0 : visits_to arg0 w0 (Model.double_quote +:+ "a" +:+ Model.double_quote)
                         (TObj Types._string) w1) by (split; reflexivity).
  assert (H1 : visits_to arg1 w1 fl (TObj Types._string) w2) by (split; reflexivity).
  split; [exact H0|]. split; [exact H1|]. split; [reflexivity|].
  exact (f_equal fst
           (@emitBSONRegExp_returns_error_text Ext ctx arg0 arg1 Model.initial_world
              w1 w2 _ fl "g" eq_refl H0 H1 eq_refl)).
Defined.

(** ** Octal literals *)

Section Octal.
Context `{Ext : Externals}.

(** [visitOctalIntegerLiteral] types the node [_octal] and rewrites the
    text that [visitChildren] returns. *)
Lemma visitOctalIntegerLiteral_text (ctx : Node) (w w' : World) (oct : string) :
  CodeGenerator.visitChildren ctx CodeGenerator.no_options (typed ctx Types._octal w)
    = (Ok oct, w') ->
  PythonGenerator.visitOctalIntegerLiteral ctx w = (Ok (python_octal oct), w').
Proof.
  intros Hv. unfold PythonGenerator.visitOctalIntegerLiteral, typed in *.
  unfold bind at 1. simpl. unfold bind at 1. simpl in Hv.
  rewrite Hv. reflexivity.
Qed.

(** A substring from the start that is long enough is the whole string. *)
Lemma substring_all (s : string) (n : nat) :
  String.length s <= n -> String.substring 0 n s = s.
Proof.
  revert n. induction s as [|c s IH]; intros n Hn; destruct n; simpl in *;
    try reflexivity; try lia.
  rewrite IH; [reflexivity|lia].
Qed.

(** Every accepted octal literal but [00] is emitted as [0o] followed by
    one digit or more, and denotes the integer of the input. *)
Lemma python_octal_preserves_value (oct digits : string) :
  octal_digits_of oct = Some digits ->
  oct <> "00" ->
  exists digits',
    python_octal oct = "0o" +:+ digits' /\
    octal_digits_of ("0o" +:+ digits') = Some digits' /\
    octal_value digits' = octal_value digits.
Proof.
  intros Hacc Hne. destruct oct as [|c0 oct']; [discriminate|].
  destruct (Ascii.eqb_spec c0 "0") as [->|Hc0]; [|
    exfalso; destruct c0 as [[] [] [] [] [] [] [] []]; try discriminate;
    congruence].
  destruct oct' as [|c rest]; [discriminate|]. simpl in Hacc.
  unfold python_octal, substr, charAt. simpl String.get. cbv iota.
  replace (Z.to_nat (Z.of_nat (String.length (String "0" (String c rest))) - 1))
    with (S (String.length rest)) by (simpl String.length; lia).
  destruct (Ascii.eqb_spec c "o") as [->|Ho]; [|destruct (Ascii.eqb_spec c "O") as [->|HO]].
  - simpl in Hacc. destruct rest as [|d rest']; [discriminate|].
    destruct (all_octal_digits (String d rest')) eqn:Hall; [|discriminate].
    inversion Hacc; subst. exists (String d rest'). simpl String.eqb. cbv iota. simpl orb.
    cbv iota. split; [|split].
    + simpl String.substring. rewrite substring_all by (simpl; lia). reflexivity.
    + simpl. simpl in Hall. rewrite Hall. reflexivity.
    + reflexivity.
  - simpl in Hacc. destruct rest as [|d rest']; [discriminate|].
    destruct (all_octal_digits (String d rest')) eqn:Hall; [|discriminate].
    inversion Hacc; subst. exists (String d rest'). split; [|split].
    + simpl. rewrite substring_all by (simpl; lia). reflexivity.
    + simpl. simpl in Hall. rewrite Hall. reflexivity.
    + reflexivity.
  - simpl in Hacc.
    destruct (is_octal_digit c && all_octal_digits rest) eqn:Hall; [|discriminate].
    inversion Hacc; subst. destruct (Ascii.eqb_spec c "0") as [->|Hz].
    + destruct rest as [|d rest']; [congruence|].
      exists (String d rest'). split; [|split].
      * simpl. rewrite substring_all by (simpl; lia). reflexivity.
      * simpl. simpl in Hall. rewrite Hall. reflexivity.
      * reflexivity.
    + exists (String c rest). split; [|split].
      * assert (Hc : String.eqb (String c "") "0" = false).
        { simpl. destruct (Ascii.eqb_spec c "0"); [congruence|reflexivity]. }
        assert (Hco : String.eqb (String c "") "o" = false).
        { simpl. destruct (Ascii.eqb_spec c "o"); [congruence|reflexivity]. }
        assert (HcO : String.eqb (String c "") "O" = false).
        { simpl. destruct (Ascii.eqb_spec c "O"); [congruence|reflexivity]. }
        rewrite Hc, Hco, HcO. simpl.
        rewrite substring_all by lia. reflexivity.
      * simpl. destruct (Ascii.eqb_spec c "o"); [congruence|].
        destruct (Ascii.eqb_spec c "O"); [congruence|]. simpl.
        rewrite Hall. reflexivity.
      * reflexivity.
Qed.

(** The legacy and the prefixed spelling of the integer 15. *)
Example python_octal_017 :
  python_octal "017" = "0o17" /\ python_octal "0O17" = "0o17" /\
  octal_value "17" = 15%N.
Proof. repeat split. Qed.

(** C8, at the failing input.  The octal literal [00], whose digits are
    [0], is emitted as [0o], a prefix with no digit after it, which is not
    an octal literal. *)
Theorem octal_double_zero_loses_its_digit (ctx : Node) (w w' : World) :
  CodeGenerator.visitChildren ctx CodeGenerator.no_options (typed ctx Types._octal w)
    = (Ok "00", w') ->
  PythonGenerator.visitOctalIntegerLiteral ctx w = (Ok "0o", w') /\
  octal_digits_of "00" = Some "0" /\
  octal_digits_of "0o" = None.
Proof.
  intros Hv. split; [|split; reflexivity].
  now rewrite (visitOctalIntegerLiteral_text ctx w w' "00" Hv).
Qed.

End Octal.

(** The literal [00], a rule node over one terminal. *)
Lemma octal_double_zero_loses_its_digit_witness :
  let Ext := Model.externals CodeGenerator.visitTerminal no_sandbox in
  let ctx := mkNode 0 "00" [mkNode 1 "00" []] in
  fst (CodeGenerator.visitChildren ctx CodeGenerator.no_options
         (typed ctx Types._octal Model.initial_world)) = Ok "00" /\
  fst (PythonGenerator.visitOctalIntegerLiteral ctx Model.initial_world) = Ok "0o".
Proof.
  intros Ext ctx. split; [reflexivity|].
  exact (f_equal fst
           (proj1 (@octal_double_zero_loses_its_digit Ext ctx Model.initial_world
                     _ eq_refl))).
Defined.

(** ** The argument checker *)

Section CheckArguments.
Context `{Ext : Externals}.

(** Without arguments, the empty schema is accepted. *)
Lemma checkArguments_empty_schema (w : World) :
  CodeGenerator.checkArguments [] None w = (Ok [], w).
Proof. reflexivity. Qed.

(** More arguments than slots: an argument-count mismatch, thrown before
    any argument is visited. *)
Lemma checkArguments_too_many (expected : list (list SlotEntry)) (args : list Node)
    (w : World) :
  length expected < length args ->
  CodeGenerator.checkArguments expected (Some (mkArgumentList args)) w =
    (Throw (mkError SemanticArgumentCountMismatchError
              ("Arguments mismatch: expected " +:+ pretty (length expected) +:+
               " and got " +:+ pretty (length args))), w).
Proof.
  intros Hlt. unfold CodeGenerator.checkArguments. simpl.
  apply Nat.ltb_lt in Hlt. rewrite Hlt. reflexivity.
Qed.

(** Inside the loop, an argument that is absent from a slot holding the
    [null] sentinel ends the check with the strings collected so far. *)
Lemma checkArguments_for_absent_optional (n : nat) (expected : list (list SlotEntry))
    (args : list Node) (i : nat) (argStr : list string) (slot : list SlotEntry)
    (w : World) :
  expected !! i = Some slot -> args !! i = None -> ENull ∈ slot ->
  CodeGenerator.checkArguments_for (S n) expected args i argStr w = (Ok argStr, w).
Proof.
  intros Hslot Harg Hnull. simpl. rewrite Hslot, Harg.
  unfold CodeGenerator.slot_has. rewrite bool_decide_eq_true_2 by exact Hnull.
  reflexivity.
Qed.

(** A mismatch in a slot that holds the [null] sentinel: building the
    message reads [id] of [null], and the engine's [TypeError] is thrown
    instead of a [SemanticTypeError]. *)
Lemma slot_ids_null (slot : list SlotEntry) :
  ENull ∈ slot ->
  CodeGenerator.slot_ids slot
    = Throw (mkError TypeError "Cannot read property 'id' of null").
Proof.
  induction slot as [|e slot IH]; intros Hin; [inversion Hin|].
  apply elem_of_cons in Hin as [<-|Hin]; [reflexivity|].
  simpl. rewrite (IH Hin). destruct e; reflexivity.
Qed.

(** C1, at the failing input.  Called without arguments on a schema that
    is not empty, [checkArguments] throws an argument-count mismatch even
    when every slot holds the [null] sentinel of an optional argument, as
    for the schema whose one slot accepts an integer or nothing. *)
Theorem checkArguments_rejects_omitted_optional
    (expected : list (list SlotEntry)) (w : World) :
  expected <> [] ->
  Forall (fun slot => ENull ∈ slot) expected ->
  CodeGenerator.checkArguments expected None w =
    (Throw (mkError SemanticArgumentCountMismatchError "arguments required"), w).
Proof.
  intros Hne _. destruct expected as [|slot expected]; [congruence|]. reflexivity.
Qed.

End CheckArguments.

(** No argument against the schema of one optional integer. *)
Lemma checkArguments_rejects_omitted_optional_witness :
  let Ext := Model.externals CodeGenerator.visitTerminal no_sandbox in
  let expected := [[EType Types._integer; ENull]] in
  expected <> [] /\
  Forall (fun slot => ENull ∈ slot) expected /\
  CodeGenerator.checkArguments expected None Model.initial_world =
    (Throw (mkError SemanticArgumentCountMismatchError "arguments required"),
     Model.initial_world).
Proof.
  intros Ext expected.
  assert (Hne : expected <> []) by discriminate.
  assert (Hall : Forall (fun slot => ENull ∈ slot) expected).
  { constructor; [|constructor]. apply list_elem_of_further, list_elem_of_here. }
  split; [exact Hne|]. split; [exact Hall|].
  exact (@checkArguments_rejects_omitted_optional Ext expected Model.initial_world
           Hne Hall).
Defined.

(** A string against an integer slot: the type error names the expected
    Types, the Type found and the index. *)
Example checkArguments_type_error :
  let Ext := Model.externals visit_java_string no_sandbox in
  fst (CodeGenerator.checkArguments [[EType Types._integer]; [EType Types._integer]]
         (Some (mkArgumentList [mkNode 1 "'a'" []; mkNode 2 "1" []]))
         Model.initial_world)
    = Throw (mkError SemanticTypeError
               "expected types _integer but got type _string for argument at index 0").
Proof. reflexivity. Qed.

(** A string against an optional integer slot: the message cannot be
    built, and the error thrown is the engine's. *)
Example checkArguments_type_error_optional_slot :
  let Ext := Model.externals visit_java_string no_sandbox in
  fst (CodeGenerator.checkArguments [[EType Types._integer; ENull]]
         (Some (mkArgumentList [mkNode 1 "'a'" []])) Model.initial_world)
    = Throw (mkError TypeError "Cannot read property 'id' of null").
Proof. reflexivity. Qed.

(** ** The argument checker on well-typed arguments *)

Section CheckArgumentsAccepts.
Context `{Ext : Externals}.
Variable rendered : Node -> string.
Variable ty : Node -> JType.

(** Every argument visits without error, renders [rendered arg] and is
    left with the Type [ty arg]. *)
Hypothesis visit_typed : forall arg w, exists w',
  visit arg w = (Ok (rendered arg), w') /\
  node_types w' !! node_id arg = Some (TObj (ty arg)).

Variable expected : list (list SlotEntry).
Variable args : list Node.
Variable lo : nat.

(** The optional slots are those from index [lo] on. *)
Hypothesis optional_from_lo : forall j slot,
  expected !! j = Some slot -> (ENull ∈ slot <-> lo <= j).
Hypothesis lo_le_hi : lo <= length expected.

Lemma checkArguments_for_accepts (n i : nat) (argStr : list string) (w : World) :
  i + n = length expected -> i <= length args -> length args <= length expected ->
  (all_acceptable_from ty expected args i /\ lo <= length args /\
   fst (CodeGenerator.checkArguments_for n expected args i argStr w)
     = Ok (argStr ++ map rendered (drop i args))) \/
  (~ (all_acceptable_from ty expected args i /\ lo <= length args) /\
   is_Ok (fst (CodeGenerator.checkArguments_for n expected args i argStr w)) = false).
Proof.
  revert i argStr w. induction n as [|n IH]; intros i argStr w Hn Hi Hk.
  - left. assert (Hlen : length args = i) by lia. split; [|split].
    + intros j arg slot Hj Harg _. apply lookup_lt_Some in Harg. lia.
    + lia.
    + simpl. rewrite drop_ge by lia. simpl. now rewrite app_nil_r.
  - destruct (lookup_lt_is_Some_2 expected i) as [slot Hslot]; [lia|].
    simpl. rewrite Hslot. destruct (args !! i) as [arg|] eqn:Harg.
    + pose proof (lookup_lt_Some _ _ _ Harg) as Hlt.
      destruct (visit_typed arg w) as (w' & Hv & Ht). run_js. rewrite Hv. simpl.
      rewrite Ht.
      assert (Hdrop : drop i args = arg :: drop (S i) args).
      { now apply drop_S. }
      assert (Hcont : acceptable slot (ty arg) = true ->
        (all_acceptable_from ty expected args i /\ lo <= length args /\
         fst (CodeGenerator.checkArguments_for n expected args (S i)
                (argStr ++ [rendered arg]) w')
           = Ok (argStr ++ map rendered (drop i args))) \/
        (~ (all_acceptable_from ty expected args i /\ lo <= length args) /\
         is_Ok (fst (CodeGenerator.checkArguments_for n expected args (S i)
                       (argStr ++ [rendered arg]) w')) = false)).
      { intros Hacc.
        destruct (IH (S i) (argStr ++ [rendered arg]) w')
          as [(Hall & Hlo & Hr)|(Hno & Hr)]; try lia.
        - left. split; [|split; [exact Hlo|]].
          + intros j a s Hj Ha Hs. destruct (decide (j = i)) as [->|Hne].
            * rewrite Harg in Ha. rewrite Hslot in Hs.
              inversion Ha; inversion Hs; subst. exact Hacc.
            * apply (Hall j a s); [lia|exact Ha|exact Hs].
          + rewrite Hr, Hdrop. simpl. now rewrite <- app_assoc.
        - right. split; [|exact Hr]. intros [Hall Hlo]. apply Hno.
          split; [|exact Hlo]. intros j a s Hj. apply Hall. lia. }
      assert (Hstop : acceptable slot (ty arg) = false ->
                      ~ (all_acceptable_from ty expected args i /\ lo <= length args)).
      { intros Hacc [Hall _].
        rewrite (Hall i arg slot) in Hacc; [discriminate|lia|exact Harg|exact Hslot]. }
      unfold acceptable in Hcont, Hstop. revert Hcont Hstop.
      destruct (CodeGenerator.slot_has slot (EType Types._numeric) &&
                CodeGenerator.is_numeric_type (Some (TObj (ty arg))));
        [intros Hcont _; apply Hcont; reflexivity|].
      destruct (CodeGenerator.slot_has slot (EType (ty arg)));
        [intros Hcont _; apply Hcont; reflexivity|].
      destruct (CodeGenerator.slot_has slot (EId (type_id (ty arg))));
        [intros Hcont _; apply Hcont; reflexivity|].
      intros _ Hstop. simpl. right. split; [apply Hstop; reflexivity|].
      destruct (CodeGenerator.slot_ids slot); reflexivity.
    + assert (Hlen : length args = i).
      { apply lookup_ge_None in Harg. lia. }
      unfold CodeGenerator.slot_has.
      destruct (decide (ENull ∈ slot)) as [Hnull|Hnull].
      * rewrite bool_decide_eq_true_2 by exact Hnull. left. split; [|split].
        -- intros j a s Hj Ha _. apply lookup_lt_Some in Ha. lia.
        -- apply (optional_from_lo i slot Hslot) in Hnull. lia.
        -- simpl. rewrite drop_ge by lia. simpl. now rewrite app_nil_r.
      * rewrite bool_decide_eq_false_2 by exact Hnull. right. split; [|reflexivity].
        intros [_ Hlo]. apply Hnull. apply (optional_from_lo i slot Hslot). lia.
Qed.

(** X1.  With one argument or more, each of which visits to a Type,
    [checkArguments] returns the rendered arguments exactly when their
    number lies between [lo] and the number of slots and each Type is
    acceptable for its slot; otherwise it throws. *)
Lemma checkArguments_accepts_iff (w : World) :
  let run := CodeGenerator.checkArguments expected (Some (mkArgumentList args)) w in
  (fst run = Ok (map rendered args) <->
   lo <= length args <= length expected /\ all_acceptable_from ty expected args 0) /\
  (is_Ok (fst run) = true -> fst run = Ok (map rendered args)).
Proof.
  intros run. subst run. unfold CodeGenerator.checkArguments. simpl.
  destruct (length expected <? length args) eqn:Hlt.
  - apply Nat.ltb_lt in Hlt. unfold throw. simpl. split.
    + split; [intros H; discriminate H|lia].
    + intros H; discriminate H.
  - apply Nat.ltb_ge in Hlt.
    destruct (checkArguments_for_accepts (length expected) 0 [] w)
      as [(Hall & Hlo & Hr)|(Hno & Hr)]; try lia.
    + rewrite Hr. simpl. rewrite drop_0. split; [|reflexivity].
      split; [intros _|reflexivity]. split; [lia|exact Hall].
    + split.
      * split.
        -- intros Hok. rewrite Hok in Hr. discriminate.
        -- intros [[Hlo _] Hall]. exfalso. apply Hno. split; assumption.
      * intros Hok. rewrite Hok in Hr. discriminate.
Qed.

End CheckArgumentsAccepts.

(** Two integers against a schema of two integer slots. *)
Lemma checkArguments_accepts_iff_witness :
  let Ext := Model.externals visit_integer no_sandbox in
  let expected := [[EType Types._integer]; [EType Types._integer]] in
  let args := [mkNode 1 "100" []; mkNode 2 "1" []] in
  (forall arg w, exists w',
      visit arg w = (Ok (getText arg), w') /\
      node_types w' !! node_id arg = Some (TObj Types._integer)) /\
  (forall j slot, expected !! j = Some slot -> (ENull ∈ slot <-> 2 <= j)) /\
  2 <= length expected /\
  all_acceptable_from (fun _ => Types._integer) expected args 0 /\
  fst (CodeGenerator.checkArguments expected (Some (mkArgumentList args))
         Model.initial_world)
    = Ok ["100"; "1"].
Proof.
  intros Ext expected args.
  assert (Hvisit : forall arg w, exists w',
             visit arg w = (Ok (getText arg), w') /\
             node_types w' !! node_id arg = Some (TObj Types._integer)).
  { intros arg w. eexists. split; [reflexivity|]. apply lookup_insert_eq. }
  assert (Hopt : forall j slot, expected !! j = Some slot -> (ENull ∈ slot <-> 2 <= j)).
  { intros [|[|j]] slot Hslot; inversion Hslot; subst;
      rewrite !elem_of_cons, elem_of_nil; split; intros H; try lia;
      destruct H as [H|H]; try discriminate H; contradiction. }
  assert (Hle : 2 <= length expected) by (simpl; lia).
  assert (Hall : all_acceptable_from (fun _ => Types._integer) expected args 0).
  { intros [|[|j]] arg slot _ Harg Hslot;
      inversion Harg; inversion Hslot; subst; reflexivity. }
  split; [exact Hvisit|]. split; [exact Hopt|]. split; [exact Hle|].
  split; [exact Hall|].
  apply (proj1 (@checkArguments_accepts_iff Ext getText (fun _ => Types._integer)
                  Hvisit expected args 2 Hopt Hle Model.initial_world)).
  split; [simpl; lia|exact Hall].
Defined.

(** ** Type slots *)

Section TypeSlots.
Context `{Ext : Externals}.

(** [visitTerminal] returns the text of the node and sets no type. *)
Lemma visitTerminal_sets_no_type (ctx : Node) (w : World) :
  CodeGenerator.visitTerminal ctx w = (Ok (getText ctx), w).
Proof. reflexivity. Qed.



End TypeSlots.



(** * Further properties of the visitors *)

(** ** [visitChildren] joins the renderings of the children *)

Section VisitChildrenJoins.
Context `{Ext : Externals}.
Variable rendered : Node -> string.

(** Every node visits without error and renders [rendered n]. *)
Hypothesis visit_ok : forall n w, exists w', visit n w = (Ok (rendered n), w').

(** The loop over all the children from index [i] on. *)
Lemma visitChildren_for_join (chs : list Node) (separator : string)
    (fuel i : nat) (code : string) (w : World) :
  length chs - i <= fuel ->
  exists w',
    CodeGenerator.visitChildren_for fuel i (Z.of_nat (length chs) - 1)%Z 1
      separator [] chs code w
    = (Ok (code +:+ join separator (map Some (map rendered (drop i chs)))), w').
Proof.
  revert i code w. induction fuel as [|fuel IH]; intros i code w Hfuel.
  - exists w. simpl. rewrite drop_ge by lia. simpl. now rewrite append_nil_r.
  - rewrite visitChildren_for_step.
    destruct (Z.leb_spec (Z.of_nat i) (Z.of_nat (length chs) - 1)) as [Hle|Hgt].
    + destruct (lookup_lt_is_Some_2 chs i) as [child Hchild]; [lia|].
      rewrite bool_decide_eq_false_2 by apply not_elem_of_nil.
      rewrite Hchild. destruct (visit_ok child w) as [w1 Hv].
      unfold bind at 1. unfold bind at 1. rewrite Hv. unfold ret at 1.
      destruct (IH (i + Pos.to_nat 1)
                   (code +:+ rendered child +:+
                    (if (Z.of_nat i =? Z.of_nat (length chs) - 1)%Z then ""
                     else separator)) w1) as [w' Hrun]; [lia|].
      exists w'. rewrite Hrun. f_equal. f_equal.
      rewrite (drop_S chs child i Hchild).
      replace (i + Pos.to_nat 1) with (S i) by lia.
      destruct (Z.eqb_spec (Z.of_nat i) (Z.of_nat (length chs) - 1)) as [Hlast|Hmore].
      * rewrite drop_ge by lia. simpl. now rewrite !append_nil_r.
      * destruct (drop (S i) chs) as [|next rest] eqn:Hdrop.
        { apply (f_equal length) in Hdrop. rewrite length_drop in Hdrop.
          simpl in Hdrop. lia. }
        change (join separator (map Some (map rendered (child :: next :: rest))))
          with (rendered child +:+ separator +:+
                join separator (map Some (map rendered (next :: rest)))).
        now rewrite !append_assoc.
    + exists w. rewrite drop_ge by lia. simpl. now rewrite append_nil_r.
Qed.

(** The whole of [visitChildren] when the options give at most a start, a
    separator and a list of children. *)
Lemma visitChildren_run (ctx : Node) (options : CodeGenerator.Options) (w : World) :
  CodeGenerator.opt_end options = None ->
  CodeGenerator.opt_step options = None ->
  CodeGenerator.opt_ignore options = None ->
  exists w',
    CodeGenerator.visitChildren ctx options w
    = (Ok (trim (join (default "" (CodeGenerator.opt_separator options))
                   (map Some
                      (map rendered
                         (drop (default 0 (CodeGenerator.opt_start options))
                            (default (children ctx)
                               (CodeGenerator.opt_children options))))))), w').
Proof.
  intros Hend Hstep Hignore. unfold CodeGenerator.visitChildren.
  rewrite Hend, Hstep, Hignore. simpl default.
  set (chs := default (children ctx) (CodeGenerator.opt_children options)).
  set (start := default 0 (CodeGenerator.opt_start options)).
  set (separator := default "" (CodeGenerator.opt_separator options)).
  destruct (visitChildren_for_join chs separator
              (Z.to_nat (Z.of_nat (length chs) - 1 - Z.of_nat start + 1)) start "" w)
    as [w1 Hloop]; [lia|].
  unfold bind at 1. rewrite Hloop. simpl String.append. run_js.
  destruct (node_types w1 !! node_id ctx); [eexists; reflexivity|].
  destruct chs; eexists; reflexivity.
Qed.

(** X7.  Called with at most a start index, a separator and a list of
    children, [visitChildren] returns the renderings of the children from
    the start index on, in order, with the separator between two of them
    and none after the last, trimmed of the white space at both ends. *)
Theorem visitChildren_joins_children
    (ctx : Node) (options : CodeGenerator.Options) (w : World) :
  CodeGenerator.opt_end options = None ->
  CodeGenerator.opt_step options = None ->
  CodeGenerator.opt_ignore options = None ->
  fst (CodeGenerator.visitChildren ctx options w)
    = Ok (trim (join (default "" (CodeGenerator.opt_separator options))
                  (map Some
                     (map rendered
                        (drop (default 0 (CodeGenerator.opt_start options))
                           (default (children ctx)
                              (CodeGenerator.opt_children options))))))).
Proof.
  intros Hend Hstep Hignore.
  destruct (visitChildren_run ctx options w Hend Hstep Hignore) as [w' Hrun].
  now rewrite Hrun.
Qed.

End VisitChildrenJoins.

(** The children [new], [a] and [b] visited from index 1 with a comma as
    separator. *)
Lemma visitChildren_joins_children_witness :
  let Ext := Model.externals CodeGenerator.visitTerminal no_sandbox in
  let ctx := mkNode 0 "newab" [mkNode 1 "new" []; mkNode 2 "a" []; mkNode 3 "b" []] in
  let options := CodeGenerator.mkOptions (Some 1) None None (Some ", ") None None in
  (forall n w, exists w', visit n w = (Ok (getText n), w')) /\
  fst (CodeGenerator.visitChildren ctx options Model.initial_world) = Ok "a, b".
Proof.
  intros Ext ctx options.
  assert (Hvisit : forall n w, exists w', visit n w = (Ok (getText n), w')).
  { intros n w. exists w. reflexivity. }
  split; [exact Hvisit|].
  exact (@visitChildren_joins_children Ext getText Hvisit ctx options
           Model.initial_world eq_refl eq_refl eq_refl).
Defined.

(** ** [new] expressions *)

Section NewExpressions.
Context `{Ext : Externals}.
Variable rendered : Node -> string.

(** Every node visits without error and renders [rendered n]. *)
Hypothesis visit_ok : forall n w, exists w', visit n w = (Ok (rendered n), w').

(** After [ctx.type = ctx.singleExpression().type] both slots hold the
    same. *)
Lemma set_type_of_expression (node expr : Node) (w : World) :
  let w' := snd (set_type node (node_types w !! node_id expr) w) in
  node_types w' !! node_id node = node_types w' !! node_id expr.
Proof.
  simpl. destruct (decide (node_id expr = node_id node)) as [->|Hne]; [reflexivity|].
  destruct (node_types w !! node_id expr) as [t|] eqn:Ht.
  - rewrite lookup_insert_eq, lookup_insert_ne by congruence. now rewrite Ht.
  - rewrite lookup_delete_eq, lookup_delete_ne by congruence. now rewrite Ht.
Qed.

(** X10.  The Python [visitNewExpression] skips the first child, the
    keyword [new]: it returns the renderings of the other children,
    concatenated and trimmed, whatever the first child is.  The Java one
    returns the rendering of the constructed expression.  Both leave in
    the type slot of the node what the slot of the constructed expression
    holds. *)
Theorem visitNewExpression_skips_new (ctx : NewExpressionContext) (w : World) :
  (exists w',
      PythonGenerator.visitNewExpression ctx w
      = (Ok (trim (join "" (map Some (map rendered (drop 1 (children (new_node ctx))))))),
         w') /\
      node_types w' !! node_id (new_node ctx)
        = node_types w' !! node_id (new_singleExpression ctx)) /\
  (exists w',
      JavaGenerator.visitNewExpression ctx w
      = (Ok (rendered (new_singleExpression ctx)), w') /\
      node_types w' !! node_id (new_node ctx)
        = node_types w' !! node_id (new_singleExpression ctx)).
Proof.
  split.
  - destruct (visitChildren_run rendered visit_ok (new_node ctx)
                (CodeGenerator.mkOptions (Some 1) None None None None None) w
                eq_refl eq_refl eq_refl) as [w1 Hrun].
    unfold PythonGenerator.visitNewExpression. unfold bind at 1. rewrite Hrun.
    eexists. split; [reflexivity|].
    apply (set_type_of_expression (new_node ctx) (new_singleExpression ctx) w1).
  - destruct (visit_ok (new_singleExpression ctx) w) as [w1 Hv].
    unfold JavaGenerator.visitNewExpression. unfold bind at 1. rewrite Hv.
    eexists. split; [reflexivity|].
    apply (set_type_of_expression (new_node ctx) (new_singleExpression ctx) w1).
Qed.

End NewExpressions.

(** The expression [new Foo] and the expression [Foo] written without the
    keyword, as a node over the terminals [new] and [Foo]. *)
Lemma visitNewExpression_skips_new_witness :
  let Ext := Model.externals visit_call no_sandbox in
  let expr := mkNode 2 "Foo" [] in
  let ctx := mkNew (mkNode 0 "newFoo" [mkNode 1 "new" []; expr]) expr in
  (forall n w, exists w', visit n w = (Ok (getText n), w')) /\
  fst (PythonGenerator.visitNewExpression ctx Model.initial_world) = Ok "Foo" /\
  fst (JavaGenerator.visitNewExpression ctx Model.initial_world) = Ok "Foo".
Proof.
  intros Ext expr ctx.
  assert (Hvisit : forall n w, exists w', visit n w = (Ok (getText n), w')).
  { intros n w. eexists. reflexivity. }
  split; [exact Hvisit|].
  destruct (@visitNewExpression_skips_new Ext getText Hvisit ctx Model.initial_world)
    as [(w1 & Hpy & _) (w2 & Hjava & _)].
  split; [now rewrite Hpy|now rewrite Hjava].
Defined.

(** ** The Java [emitCode] *)

Section Code.
Context `{Ext : Externals}.

(** X11.  [emitCode] never visits its first argument: the code is
    rendered from the source text of the argument, and with one argument
    the only effect is the type of the call.  With two arguments the scope
    is visited and must be typed [_object].  Any other number of arguments
    is refused before anything is visited. *)
Theorem emitCode_never_visits_code (ctx : CallContext) (w : World) :
  let w0 := typed (call_node ctx) BsonClasses.Code w in
  (forall arg0,
      argumentList ctx = Some (mkArgumentList [arg0]) ->
      JavaGenerator.emitCode ctx w
      = (Ok ("new Code(" +:+ doubleQuoteStringify (getText arg0) +:+ ")"), w0)) /\
  (forall arg0 arg1 scope w1,
      argumentList ctx = Some (mkArgumentList [arg0; arg1]) ->
      visit arg1 w0 = (Ok scope, w1) ->
      JavaGenerator.emitCode ctx w
      = (if bool_decide (node_types w1 !! node_id arg1 = Some (TObj Types._object))
         then Ok ("new CodeWithScope(" +:+ doubleQuoteStringify (getText arg0) +:+
                  ", " +:+ scope +:+ ")")
         else Throw (mkError CodeGenerationError "Code requires scope to be an object"),
         w1)) /\
  (forall args,
      argumentList ctx = Some (mkArgumentList args) ->
      length args <> 1 -> length args <> 2 ->
      JavaGenerator.emitCode ctx w
      = (Throw (mkError CodeGenerationError "Code requires one or two arguments"), w0)) /\
  (argumentList ctx = None ->
   JavaGenerator.emitCode ctx w
   = (Throw (mkError CodeGenerationError "Code requires one or two arguments"), w0)).
Proof.
  intros w0. unfold JavaGenerator.emitCode. split; [|split; [|split]].
  - intros arg0 ->. reflexivity.
  - intros arg0 arg1 scope w1 -> Hv. subst w0. unfold typed in *. run_js.
    rewrite Hv. simpl.
    destruct (bool_decide (node_types w1 !! node_id arg1 = Some (TObj Types._object)));
      reflexivity.
  - intros args -> H1 H2. simpl.
    destruct (Nat.eqb_spec (length args) 1) as [|_]; [contradiction|].
    destruct (Nat.eqb_spec (length args) 2) as [|_]; [contradiction|].
    reflexivity.
  - intros ->. reflexivity.
Qed.

End Code.

(** ** Constructors of the Python emitter *)

Section PythonConstructors.
Context `{Ext : Externals}.
Variable rendered : Node -> string.
Variable slot : Node -> option TypeVal.

(** Every argument visits without error, renders [rendered arg] and is
    left with [slot arg] in its type slot. *)
Hypothesis visit_slot : forall arg w, exists w',
  visit arg w = (Ok (rendered arg), w') /\ node_types w' !! node_id arg = slot arg.

(** X12.  [Timestamp] takes exactly two arguments, refused otherwise
    before any visit; the first argument is checked before the second, and
    each must be typed [_integer]. *)
Theorem visitBSONTimestampConstructor_spec (ctx : CallContext) (w : World) :
  let run := PythonGenerator.visitBSONTimestampConstructor ctx w in
  match argumentList ctx with
  | Some (mkArgumentList [arg0; arg1]) =>
      fst run =
        if negb (bool_decide (slot arg0 = Some (TObj Types._integer))) then
          Throw (mkError SemanticTypeError
                   "Timestamp first argument requires integer arguments")
        else if negb (bool_decide (slot arg1 = Some (TObj Types._integer))) then
          Throw (mkError SemanticTypeError
                   "Timestamp second argument requires integer arguments")
        else Ok ("Timestamp(" +:+ rendered arg0 +:+ ", " +:+ rendered arg1 +:+ ")")
  | _ =>
      run = (Throw (mkError SemanticArgumentCountMismatchError
                      "Timestamp requires two arguments"), w)
  end.
Proof.
  intros run. subst run. unfold PythonGenerator.visitBSONTimestampConstructor.
  destruct (argumentList ctx) as [[args]|]; [|reflexivity].
  destruct args as [|arg0 [|arg1 [|arg2 args]]]; try reflexivity.
  - simpl. destruct (visit_slot arg0 w) as (w1 & Hv0 & Ht0).
    run_js. rewrite Hv0. simpl. rewrite Ht0.
    destruct (bool_decide (slot arg0 = Some (TObj Types._integer))); [|reflexivity].
    simpl. destruct (visit_slot arg1 w1) as (w2 & Hv1 & Ht1).
    rewrite Hv1. simpl. rewrite Ht1.
    destruct (bool_decide (slot arg1 = Some (TObj Types._integer))); reflexivity.
  - assert (E : (getChildCount (mkArgumentList (arg0 :: arg1 :: arg2 :: args)) =? 3)
                = false).
    { apply Nat.eqb_neq. unfold getChildCount. simpl. lia. }
    rewrite E. reflexivity.
Qed.

(** X13.  [DBRef] takes two or three arguments, refused otherwise before
    any visit: a string namespace, an object and, if given, a string
    collection, checked in this order. *)
Theorem visitBSONDBRefConstructor_spec (ctx : CallContext) (w : World) :
  let run := PythonGenerator.visitBSONDBRefConstructor ctx w in
  let checked (arg : Node) (t : JType) (message : string)
              (rest : result string) : result string :=
    if negb (bool_decide (slot arg = Some (TObj t))) then
      Throw (mkError SemanticTypeError message)
    else rest in
  match argumentList ctx with
  | Some (mkArgumentList [arg0; arg1]) =>
      fst run =
        checked arg0 Types._string "DBRef first argumnet requires string namespace"
          (checked arg1 Types._object "DBRef requires object OID"
             (Ok ("DBRef(" +:+ rendered arg0 +:+ ", " +:+ rendered arg1 +:+ ")")))
  | Some (mkArgumentList [arg0; arg1; arg2]) =>
      fst run =
        checked arg0 Types._string "DBRef first argumnet requires string namespace"
          (checked arg1 Types._object "DBRef requires object OID"
             (checked arg2 Types._string "DbRef requires string collection"
                (Ok ("DBRef(" +:+ rendered arg0 +:+ ", " +:+ rendered arg1 +:+ ", " +:+
                     rendered arg2 +:+ ")"))))
  | _ =>
      run = (Throw (mkError SemanticArgumentCountMismatchError
                      "DBRef requires two or three arguments"), w)
  end.
Proof.
  intros run checked. subst run checked.
  unfold PythonGenerator.visitBSONDBRefConstructor.
  destruct (argumentList ctx) as [[args]|]; [|reflexivity].
  destruct args as [|arg0 [|arg1 [|arg2 [|arg3 args]]]]; try reflexivity.
  - simpl. destruct (visit_slot arg0 w) as (w1 & Hv0 & Ht0).
    run_js. rewrite Hv0. simpl. rewrite Ht0.
    destruct (bool_decide (slot arg0 = Some (TObj Types._string))); [|reflexivity].
    simpl. destruct (visit_slot arg1 w1) as (w2 & Hv1 & Ht1).
    rewrite Hv1. simpl. rewrite Ht1.
    destruct (bool_decide (slot arg1 = Some (TObj Types._object))); reflexivity.
  - simpl. destruct (visit_slot arg0 w) as (w1 & Hv0 & Ht0).
    run_js. rewrite Hv0. simpl. rewrite Ht0.
    destruct (bool_decide (slot arg0 = Some (TObj Types._string))); [|reflexivity].
    simpl. destruct (visit_slot arg1 w1) as (w2 & Hv1 & Ht1).
    rewrite Hv1. simpl. rewrite Ht1.
    destruct (bool_decide (slot arg1 = Some (TObj Types._object))); [|reflexivity].
    simpl. destruct (visit_slot arg2 w2) as (w3 & Hv2 & Ht2).
    rewrite Hv2. simpl. rewrite Ht2.
    destruct (bool_decide (slot arg2 = Some (TObj Types._string))); reflexivity.
  - assert (E3 : (getChildCount
                    (mkArgumentList (arg0 :: arg1 :: arg2 :: arg3 :: args)) =? 3)
                 = false).
    { apply Nat.eqb_neq. unfold getChildCount. simpl. lia. }
    assert (E5 : (getChildCount
                    (mkArgumentList (arg0 :: arg1 :: arg2 :: arg3 :: args)) =? 5)
                 = false).
    { apply Nat.eqb_neq. unfold getChildCount. simpl. lia. }
    rewrite E3, E5. reflexivity.
Qed.

(** X14.  The constructors of one checked argument: [Double] accepts a
    string, a decimal or an integer and strips the quotes of its
    rendering, [Symbol] accepts a string, [Object.create] accepts an
    object and returns its rendering as it is; a call without argument or
    with two or more is refused before any visit. *)
Theorem python_one_argument_constructors (ctx : CallContext) (w : World) :
  match argumentList ctx with
  | Some (mkArgumentList [arg]) =>
      fst (PythonGenerator.visitBSONDoubleConstructor ctx w) =
        (if bool_decide (slot arg ∈ [Some (TObj Types._string);
                                     Some (TObj Types._decimal);
                                     Some (TObj Types._integer)])
         then Ok ("float(" +:+ removeQuotes (rendered arg) +:+ ")")
         else Throw (mkError SemanticTypeError
                       "Double requires a number or a string argument")) /\
      fst (PythonGenerator.visitBSONSymbolConstructor ctx w) =
        (if bool_decide (slot arg = Some (TObj Types._string))
         then Ok ("unicode(" +:+ rendered arg +:+ ", 'utf-8')")
         else Throw (mkError SemanticTypeError "Symbol requires a string argument")) /\
      fst (PythonGenerator.visitObjectCreateConstructorExpression ctx w) =
        (if bool_decide (slot arg = Some (TObj Types._object))
         then Ok (rendered arg)
         else Throw (mkError SemanticTypeError
                       "Object.create() requires an object argument"))
  | _ =>
      PythonGenerator.visitBSONDoubleConstructor ctx w
      = (Throw (mkError SemanticArgumentCountMismatchError
                  "Double requires one argument"), w) /\
      PythonGenerator.visitBSONSymbolConstructor ctx w
      = (Throw (mkError SemanticArgumentCountMismatchError
                  "Symbol requires one argument"), w) /\
      PythonGenerator.visitObjectCreateConstructorExpression ctx w
      = (Throw (mkError SemanticArgumentCountMismatchError
                  "Object.create() requires one argument"), w)
  end.
Proof.
  unfold PythonGenerator.visitBSONDoubleConstructor,
    PythonGenerator.visitBSONSymbolConstructor,
    PythonGenerator.visitObjectCreateConstructorExpression.
  destruct (argumentList ctx) as [[args]|]; [|repeat split].
  destruct args as [|arg [|arg1 args]]; [repeat split| |].
  - simpl. destruct (visit_slot arg w) as (w1 & Hv & Ht).
    run_js. rewrite Hv. simpl. rewrite Ht. split; [|split].
    + destruct (decide (slot arg = Some (TObj Types._string))) as [->|Hs];
        [reflexivity|].
      destruct (decide (slot arg = Some (TObj Types._decimal))) as [->|Hd];
        [reflexivity|].
      destruct (decide (slot arg = Some (TObj Types._integer))) as [->|Hi];
        [reflexivity|].
      rewrite !(bool_decide_eq_false_2 (slot arg = _)) by assumption.
      rewrite bool_decide_eq_false_2; [reflexivity|].
      rewrite !elem_of_cons, elem_of_nil. tauto.
    + destruct (bool_decide (slot arg = Some (TObj Types._string))); reflexivity.
    + destruct (bool_decide (slot arg = Some (TObj Types._object))); reflexivity.
  - assert (E : (getChildCount (mkArgumentList (arg :: arg1 :: args)) =? 1) = false).
    { apply Nat.eqb_neq. unfold getChildCount. simpl. lia. }
    rewrite E. repeat split.
Qed.

(** X15.  [Decimal128] takes exactly one argument and does not check its
    type: whatever the type slot of the argument holds, the rendering is
    wrapped as it is. *)
Theorem visitBSONDecimal128Constructor_unchecked (ctx : CallContext) (w : World) :
  match argumentList ctx with
  | Some (mkArgumentList [arg]) =>
      fst (PythonGenerator.visitBSONDecimal128Constructor ctx w)
      = Ok ("Decimal128(Decimal(" +:+ rendered arg +:+ "))")
  | _ =>
      PythonGenerator.visitBSONDecimal128Constructor ctx w
      = (Throw (mkError SemanticArgumentCountMismatchError
                  "Decimal128 requires one argument"), w)
  end.
Proof.
  unfold PythonGenerator.visitBSONDecimal128Constructor.
  destruct (argumentList ctx) as [[args]|]; [|reflexivity].
  destruct args as [|arg [|arg1 args]]; [reflexivity| |].
  - simpl. destruct (visit_slot arg w) as (w1 & Hv & _).
    run_js. rewrite Hv. reflexivity.
  - assert (E : (getChildCount (mkArgumentList (arg :: arg1 :: args)) =? 1) = false).
    { apply Nat.eqb_neq. unfold getChildCount. simpl. lia. }
    rewrite E. reflexivity.
Qed.

End PythonConstructors.

(** [Timestamp(100, 1)] on integer literals. *)
Lemma visitBSONTimestampConstructor_spec_witness :
  let Ext := Model.externals visit_integer no_sandbox in
  let ctx := mkCall (mkNode 0 "Timestamp(100,1)" [])
               (Some (mkArgumentList [mkNode 1 "100" []; mkNode 2 "1" []])) in
  (forall arg w, exists w',
      visit arg w = (Ok (getText arg), w') /\
      node_types w' !! node_id arg = Some (TObj Types._integer)) /\
  fst (PythonGenerator.visitBSONTimestampConstructor ctx Model.initial_world)
    = Ok "Timestamp(100, 1)".
Proof.
  intros Ext ctx.
  assert (Hvisit : forall arg w, exists w',
             visit arg w = (Ok (getText arg), w') /\
             node_types w' !! node_id arg = Some (TObj Types._integer)).
  { intros arg w. eexists. split; [reflexivity|]. apply lookup_insert_eq. }
  split; [exact Hvisit|].
  exact (@visitBSONTimestampConstructor_spec Ext getText
           (fun _ => Some (TObj Types._integer)) Hvisit ctx Model.initial_world).
Defined.

(** [DBRef('coll', 'id')] on string literals: the second argument is not
    an object. *)
Lemma visitBSONDBRefConstructor_spec_witness :
  let Ext := Model.externals visit_python_string no_sandbox in
  let ctx := mkCall (mkNode 0 "DBRef('coll','id')" [])
               (Some (mkArgumentList [mkNode 1 "'coll'" []; mkNode 2 "'id'" []])) in
  (forall arg w, exists w',
      visit arg w = (Ok (Model.singleQuoteStringify (Model.removeQuotes (getText arg))), w') /\
      node_types w' !! node_id arg = Some (TObj Types._string)) /\
  fst (PythonGenerator.visitBSONDBRefConstructor ctx Model.initial_world)
    = Throw (mkError SemanticTypeError "DBRef requires object OID").
Proof.
  intros Ext ctx.
  assert (Hvisit : forall arg w, exists w',
             visit arg w
             = (Ok (Model.singleQuoteStringify (Model.removeQuotes (getText arg))), w') /\
             node_types w' !! node_id arg = Some (TObj Types._string)).
  { intros arg w. eexists. split; [reflexivity|]. apply lookup_insert_eq. }
  split; [exact Hvisit|].
  exact (@visitBSONDBRefConstructor_spec Ext
           (fun arg => Model.singleQuoteStringify (Model.removeQuotes (getText arg)))
           (fun _ => Some (TObj Types._string)) Hvisit ctx Model.initial_world).
Defined.

(** The three constructors on the string literal ['abc']. *)
Lemma python_one_argument_constructors_witness :
  let Ext := Model.externals visit_python_string no_sandbox in
  let ctx := mkCall (mkNode 0 "f('abc')" [])
               (Some (mkArgumentList [mkNode 1 "'abc'" []])) in
  (forall arg w, exists w',
      visit arg w = (Ok (Model.singleQuoteStringify (Model.removeQuotes (getText arg))), w') /\
      node_types w' !! node_id arg = Some (TObj Types._string)) /\
  fst (PythonGenerator.visitBSONDoubleConstructor ctx Model.initial_world)
    = Ok "float(abc)" /\
  fst (PythonGenerator.visitBSONSymbolConstructor ctx Model.initial_world)
    = Ok "unicode('abc', 'utf-8')" /\
  fst (PythonGenerator.visitObjectCreateConstructorExpression ctx Model.initial_world)
    = Throw (mkError SemanticTypeError "Object.create() requires an object argument").
Proof.
  intros Ext ctx.
  assert (Hvisit : forall arg w, exists w',
             visit arg w
             = (Ok (Model.singleQuoteStringify (Model.removeQuotes (getText arg))), w') /\
             node_types w' !! node_id arg = Some (TObj Types._string)).
  { intros arg w. eexists. split; [reflexivity|]. apply lookup_insert_eq. }
  split; [exact Hvisit|].
  exact (@python_one_argument_constructors Ext
           (fun arg => Model.singleQuoteStringify (Model.removeQuotes (getText arg)))
           (fun _ => Some (TObj Types._string)) Hvisit ctx Model.initial_world).
Defined.

(** [Decimal128('5')] on a string literal. *)
Lemma visitBSONDecimal128Constructor_unchecked_witness :
  let Ext := Model.externals visit_python_string no_sandbox in
  let ctx := mkCall (mkNode 0 "Decimal128('5')" [])
               (Some (mkArgumentList [mkNode 1 "'5'" []])) in
  (forall arg w, exists w',
      visit arg w = (Ok (Model.singleQuoteStringify (Model.removeQuotes (getText arg))), w') /\
      node_types w' !! node_id arg = Some (TObj Types._string)) /\
  fst (PythonGenerator.visitBSONDecimal128Constructor ctx Model.initial_world)
    = Ok "Decimal128(Decimal('5'))".
Proof.
  intros Ext ctx.
  assert (Hvisit : forall arg w, exists w',
             visit arg w
             = (Ok (Model.singleQuoteStringify (Model.removeQuotes (getText arg))), w') /\
             node_types w' !! node_id arg = Some (TObj Types._string)).
  { intros arg w. eexists. split; [reflexivity|]. apply lookup_insert_eq. }
  split; [exact Hvisit|].
  exact (@visitBSONDecimal128Constructor_unchecked Ext
           (fun arg => Model.singleQuoteStringify (Model.removeQuotes (getText arg)))
           (fun _ => Some (TObj Types._string)) Hvisit ctx Model.initial_world).
Defined.

(** ** BSONRegExp with supported flags *)

Section BSONRegExpSupported.
Context `{Ext : Externals}.

(** The loop of the Java [emitBSONRegExp] finds nothing when every letter
    from index [i] to the closing quote is supported. *)
Lemma first_unsupported_all (fuel i : nat) (fl : string) :
  (forall k, i <= k < String.length fl - 1 ->
             JavaGenerator.is_imxlsu (charAt fl k) = true) ->
  JavaGenerator.first_unsupported fuel i fl = None.
Proof.
  revert i. induction fuel as [|fuel IH]; intros i Hall; [reflexivity|].
  simpl. destruct (Nat.ltb_spec i (String.length fl - 1)) as [Hlt|]; [|reflexivity].
  rewrite (Hall i) by lia. apply IH. intros k Hk. apply Hall. lia.
Qed.

(** X6.  With a pattern and flags that both type as strings, the Java
    [emitBSONRegExp] returns the constructor call over the two renderings
    exactly when every letter of the rendered flags between the quotes is
    one of [i], [m], [x], [l], [s] and [u]. *)
Theorem emitBSONRegExp_supported_flags
    (ctx : CallContext) (arg0 arg1 : Node) (w w1 w2 : World) (pattern fl : string) :
  argumentList ctx = Some (mkArgumentList [arg0; arg1]) ->
  visits_to arg0 (typed (call_node ctx) BsonClasses.RegExp w)
            pattern (TObj Types._string) w1 ->
  visits_to arg1 w1 fl (TObj Types._string) w2 ->
  (JavaGenerator.emitBSONRegExp ctx w
   = (Ok ("new BsonRegularExpression(" +:+ pattern +:+ ", " +:+ fl +:+ ")"), w2)
   <-> flags_supported fl).
Proof.
  intros Hargs [Hv0 Ht0] [Hv1 Ht1].
  unfold JavaGenerator.emitBSONRegExp. rewrite Hargs. unfold typed in Hv0.
  run_js. rewrite Hv0. simpl. rewrite Ht0. simpl. rewrite Hv1. simpl.
  rewrite Ht1. simpl.
  destruct (JavaGenerator.first_unsupported (String.length fl) 1 fl) as [c|] eqn:Hc.
  - split.
    + intros H. discriminate H.
    + intros Hall. exfalso.
      destruct (first_unsupported_some _ _ _ _ Hc) as (j & Hj & Hcj & Hns & _).
      rewrite <- Hcj, (Hall j Hj) in Hns. discriminate.
  - split; [|reflexivity]. intros _ k Hk.
    apply (first_unsupported_none (String.length fl) 1 fl); [lia|exact Hc|exact Hk].
Qed.

(** On letters that are all keys of [BSON_FLAGS] nothing is filtered out
    and the table maps every letter to itself. *)
Lemma bson_flags_supported (items : list string) :
  Forall (fun item => item ∈ ["i"; "m"; "x"; "s"; "l"; "u"]) items ->
  filter (fun item => PythonGenerator.is_bson_flag item = false) items = [] /\
  map (fun item => PythonGenerator.BSON_FLAGS !! item) items = map Some items.
Proof.
  induction 1 as [|item items Hitem _ [IHf IHm]]; [split; reflexivity|]. split.
  - rewrite filter_cons_False; [exact IHf|].
    rewrite is_bson_flag_spec, bool_decide_eq_false. tauto.
  - simpl. rewrite IHm. f_equal.
    repeat (apply elem_of_cons in Hitem as [->|Hitem]); try reflexivity.
    inversion Hitem.
Qed.

(** X5.  With a pattern and flags that both type as strings, and flags
    whose letters (the rendering without its quotes) are all among [i],
    [m], [x], [s], [l] and [u], the Python emitter returns [RegExp] over
    the pattern and the same letters in single quotes. *)
Theorem visitBSONRegExpConstructor_supported
    (ctx : CallContext) (arg0 arg1 : Node) (w w1 w2 : World) (pattern fl : string) :
  argumentList ctx = Some (mkArgumentList [arg0; arg1]) ->
  visits_to arg0 w pattern (TObj Types._string) w1 ->
  visits_to arg1 w1 fl (TObj Types._string) w2 ->
  fl <> "" ->
  Forall (fun item => item ∈ ["i"; "m"; "x"; "s"; "l"; "u"])
         (split_chars (removeQuotes fl)) ->
  PythonGenerator.visitBSONRegExpConstructor ctx w =
    (Ok ("RegExp(" +:+ pattern +:+ ", " +:+
         singleQuoteStringify (removeQuotes fl) +:+ ")"), w2).
Proof.
  intros Hargs [Hv0 Ht0] [Hv1 Ht1] Hfl Hall.
  unfold PythonGenerator.visitBSONRegExpConstructor. rewrite Hargs. simpl.
  run_js. rewrite Hv0. simpl. rewrite Ht0. simpl. rewrite Hv1. simpl.
  rewrite Ht1. simpl.
  destruct (String.eqb_spec fl "") as [->|_]; [congruence|]. simpl.
  destruct (bson_flags_supported _ Hall) as [Hfilter Hmap].
  rewrite Hfilter, Hmap. simpl.
  now rewrite join_empty_defined, concat_split_chars.
Qed.

End BSONRegExpSupported.

(** The call [BSONRegExp('a', 'im')] in the Java target. *)
Lemma emitBSONRegExp_supported_flags_witness :
  let Ext := Model.externals visit_java_string no_sandbox in
  let arg0 := mkNode 1 "'a'" [] in
  let arg1 := mkNode 2 "'im'" [] in
  let ctx := mkCall (mkNode 0 "BSONRegExp('a','im')" [])
                    (Some (mkArgumentList [arg0; arg1])) in
  let w0 := typed (call_node ctx) BsonClasses.RegExp Model.initial_world in
  let w1 := snd (visit arg0 w0) in
  let w2 := snd (visit arg1 w1) in
  let pattern := Model.double_quote +:+ "a" +:+ Model.double_quote in
  let fl := Model.double_quote +:+ "im" +:+ Model.double_quote in
  visits_to arg0 w0 pattern (TObj Types._string) w1 /\
  visits_to arg1 w1 fl (TObj Types._string) w2 /\
  flags_supported fl /\
  JavaGenerator.emitBSONRegExp ctx Model.initial_world
    = (Ok ("new BsonRegularExpression(" +:+ pattern +:+ ", " +:+ fl +:+ ")"), w2).
Proof.
  intros Ext arg0 arg1 ctx w0 w1 w2 pattern fl.
  assert (H0 : visits_to arg0 w0 pattern (TObj Types._string) w1).
  { split; reflexivity. }
  assert (H1 : visits_to arg1 w1 fl (TObj Types._string) w2).
  { split; reflexivity. }
  assert (Hall : flags_supported fl).
  { intros [|[|[|k]]] Hk; simpl in Hk; try lia; reflexivity. }
  split; [exact H0|]. split; [exact H1|]. split; [exact Hall|].
  exact (proj2 (@emitBSONRegExp_supported_flags Ext ctx arg0 arg1 Model.initial_world
                  w1 w2 pattern fl eq_refl H0 H1) Hall).
Defined.

(** The call [BSONRegExp('a', 'im')] in the Python target. *)
Lemma visitBSONRegExpConstructor_supported_witness :
  let Ext := Model.externals visit_python_string no_sandbox in
  let arg0 := mkNode 1 "'a'" [] in
  let arg1 := mkNode 2 "'im'" [] in
  let ctx := mkCall (mkNode 0 "BSONRegExp('a','im')" [])
                    (Some (mkArgumentList [arg0; arg1])) in
  let w1 := snd (visit arg0 Model.initial_world) in
  let w2 := snd (visit arg1 w1) in
  visits_to arg0 Model.initial_world "'a'" (TObj Types._string) w1 /\
  visits_to arg1 w1 "'im'" (TObj Types._string) w2 /\
  Forall (fun item => item ∈ ["i"; "m"; "x"; "s"; "l"; "u"])
         (split_chars (removeQuotes "'im'")) /\
  fst (PythonGenerator.visitBSONRegExpConstructor ctx Model.initial_world)
    = Ok "RegExp('a', 'im')".
Proof.
  intros Ext arg0 arg1 ctx w1 w2.
  assert (H0 : visits_to arg0 Model.initial_world "'a'" (TObj Types._string) w1).
  { split; reflexivity. }
  assert (H1 : visits_to arg1 w1 "'im'" (TObj Types._string) w2).
  { split; reflexivity. }
  assert (Hne : "'im'" <> "") by discriminate.
  assert (Hall : Forall (fun item => item ∈ ["i"; "m"; "x"; "s"; "l"; "u"])
                        (split_chars (removeQuotes "'im'"))).
  { repeat constructor. }
  split; [exact H0|]. split; [exact H1|]. split; [exact Hall|].
  exact (f_equal fst
           (@visitBSONRegExpConstructor_supported Ext ctx arg0 arg1 Model.initial_world
              w1 w2 "'a'" "'im'" eq_refl H0 H1 Hne Hall)).
Defined.

(** The call [BSONRegExp('a', 'gz')] in the Python target. *)
Lemma visitBSONRegExpConstructor_unsupported_witness :
  let Ext := Model.externals visit_python_string no_sandbox in
  let arg0 := mkNode 1 "'a'" [] in
  let arg1 := mkNode 2 "'gmz'" [] in
  let ctx := mkCall (mkNode 0 "BSONRegExp('a','gmz')" [])
                    (Some (mkArgumentList [arg0; arg1])) in
  let w1 := snd (visit arg0 Model.initial_world) in
  let w2 := snd (visit arg1 w1) in
  visits_to arg0 Model.initial_world "'a'" (TObj Types._string) w1 /\
  visits_to arg1 w1 "'gmz'" (TObj Types._string) w2 /\
  fst (PythonGenerator.visitBSONRegExpConstructor ctx Model.initial_world)
    = Throw (mkError SemanticGenericError
               "Regular expression contains unsuppoted 'gz' flag").
Proof.
  intros Ext arg0 arg1 ctx w1 w2.
  assert (H0 : visits_to arg0 Model.initial_world "'a'" (TObj Types._string) w1).
  { split; reflexivity. }
  assert (H1 : visits_to arg1 w1 "'gmz'" (TObj Types._string) w2).
  { split; reflexivity. }
  assert (Hne : "'gmz'" <> "") by discriminate.
  assert (Hoff : filter (fun item => item ∉ ["i"; "m"; "x"; "s"; "l"; "u"])
                        (split_chars (removeQuotes "'gmz'")) <> []) by discriminate.
  split; [exact H0|]. split; [exact H1|].
  exact (f_equal fst
           (@visitBSONRegExpConstructor_unsupported Ext ctx arg0 arg1 Model.initial_world
              w1 w2 "'a'" "'gmz'" eq_refl H0 H1 Hne Hoff)).
Defined.

(** ** Backslashes of a regular expression *)

Section FirstBackslash.
Context `{Ext : Externals}.

(** A pattern in which every backslash stands before a slash is left as
    it is. *)
Lemma replace_backslash_unchanged (s : string) :
  backslashes_before_slash s = true ->
  replace_backslash_not_before_slash s = s.
Proof.
  induction s as [|c s IH]; [reflexivity|]. simpl. intros H.
  apply andb_true_iff in H as [Hc Hs]. rewrite (IH Hs).
  destruct (Ascii.eqb c "\"); [|reflexivity].
  destruct s as [|d s']; [discriminate|].
  destruct (Ascii.eqb_spec d "/") as [->|Hd]; [reflexivity|].
  exfalso. destruct d as [[] [] [] [] [] [] [] []]; simpl in Hc;
    try discriminate. congruence.
Qed.

(** The leftmost backslash that does not stand before a slash is doubled,
    and what follows it is left as it is. *)
Lemma replace_backslash_first (pre post : string) :
  backslashes_before_slash pre = true ->
  no_leading_slash post = true ->
  replace_backslash_not_before_slash (pre +:+ String "\"%char post)
    = pre +:+ String "\"%char (String "\"%char post).
Proof.
  intros Hpre Hpost. induction pre as [|c pre IH].
  - change ("" +:+ String "\"%char post) with (String "\"%char post).
    simpl. destruct post as [|d post']; [reflexivity|].
    destruct (Ascii.eqb_spec d "/") as [->|Hd]; [discriminate|].
    destruct d as [[] [] [] [] [] [] [] []]; try reflexivity. congruence.
  - simpl in Hpre. apply andb_true_iff in Hpre as [Hc Hpre'].
    rewrite !(append_cons c pre). simpl. rewrite (IH Hpre').
    destruct (Ascii.eqb c "\"); [|reflexivity].
    destruct pre as [|d pre']; [discriminate|].
    rewrite (append_cons d pre').
    destruct (Ascii.eqb_spec d "/") as [->|Hd]; [reflexivity|].
    exfalso. destruct d as [[] [] [] [] [] [] [] []]; simpl in Hc;
      try discriminate. congruence.
Qed.

(** X16.  For a regular expression without flags, both emitters quote the
    source as it is when each of its backslashes stands before a slash;
    otherwise they double the leftmost backslash that does not, and leave
    everything after it as it is, further backslashes included. *)
Theorem regexp_doubles_first_backslash_only (ctx : Node) (w : World) (pattern : string) :
  Context_evaluate ("__result = " +:+ getText ctx) = Ok (HRegExp pattern "") ->
  (backslashes_before_slash pattern = true ->
   fst (PythonGenerator.buildRegExp ctx w)
     = Ok ("re.compile(r" +:+ doubleQuoteStringify pattern +:+ ")") /\
   fst (JavaGenerator.visitRegularExpressionLiteral ctx w)
     = Ok ("Pattern.compile(" +:+ doubleQuoteStringify pattern +:+ ")")) /\
  (forall pre post,
      pattern = pre +:+ "\" +:+ post ->
      backslashes_before_slash pre = true ->
      no_leading_slash post = true ->
      fst (PythonGenerator.buildRegExp ctx w)
        = Ok ("re.compile(r" +:+ doubleQuoteStringify (pre +:+ "\\" +:+ post) +:+ ")") /\
      fst (JavaGenerator.visitRegularExpressionLiteral ctx w)
        = Ok ("Pattern.compile(" +:+ doubleQuoteStringify (pre +:+ "\\" +:+ post)
              +:+ ")")).
Proof.
  intros Hev.
  rewrite (buildRegExp_of_regexp ctx w pattern "" Hev).
  rewrite (visitRegularExpressionLiteral_of_regexp ctx w pattern "" Hev).
  simpl. rewrite append_nil_r. split.
  - intros Hall. rewrite (replace_backslash_unchanged pattern Hall). split; reflexivity.
  - intros pre post -> Hpre Hpost.
    change (pre +:+ "\" +:+ post) with (pre +:+ String "\"%char post).
    rewrite (replace_backslash_first pre post Hpre Hpost). split; reflexivity.
Qed.

(** X17.  An exception of the sandbox is thrown on with its message, as a
    generic error by the Python emitter and as a code-generation error by
    the Java emitter, by the visit of a regular expression and by that of
    an [ObjectId] call with one argument. *)
Theorem sandbox_error_keeps_message (e : Error) (w : World) :
  (forall ctx : Node,
      Context_evaluate ("__result = " +:+ getText ctx) = Throw e ->
      fst (PythonGenerator.buildRegExp ctx w)
        = Throw (mkError SemanticGenericError (err_message e)) /\
      fst (JavaGenerator.visitRegularExpressionLiteral ctx w)
        = Throw (mkError CodeGenerationError (err_message e))) /\
  (forall (ctx : CallContext) (arg : Node),
      argumentList ctx = Some (mkArgumentList [arg]) ->
      Context_evaluate ("__result = " +:+ getText (call_node ctx)) = Throw e ->
      fst (PythonGenerator.visitBSONObjectIdConstructor ctx w)
        = Throw (mkError SemanticGenericError (err_message e)) /\
      fst (JavaGenerator.emitObjectId ctx w)
        = Throw (mkError CodeGenerationError (err_message e))).
Proof.
  split.
  - intros ctx Hev. unfold PythonGenerator.buildRegExp,
      JavaGenerator.visitRegularExpressionLiteral, CodeGenerator.executeJavascript,
      CodeGenerator.evaluate. run_js. rewrite Hev. split; reflexivity.
  - intros ctx arg Hargs Hev. unfold PythonGenerator.visitBSONObjectIdConstructor,
      JavaGenerator.emitObjectId, CodeGenerator.executeJavascript,
      CodeGenerator.evaluate.
    rewrite Hargs. run_js. rewrite Hev. repeat split.
Qed.

End FirstBackslash.

(** The literal [/a\/b\d\d/]: the escaped slash is kept, the first of the
    two other backslashes is doubled. *)
Lemma regexp_doubles_first_backslash_only_witness :
  let Ext := Model.externals CodeGenerator.visitTerminal
               (sandbox_on "/a\/b\d\d/" (Ok (HRegExp "a\/b\d\d" ""))) in
  let ctx := mkNode 0 "/a\/b\d\d/" [] in
  Context_evaluate ("__result = " +:+ getText ctx) = Ok (HRegExp "a\/b\d\d" "") /\
  backslashes_before_slash "a\/b" = true /\
  no_leading_slash "d\d" = true /\
  fst (PythonGenerator.buildRegExp ctx Model.initial_world)
    = Ok ("re.compile(r" +:+ Model.double_quote +:+ "a\/b\\d\d" +:+ Model.double_quote
          +:+ ")") /\
  fst (JavaGenerator.visitRegularExpressionLiteral ctx Model.initial_world)
    = Ok ("Pattern.compile(" +:+ Model.double_quote +:+ "a\/b\\d\d" +:+
          Model.double_quote +:+ ")").
Proof.
  intros Ext ctx. split; [reflexivity|]. split; [reflexivity|]. split; [reflexivity|].
  exact (proj2 (@regexp_doubles_first_backslash_only Ext ctx Model.initial_world
                  "a\/b\d\d" eq_refl) "a\/b" "d\d" eq_refl eq_refl eq_refl).
Defined.

(** ** The sandbox on success *)

(** The fragment [/foo/gi] evaluated in the initial world. *)
Lemma executeJavascript_success_witness :
  let Ext := Model.externals CodeGenerator.visitTerminal foo_gi_sandbox in
  contexts_wf Model.initial_world /\
  Context_evaluate ("__result = " +:+ "/foo/gi") = Ok (HRegExp "foo" "gi") /\
  fst (CodeGenerator.executeJavascript "/foo/gi" Model.initial_world)
    = Ok (HRegExp "foo" "gi") /\
  contexts_live (snd (CodeGenerator.executeJavascript "/foo/gi" Model.initial_world))
    = contexts_live Model.initial_world.
Proof.
  intros Ext.
  assert (Hwf : contexts_wf Model.initial_world).
  { intros c Hc. exfalso. revert Hc. apply not_elem_of_empty. }
  split; [exact Hwf|]. split; [reflexivity|].
  destruct (@executeJavascript_success Ext "/foo/gi" (HRegExp "foo" "gi")
              Model.initial_world Hwf eq_refl) as (Hres & Hlive & _).
  split; [exact Hres|exact Hlive].
Defined.

(** ** Octal literals through the visitor *)

Section OctalVisit.
Context `{Ext : Externals}.

(** X8.  When the children of an octal literal render an accepted
    literal other than [00], [visitOctalIntegerLiteral] returns [0o]
    followed by one octal digit or more, an accepted literal that denotes
    the same integer. *)
Theorem visitOctalIntegerLiteral_preserves_value
    (ctx : Node) (w w' : World) (oct digits : string) :
  CodeGenerator.visitChildren ctx CodeGenerator.no_options (typed ctx Types._octal w)
    = (Ok oct, w') ->
  octal_digits_of oct = Some digits ->
  oct <> "00" ->
  exists digits',
    PythonGenerator.visitOctalIntegerLiteral ctx w = (Ok ("0o" +:+ digits'), w') /\
    octal_digits_of ("0o" +:+ digits') = Some digits' /\
    octal_value digits' = octal_value digits.
Proof.
  intros Hv Hacc Hne.
  destruct (python_octal_preserves_value oct digits Hacc Hne)
    as (digits' & Hout & Hacc' & Hval).
  exists digits'. split; [|split; assumption].
  rewrite (visitOctalIntegerLiteral_text ctx w w' oct Hv). now rewrite Hout.
Qed.

End OctalVisit.

(** The literal [017], a rule node over one terminal: it is emitted as
    [0o17], the integer 15. *)
Lemma visitOctalIntegerLiteral_preserves_value_witness :
  let Ext := Model.externals CodeGenerator.visitTerminal no_sandbox in
  let ctx := mkNode 0 "017" [mkNode 1 "017" []] in
  octal_digits_of "017" = Some "17" /\
  exists digits',
    fst (PythonGenerator.visitOctalIntegerLiteral ctx Model.initial_world)
      = Ok ("0o" +:+ digits') /\
    octal_value digits' = 15%N.
Proof.
  intros Ext ctx. split; [reflexivity|].
  assert (Hne : "017" <> "00") by discriminate.
  destruct (@visitOctalIntegerLiteral_preserves_value Ext ctx Model.initial_world
              _ "017" "17" eq_refl eq_refl Hne) as (digits' & Hrun & _ & Hval).
  exists digits'. split; [now rewrite Hrun|exact Hval].
Defined.

(** ** The argument checker on a wrong number of arguments *)

Section CheckArgumentsCounts.
Context `{Ext : Externals}.
Variable rendered : Node -> string.
Variable ty : Node -> JType.

(** Every argument visits without error, renders [rendered arg] and is
    left with the Type [ty arg]. *)
Hypothesis visit_typed : forall arg w, exists w',
  visit arg w = (Ok (rendered arg), w') /\
  node_types w' !! node_id arg = Some (TObj (ty arg)).

Variable expected : list (list SlotEntry).
Variable args : list Node.
Variable lo : nat.

(** The optional slots are those from index [lo] on. *)
Hypothesis optional_from_lo : forall j slot,
  expected !! j = Some slot -> (ENull ∈ slot <-> lo <= j).

(** The loop on acceptable arguments that stop before the first optional
    slot. *)
Lemma checkArguments_for_too_few (n i : nat) (argStr : list string) (w : World) :
  i + n = length expected -> i <= length args -> length args < lo ->
  lo <= length expected ->
  all_acceptable_from ty expected args i ->
  fst (CodeGenerator.checkArguments_for n expected args i argStr w)
    = Throw (mkError SemanticArgumentCountMismatchError "too few arguments").
Proof.
  revert i argStr w. induction n as [|n IH]; intros i argStr w Hn Hi Hlo Hhi Hall;
    [lia|].
  destruct (lookup_lt_is_Some_2 expected i) as [slot Hslot]; [lia|].
  simpl. rewrite Hslot. destruct (args !! i) as [arg|] eqn:Harg.
  - pose proof (lookup_lt_Some _ _ _ Harg) as Hlt.
    destruct (visit_typed arg w) as (w' & Hv & Ht). run_js. rewrite Hv. simpl.
    rewrite Ht.
    assert (Hnext : fst (CodeGenerator.checkArguments_for n expected args (S i)
                           (argStr ++ [rendered arg]) w')
                    = Throw (mkError SemanticArgumentCountMismatchError
                               "too few arguments")).
    { apply IH; try lia. intros j a s Hj. apply Hall. lia. }
    pose proof (Hall i arg slot (le_n i) Harg Hslot) as Hacc.
    unfold acceptable in Hacc. revert Hacc.
    destruct (CodeGenerator.slot_has slot (EType Types._numeric) &&
              CodeGenerator.is_numeric_type (Some (TObj (ty arg))));
      [intros _; exact Hnext|].
    destruct (CodeGenerator.slot_has slot (EType (ty arg)));
      [intros _; exact Hnext|].
    destruct (CodeGenerator.slot_has slot (EId (type_id (ty arg))));
      [intros _; exact Hnext|].
    intros Hacc. discriminate Hacc.
  - assert (Hlen : length args = i).
    { apply lookup_ge_None in Harg. lia. }
    unfold CodeGenerator.slot_has. rewrite bool_decide_eq_false_2; [reflexivity|].
    intros Hnull. apply (optional_from_lo i slot Hslot) in Hnull. lia.
Qed.

(** X2.  More arguments than slots are refused before any argument is
    visited, with a message that gives both numbers.  Fewer arguments than
    there are slots before the first optional one are refused as too few,
    once the arguments given have been visited and found acceptable. *)
Theorem checkArguments_count_errors (w : World) :
  lo <= length expected ->
  let run := CodeGenerator.checkArguments expected (Some (mkArgumentList args)) w in
  (length expected < length args ->
   run = (Throw (mkError SemanticArgumentCountMismatchError
                   ("Arguments mismatch: expected " +:+ pretty (length expected) +:+
                    " and got " +:+ pretty (length args))), w)) /\
  (length args < lo ->
   all_acceptable_from ty expected args 0 ->
   fst run = Throw (mkError SemanticArgumentCountMismatchError "too few arguments")).
Proof.
  intros Hhi run. subst run. split.
  - intros Hlt. now apply checkArguments_too_many.
  - intros Hlo Hall. unfold CodeGenerator.checkArguments. simpl.
    destruct (Nat.ltb_spec (length expected) (length args)) as [Hlt|Hge]; [lia|].
    apply checkArguments_for_too_few; try lia. exact Hall.
Qed.

End CheckArgumentsCounts.

(** One integer against a schema of two integer slots, and three. *)
Lemma checkArguments_count_errors_witness :
  let Ext := Model.externals visit_integer no_sandbox in
  let expected := [[EType Types._integer]; [EType Types._integer]] in
  (forall arg w, exists w',
      visit arg w = (Ok (getText arg), w') /\
      node_types w' !! node_id arg = Some (TObj Types._integer)) /\
  (forall j slot, expected !! j = Some slot -> (ENull ∈ slot <-> 2 <= j)) /\
  fst (CodeGenerator.checkArguments expected
         (Some (mkArgumentList [mkNode 1 "100" []])) Model.initial_world)
    = Throw (mkError SemanticArgumentCountMismatchError "too few arguments") /\
  fst (CodeGenerator.checkArguments expected
         (Some (mkArgumentList [mkNode 1 "100" []; mkNode 2 "1" []; mkNode 3 "2" []]))
         Model.initial_world)
    = Throw (mkError SemanticArgumentCountMismatchError
               "Arguments mismatch: expected 2 and got 3").
Proof.
  intros Ext expected.
  assert (Hvisit : forall arg w, exists w',
             visit arg w = (Ok (getText arg), w') /\
             node_types w' !! node_id arg = Some (TObj Types._integer)).
  { intros arg w. eexists. split; [reflexivity|]. apply lookup_insert_eq. }
  assert (Hopt : forall j slot, expected !! j = Some slot -> (ENull ∈ slot <-> 2 <= j)).
  { intros [|[|j]] slot Hslot; inversion Hslot; subst;
      rewrite !elem_of_cons, elem_of_nil; split; intros H; try lia;
      destruct H as [H|H]; try discriminate H; contradiction. }
  split; [exact Hvisit|]. split; [exact Hopt|]. split.
  - apply (proj2 (@checkArguments_count_errors Ext getText (fun _ => Types._integer)
                    Hvisit expected [mkNode 1 "100" []] 2 Hopt Model.initial_world
                    (le_n 2))).
    + simpl; lia.
    + intros [|j] arg slot _ Harg Hslot; inversion Harg; inversion Hslot; subst;
        reflexivity.
  - reflexivity.
Defined.

(** [Code('x')], [Code('x', 1)] and [Code()] in the Java target, with
    arguments that visit as integers. *)
Lemma emitCode_never_visits_code_witness :
  let Ext := Model.externals visit_integer no_sandbox in
  let arg0 := mkNode 1 "'x'" [] in
  let node := mkNode 0 "Code('x')" [] in
  JavaGenerator.emitCode (mkCall node (Some (mkArgumentList [arg0]))) Model.initial_world
    = (Ok ("new Code(" +:+ Model.double_quote +:+ "x" +:+ Model.double_quote +:+ ")"),
       typed node BsonClasses.Code Model.initial_world) /\
  fst (JavaGenerator.emitCode
         (mkCall node (Some (mkArgumentList [arg0; mkNode 2 "1" []])))
         Model.initial_world)
    = Throw (mkError CodeGenerationError "Code requires scope to be an object") /\
  fst (JavaGenerator.emitCode (mkCall node None) Model.initial_world)
    = Throw (mkError CodeGenerationError "Code requires one or two arguments").
Proof.
  intros Ext arg0 node. split; [|split].
  - exact (proj1 (@emitCode_never_visits_code Ext
                    (mkCall node (Some (mkArgumentList [arg0]))) Model.initial_world)
             arg0 eq_refl).
  - reflexivity.
  - reflexivity.
Defined.

(** ** Identifiers and calls *)

Section Identifiers.
Context `{Ext : Externals} `{Sym : SymbolTableEnv} `{Proto : SymbolsPrototype}.

(** X18.  [visitIdentifierExpression] reads the rendering of its children
    as a property of the symbols.  For a symbol, the type slot of the node
    receives the symbol, whatever [visitChildren] had put there, no other
    slot changes, and a symbol without template renders as the name.  A
    name that is no symbol but a property that the symbols object
    inherits, such as [toString], raises nothing and renders as the name.
    Any other name is a reference error that quotes the name, and leaves
    the slot of the node unset. *)
Theorem visitIdentifierExpression_lookup (ctx : Node) (w w1 : World) (name : string) :
  CodeGenerator.visitChildren ctx CodeGenerator.no_options w = (Ok name, w1) ->
  let run := CodeGenerator.visitIdentifierExpression ctx w in
  (forall t, Symbols !! name = Some t ->
             node_types (snd run) !! node_id ctx = Some t /\
             (forall n, n <> node_id ctx ->
                        node_types (snd run) !! n = node_types w1 !! n) /\
             (match t with TObj ty => template ty = None | TName _ => True end ->
              fst run = Ok name)) /\
  (Symbols !! name = None -> name ∈ inherited -> fst run = Ok name) /\
  (Symbols !! name = None -> name ∉ inherited ->
   fst run = Throw (mkError SemanticReferenceError
                      ("symbol " +:+ quotation_mark +:+ name +:+ quotation_mark +:+
                       " is undefined")) /\
   node_types (snd run) !! node_id ctx = None /\
   (forall n, n <> node_id ctx -> node_types (snd run) !! n = node_types w1 !! n)).
Proof.
  intros Hrun run.
  assert (Heq : run =
            match Symbols !! name with
            | Some t =>
                (match t with
                 | TObj ty =>
                     Ok (match template ty with Some f => f [] | None => name end)
                 | TName _ => Ok name
                 end,
                 snd (set_type ctx (Some t) w1))
            | None =>
                if bool_decide (name ∈ inherited) then
                  (Ok name, assign_inherited ctx name w1)
                else
                  (Throw (mkError SemanticReferenceError
                            ("symbol " +:+ quotation_mark +:+ name +:+
                             quotation_mark +:+ " is undefined")),
                   snd (set_type ctx None w1))
            end).
  { subst run. unfold CodeGenerator.visitIdentifierExpression.
    unfold bind at 1. rewrite Hrun.
    destruct (Symbols !! name) as [[ty|s]|];
      [run_js; destruct (template ty); reflexivity
      |reflexivity
      |destruct (bool_decide (name ∈ inherited)); reflexivity]. }
  rewrite Heq. clear Heq run Hrun. split; [|split].
  - intros t Ht. rewrite Ht. simpl. split; [apply lookup_insert_eq|]. split.
    + intros n Hn. now apply lookup_insert_ne.
    + destruct t as [ty|s]; [|reflexivity]. intros Hno. now rewrite Hno.
  - intros Hnone Hin. rewrite Hnone, bool_decide_eq_true_2 by exact Hin. reflexivity.
  - intros Hnone Hout. rewrite Hnone, bool_decide_eq_false_2 by exact Hout. simpl.
    split; [reflexivity|]. split; [apply lookup_delete_eq|].
    intros n Hn. now apply lookup_delete_ne.
Qed.

(** X19.  A call whose callee has a Type that is not callable, and for
    which the target has no emit method, is a type error that names the
    Type; it is thrown before the arguments are checked or visited: the
    world is the one left by the visit of the callee, with the type of the
    call set. *)
Theorem visitFuncCallExpression_not_callable
    (ctx : FuncCallExpressionContext) (w w1 : World) (lhs : string)
    (tv : TypeVal) (T : JType) :
  visit (fc_singleExpression ctx) w = (Ok lhs, w1) ->
  node_types w1 !! node_id (fc_singleExpression ctx) = Some tv ->
  match tv with TObj t => Some t | TName name => Types_by_name !! name end = Some T ->
  emit (type_id T) = None ->
  callable T = NOT_CALLABLE ->
  CodeGenerator.visitFuncCallExpression ctx w
  = (Throw (mkError SemanticTypeError (type_id T +:+ " is not callable")),
     snd (set_type (call_node (fc_call ctx)) (type_of T) w1)).
Proof.
  intros Hv Ht HT Hemit Hcall. unfold CodeGenerator.visitFuncCallExpression.
  unfold bind at 1. rewrite Hv. unfold bind at 1, get_type at 1. rewrite Ht.
  assert (HT' : match tv with
                | TName name => Types_by_name !! name
                | TObj ty => Some ty
                end = Some T) by (destruct tv; exact HT).
  rewrite HT', Hemit. unfold bind at 1. rewrite Hcall. reflexivity.
Qed.

End Identifiers.

(** The identifier [Foo], which is no symbol and no inherited property,
    and the identifier [toString], which every object inherits. *)
Lemma visitIdentifierExpression_lookup_witness :
  let Ext := Model.externals CodeGenerator.visitTerminal no_sandbox in
  let Sym := int32_symbols in
  let Proto := object_prototype in
  let foo := mkNode 0 "Foo" [mkNode 1 "Foo" []] in
  let to_string := mkNode 0 "toString" [mkNode 1 "toString" []] in
  fst (CodeGenerator.visitChildren foo CodeGenerator.no_options Model.initial_world)
    = Ok "Foo" /\
  fst (CodeGenerator.visitIdentifierExpression foo Model.initial_world)
    = Throw (mkError SemanticReferenceError
               ("symbol " +:+ quotation_mark +:+ "Foo" +:+ quotation_mark +:+
                " is undefined")) /\
  fst (CodeGenerator.visitIdentifierExpression to_string Model.initial_world)
    = Ok "toString".
Proof.
  intros Ext Sym Proto foo to_string. split; [reflexivity|].
  assert (Hfoo : "Foo" ∉ @inherited Proto).
  { apply not_elem_of_list_to_set. rewrite !not_elem_of_cons.
    repeat split; try discriminate. apply not_elem_of_nil. }
  assert (Hto_string : "toString" ∈ @inherited Proto).
  { apply elem_of_list_to_set. rewrite !elem_of_cons. tauto. }
  split.
  - exact (proj1 (proj2 (proj2 (@visitIdentifierExpression_lookup Ext Sym Proto foo
                                  Model.initial_world _ "Foo" eq_refl))
                    eq_refl Hfoo)).
  - exact (proj1 (proj2 (@visitIdentifierExpression_lookup Ext Sym Proto to_string
                           Model.initial_world _ "toString" eq_refl))
             eq_refl Hto_string).
Defined.

(** The call [1(2)]: an integer is not callable. *)
Lemma visitFuncCallExpression_not_callable_witness :
  let Ext := Model.externals visit_call no_sandbox in
  let Sym := int32_symbols in
  let callee := mkNode 1 "1" [] in
  let ctx := mkFuncCall (mkCall (mkNode 0 "1(2)" [])
                           (Some (mkArgumentList [mkNode 2 "2" []])))
                        callee None in
  visit callee Model.initial_world
    = (Ok "1", typed callee Types._integer Model.initial_world) /\
  fst (CodeGenerator.visitFuncCallExpression ctx Model.initial_world)
    = Throw (mkError SemanticTypeError "_integer is not callable").
Proof.
  intros Ext Sym callee ctx. split; [reflexivity|].
  exact (f_equal fst
           (@visitFuncCallExpression_not_callable Ext Sym ctx Model.initial_world
              (typed callee Types._integer Model.initial_world) "1"
              (TObj Types._integer) Types._integer
              eq_refl eq_refl eq_refl eq_refl eq_refl)).
Defined.

(** ** Calls through the symbol table *)

Section Calls.
Context `{Ext : Externals} `{Sym : SymbolTableEnv}.
Variable rendered : Node -> string.
Variable ty : Node -> JType.

(** Every node visits without error, renders [rendered n] and is left
    with the Type [ty n]. *)
Hypothesis visit_typed : forall n w, exists w',
  visit n w = (Ok (rendered n), w') /\
  node_types w' !! node_id n = Some (TObj (ty n)).

(** What [checkArguments] gives back to a caller, with the world. *)
Lemma checkArguments_outcome (expected : list (list SlotEntry)) (actual : list Node)
    (lo : nat) (w : World) :
  (forall j slot, expected !! j = Some slot -> (ENull ∈ slot <-> lo <= j)) ->
  lo <= length expected ->
  exists r w',
    CodeGenerator.checkArguments expected (Some (mkArgumentList actual)) w = (r, w') /\
    ((lo <= length actual <= length expected /\
      all_acceptable_from ty expected actual 0) /\ r = Ok (map rendered actual) \/
     ~ (lo <= length actual <= length expected /\
        all_acceptable_from ty expected actual 0) /\ is_Ok r = false).
Proof.
  intros Hopt Hle.
  destruct (CodeGenerator.checkArguments expected (Some (mkArgumentList actual)) w)
    as [r w'] eqn:Hrun.
  exists r, w'. split; [reflexivity|].
  unfold CodeGenerator.checkArguments in Hrun. simpl in Hrun.
  destruct (Nat.ltb_spec (length expected) (length actual)) as [Hlt|Hge].
  - right. inversion Hrun; subst. split; [lia|reflexivity].
  - destruct (checkArguments_for_accepts rendered ty visit_typed expected actual lo
                Hopt Hle (length expected) 0 [] w)
      as [(Hall & Hlo & Hr)|(Hno & Hr)]; try lia.
    + left. rewrite Hrun in Hr. simpl in Hr. rewrite drop_0 in Hr.
      split; [split; [lia|exact Hall]|exact Hr].
    + right. rewrite Hrun in Hr. simpl in Hr. split; [|exact Hr].
      intros [[Hlo _] Hall]. apply Hno. split; assumption.
Qed.

(** X20.  A call whose callee has a callable Type without arguments
    template, and for which the target has no emit method, renders as the
    callee followed by the renderings of the arguments in parentheses,
    separated by a comma and a space, with the token [new] of the target
    in front when the Type is a constructor; it does so exactly when
    [checkArguments] accepts the call against the [args] of the Type, and
    throws otherwise.  A call with an argument list is accepted when the
    number of arguments lies between the first optional slot and the
    number of slots and each Type is acceptable.  A call written without
    arguments has no argument list: it is accepted only when [args] is
    empty, and otherwise refused with [arguments required], also when
    every slot is optional. *)
Theorem visitFuncCallExpression_renders_call
    (ctx : FuncCallExpressionContext) (lo : nat) (w : World) :
  let callee := fc_singleExpression ctx in
  let T := ty callee in
  emit (type_id T) = None ->
  callable T <> NOT_CALLABLE ->
  argsTemplate T = None ->
  (forall j slot, args T !! j = Some slot -> (ENull ∈ slot <-> lo <= j)) ->
  lo <= length (args T) ->
  let run := CodeGenerator.visitFuncCallExpression ctx w in
  let actual := arguments_of (argumentList (fc_call ctx)) in
  let call :=
    (match callable T with CONSTRUCTOR => new_token | _ => "" end) +:+
    rendered callee +:+ ("(" +:+ join ", " (map Some (map rendered actual)) +:+ ")") in
  (fst run = Ok call <-> call_accepted ty (args T) lo (argumentList (fc_call ctx))) /\
  (is_Ok (fst run) = true -> fst run = Ok call) /\
  (argumentList (fc_call ctx) = None -> args T <> [] ->
   fst run = Throw (mkError SemanticArgumentCountMismatchError "arguments required")).
Proof.
  intros callee T Hemit Hcall Htpl Hopt Hle run actual call.
  destruct (visit_typed callee w) as (w1 & Hv & Ht).
  set (w2 := snd (set_type (call_node (fc_call ctx)) (type_of T) w1)).
  assert (Hrun : forall r w3,
             CodeGenerator.checkArguments (args T) (argumentList (fc_call ctx)) w2
             = (r, w3) ->
             fst run = match r with
                       | Ok rhs =>
                           Ok ((match callable T with
                                | CONSTRUCTOR => new_token
                                | _ => ""
                                end) +:+ rendered callee +:+
                               ("(" +:+ join ", " (map Some rhs) +:+ ")"))
                       | Throw e => Throw e
                       end).
  { intros r w3 Hcheck. subst run. unfold CodeGenerator.visitFuncCallExpression.
    fold callee. unfold bind at 1. rewrite Hv. unfold bind at 1, get_type at 1.
    rewrite Ht. fold T. rewrite Hemit. unfold bind at 1.
    destruct (callable T) eqn:Hkind; [congruence| |];
      change (set_type (call_node (fc_call ctx)) (type_of T) w1) with (Ok tt, w2);
      cbv iota beta; unfold bind at 1; rewrite Hcheck;
      (destruct r; [rewrite Htpl; reflexivity|reflexivity]). }
  destruct (argumentList (fc_call ctx)) as [[given]|] eqn:Hargs.
  - destruct (checkArguments_outcome (args T) given lo w2 Hopt Hle)
      as (r & w3 & Hcheck & Hr).
    rewrite (Hrun r w3 Hcheck). simpl. subst actual call. simpl.
    destruct Hr as [[Hok ->]|[Hno Hr]].
    + split; [|split; [reflexivity|intros H; discriminate H]].
      split; [intros _; exact Hok|reflexivity].
    + destruct r as [rhs|e]; [discriminate|]. split; [|split].
      * split; [discriminate|]. intros Hok. contradiction.
      * discriminate.
      * intros H; discriminate H.
  - subst actual call. simpl. destruct (args T) as [|slot rest] eqn:Hexpected.
    + rewrite (Hrun (Ok []) w2 eq_refl). split; [|split].
      * split; reflexivity.
      * reflexivity.
      * intros _ Hne. congruence.
    + rewrite (Hrun (Throw (mkError SemanticArgumentCountMismatchError
                              "arguments required")) w2 eq_refl).
      split; [|split].
      * split; discriminate.
      * discriminate.
      * reflexivity.
Qed.

End Calls.

(** The calls [Int32(1)] and [Int32()]: [Int32] is a constructor that
    takes a number or a string, and the target writes [new] before a
    constructor. *)
Lemma visitFuncCallExpression_renders_call_witness :
  let Ext := Model.externals visit_call no_sandbox in
  let Sym := int32_symbols in
  let ty := fun n => if String.eqb (getText n) "Int32" then Int32 else Types._integer in
  let callee := mkNode 1 "Int32" [] in
  let given := Some (mkArgumentList [mkNode 2 "1" []]) in
  let ctx := mkFuncCall (mkCall (mkNode 0 "Int32(1)" []) given) callee None in
  let bare := mkFuncCall (mkCall (mkNode 0 "Int32()" []) None) callee None in
  (forall n w, exists w',
      visit n w = (Ok (getText n), w') /\
      node_types w' !! node_id n = Some (TObj (ty n))) /\
  (forall j slot, args Int32 !! j = Some slot -> (ENull ∈ slot <-> 1 <= j)) /\
  call_accepted ty (args Int32) 1 given /\
  fst (CodeGenerator.visitFuncCallExpression ctx Model.initial_world)
    = Ok "new Int32(1)" /\
  fst (CodeGenerator.visitFuncCallExpression bare Model.initial_world)
    = Throw (mkError SemanticArgumentCountMismatchError "arguments required").
Proof.
  intros Ext Sym ty callee given ctx bare.
  assert (Hvisit : forall n w, exists w',
             visit n w = (Ok (getText n), w') /\
             node_types w' !! node_id n = Some (TObj (ty n))).
  { intros n w. eexists. split; [reflexivity|]. apply lookup_insert_eq. }
  assert (Hopt : forall j slot,
             args Int32 !! j = Some slot -> (ENull ∈ slot <-> 1 <= j)).
  { intros [|j] slot Hslot; inversion Hslot; subst;
      rewrite !elem_of_cons, elem_of_nil; split; intros H; try lia;
      destruct H as [H|[H|H]]; try discriminate H; contradiction. }
  assert (Hall : call_accepted ty (args Int32) 1 given).
  { split; [simpl; lia|].
    intros [|j] arg slot _ Harg Hslot; inversion Harg; inversion Hslot; subst;
      reflexivity. }
  assert (Hcallable : callable Int32 <> NOT_CALLABLE) by discriminate.
  assert (Hschema : args Int32 <> []) by discriminate.
  split; [exact Hvisit|]. split; [exact Hopt|]. split; [exact Hall|]. split.
  - exact (proj2 (proj1 (@visitFuncCallExpression_renders_call Ext Sym getText ty
                           Hvisit ctx 1 Model.initial_world eq_refl Hcallable eq_refl
                           Hopt (le_n 1))) Hall).
  - exact (proj2 (proj2 (@visitFuncCallExpression_renders_call Ext Sym getText ty
                           Hvisit bare 1 Model.initial_world eq_refl Hcallable eq_refl
                           Hopt (le_n 1))) eq_refl Hschema).
Defined.

(** The call [ObjectId('zz')], on which the shim of the sandbox throws. *)
Lemma sandbox_error_keeps_message_witness :
  let Ext := Model.externals CodeGenerator.visitTerminal failing_sandbox in
  let ctx := mkCall (mkNode 0 "ObjectId('zz')" [])
               (Some (mkArgumentList [mkNode 1 "'zz'" []])) in
  Context_evaluate ("__result = " +:+ getText (call_node ctx)) = Throw failing_error /\
  fst (PythonGenerator.visitBSONObjectIdConstructor ctx Model.initial_world)
    = Throw (mkError SemanticGenericError (err_message failing_error)) /\
  fst (JavaGenerator.emitObjectId ctx Model.initial_world)
    = Throw (mkError CodeGenerationError (err_message failing_error)).
Proof.
  intros Ext ctx. split; [reflexivity|].
  destruct (proj2 (@sandbox_error_keeps_message Ext failing_error Model.initial_world)
              ctx (mkNode 1 "'zz'" []) eq_refl eq_refl) as (Hpy & Hjava).
  split; [exact Hpy|exact Hjava].
Defined.

(** ** Array literals and property lists *)

Section Lists.
Context `{Ext : Externals} `{NC : NodeClasses}.
Variable rendered : Node -> string.

(** Every node visits without error and renders [rendered n]. *)
Hypothesis visit_ok : forall n w, exists w', visit n w = (Ok (rendered n), w').

Lemma visitElementList_run (el : Node) (w : World) :
  (exists w', JavaGenerator.visitElementList el w = (Ok (rendered_elements rendered el), w')) /\
  (exists w', PythonGenerator.visitElementList el w = (Ok (rendered_elements rendered el), w')).
Proof.
  split.
  - destruct (visitChildren_run rendered visit_ok el
                (CodeGenerator.mkOptions None None None (Some ", ") None
                   (Some (filter (fun child => is_TerminalNodeImpl child = false)
                                 (children el)))) w eq_refl eq_refl eq_refl)
      as [w' Hrun].
    exists w'. exact Hrun.
  - destruct (visitChildren_run rendered visit_ok el
                (CodeGenerator.mkOptions None None None (Some ", ") None
                   (Some (filter (fun child => is_TerminalNodeImpl child = false)
                                 (children el)))) w eq_refl eq_refl eq_refl)
      as [w' Hrun].
    exists w'. exact Hrun.
Qed.

(** A node that the dispatcher sends to [visitElementList] renders as its
    elements. *)
Lemma rendered_element_list (el : Node) (w : World) :
  visit el w = JavaGenerator.visitElementList el w \/
  visit el w = PythonGenerator.visitElementList el w ->
  rendered el = rendered_elements rendered el.
Proof.
  destruct (visit_ok el w) as [w1 Hv].
  destruct (visitElementList_run el w) as [[w2 Hjava] [w3 Hpy]].
  intros [H|H]; rewrite Hv in H; [rewrite Hjava in H|rewrite Hpy in H];
    now inversion H.
Qed.

(** X22.  An element list renders its children that are not terminals, in
    order, separated by a comma and a space: the commas of the source are
    dropped and none is written after the last element.  The Java array
    literal wraps the rendering of its element list in [Arrays.asList(]
    and [)], and is [Arrays.asList()] without one; the Python array
    literal renders its bracket, element list and bracket one after the
    other. *)
Theorem array_literal_rendering (w : World) :
  (forall ctx,
      elementList ctx = None ->
      JavaGenerator.visitArrayLiteral ctx w
      = (Ok "Arrays.asList()", typed (arr_node ctx) Types._array w)) /\
  (forall ctx el,
      elementList ctx = Some el ->
      (forall w0, visit el w0 = JavaGenerator.visitElementList el w0) ->
      fst (JavaGenerator.visitArrayLiteral ctx w)
      = Ok ("Arrays.asList(" +:+ rendered_elements rendered el +:+ ")")) /\
  (forall el,
      fst (JavaGenerator.visitElementList el w) = Ok (rendered_elements rendered el) /\
      fst (PythonGenerator.visitElementList el w) = Ok (rendered_elements rendered el)) /\
  (forall node lb el rb,
      children node = [lb; el; rb] ->
      (forall w0, visit el w0 = PythonGenerator.visitElementList el w0) ->
      fst (PythonGenerator.visitArrayLiteral node w)
      = Ok (trim (rendered lb +:+ rendered_elements rendered el +:+ rendered rb))).
Proof.
  split; [|split; [|split]].
  - intros ctx Hnone. unfold JavaGenerator.visitArrayLiteral. rewrite Hnone.
    reflexivity.
  - intros ctx el Hel Hdispatch. unfold JavaGenerator.visitArrayLiteral.
    rewrite Hel. run_js.
    destruct (visit_ok el (typed (arr_node ctx) Types._array w)) as [w1 Hv].
    unfold typed in Hv. simpl in Hv. rewrite Hv. simpl.
    rewrite <- (rendered_element_list el w (or_introl (Hdispatch w))).
    reflexivity.
  - intros el. destruct (visitElementList_run el w) as [[w1 Hjava] [w2 Hpy]].
    now rewrite Hjava, Hpy.
  - intros node lb el rb Hchildren Hdispatch.
    unfold PythonGenerator.visitArrayLiteral. unfold bind at 1. simpl.
    match goal with |- context [CodeGenerator.visitChildren node _ ?w0] =>
      destruct (visitChildren_run rendered visit_ok node CodeGenerator.no_options w0
                  eq_refl eq_refl eq_refl) as [w1 Hrun] end.
    rewrite Hrun. simpl. rewrite Hchildren. simpl.
    rewrite (rendered_element_list el w (or_intror (Hdispatch w))).
    reflexivity.
Qed.

(** A node that the dispatcher sends to
    [visitPropertyAssignmentExpression] renders as a property. *)
Lemma rendered_property_assignment (pa : PropertyAssignmentContext) (w : World) :
  visit (pa_node pa) w = PythonGenerator.visitPropertyAssignmentExpression pa w ->
  rendered (pa_node pa) = rendered_property rendered pa.
Proof.
  destruct (visit_ok (pa_node pa) w) as [w1 Hv].
  unfold PythonGenerator.visitPropertyAssignmentExpression.
  destruct (visit_ok (propertyName pa) w) as [w2 Hname].
  destruct (visit_ok (pa_singleExpression pa) w2) as [w3 Hvalue].
  unfold bind at 1. rewrite Hname. unfold bind at 1. rewrite Hvalue.
  rewrite Hv. intros H. now inversion H.
Qed.

(** X21.  In the Python emitter a property list whose assignments are
    visited by [visitPropertyAssignmentExpression] renders every property
    as its name in single quotes, a colon and a space, and its value, in
    order, separated by a comma and a space. *)
Theorem property_list_rendering (ctx : PropertyNameAndValueListContext) (w : World) :
  (forall pa w0, pa ∈ propertyAssignment ctx ->
                 visit (pa_node pa) w0
                 = PythonGenerator.visitPropertyAssignmentExpression pa w0) ->
  fst (PythonGenerator.visitPropertyNameAndValueList ctx w)
  = Ok (trim (join ", "
                (map Some (map (rendered_property rendered) (propertyAssignment ctx))))).
Proof.
  intros Hdispatch. unfold PythonGenerator.visitPropertyNameAndValueList.
  destruct (visitChildren_run rendered visit_ok (pl_node ctx)
              (CodeGenerator.mkOptions None None None (Some ", ") None
                 (Some (map pa_node (propertyAssignment ctx)))) w
              eq_refl eq_refl eq_refl) as [w' Hrun].
  simpl in Hrun. rewrite Hrun. simpl.
  assert (Hmap : map rendered (map pa_node (propertyAssignment ctx))
                 = map (rendered_property rendered) (propertyAssignment ctx)).
  { rewrite map_map. apply map_ext_in. intros pa Hpa.
    apply (rendered_property_assignment pa w), Hdispatch.
    now apply list_elem_of_In. }
  now rewrite drop_0, Hmap.
Qed.

End Lists.

(** The array literal [[1, 2]] in the Java target. *)
Lemma array_literal_rendering_witness :
  let Ext := Model.externals visit_array no_sandbox in
  let NC := leaf_terminals in
  let ctx := mkArrayLiteral (mkNode 0 "[1,2]" [mkNode 1 "[" []; one_two; mkNode 8 "]" []])
                            (Some one_two) in
  (forall w0, visit one_two w0 = JavaGenerator.visitElementList one_two w0) /\
  fst (JavaGenerator.visitArrayLiteral ctx Model.initial_world)
    = Ok "Arrays.asList(1, 2)".
Proof.
  intros Ext NC ctx.
  set (rendered := fun n : Node =>
         if String.eqb (getText n) "1,2" then rendered_elements getText n
         else getText n).
  assert (Hvisit : forall n w, exists w', visit n w = (Ok (rendered n), w')).
  { intros n w. simpl. unfold visit_array, rendered.
    destruct (String.eqb (getText n) "1,2").
    - apply (@visitElementList_run
               (Model.externals CodeGenerator.visitTerminal no_sandbox) leaf_terminals
               getText).
      intros n0 w0. exists w0. reflexivity.
    - exists w. reflexivity. }
  assert (Hdispatch : forall w0,
             visit one_two w0 = JavaGenerator.visitElementList one_two w0).
  { intros w0. reflexivity. }
  split; [exact Hdispatch|].
  exact (proj1 (proj2 (@array_literal_rendering Ext NC rendered Hvisit
                         Model.initial_world)) ctx one_two eq_refl Hdispatch).
Defined.

(** The properties of the object literal [{a: 1, b: 2}] in the Python
    target. *)
Lemma property_list_rendering_witness :
  let Ext := Model.externals visit_property no_sandbox in
  let a := property 1 "a" "1" in
  let b := property 6 "b" "2" in
  let ctx := mkPropertyList (mkNode 0 "a:1,b:2" [pa_node a; mkNode 5 "," []; pa_node b])
                            [a; b] in
  (forall pa w0, pa ∈ propertyAssignment ctx ->
                 visit (pa_node pa) w0
                 = PythonGenerator.visitPropertyAssignmentExpression pa w0) /\
  fst (PythonGenerator.visitPropertyNameAndValueList ctx Model.initial_world)
    = Ok "'a': 1, 'b': 2".
Proof.
  intros Ext a b ctx.
  set (rendered := fun n : Node =>
         match children n with
         | [name; _; value] =>
             Model.singleQuoteStringify (getText name) +:+ ": " +:+ getText value
         | _ => getText n
         end).
  assert (Hvisit : forall n w, exists w', visit n w = (Ok (rendered n), w')).
  { intros n w. exists w. simpl. unfold visit_property, rendered.
    destruct (children n) as [|n1 [|n2 [|n3 [|n4 l]]]]; reflexivity. }
  assert (Hdispatch : forall pa w0, pa ∈ propertyAssignment ctx ->
             visit (pa_node pa) w0
             = PythonGenerator.visitPropertyAssignmentExpression pa w0).
  { intros pa w0 Hpa. simpl in Hpa.
    apply elem_of_cons in Hpa as [->|Hpa]; [reflexivity|].
    apply elem_of_cons in Hpa as [->|Hpa]; [reflexivity|].
    inversion Hpa. }
  split; [exact Hdispatch|].
  exact (@property_list_rendering Ext rendered Hvisit ctx Model.initial_world Hdispatch).
Defined.
